(** * A tutor/student matchmaking backend (Flask, [src/app.py])

    The server keeps two JSON files, [data/tutors.json] and
    [data/students.json], and five request handlers read and rewrite them.
    This development embeds

    - the Python values that [json.load] and [request.json] produce
      ([None], [bool], [int], [str], [list], [dict]), with the dynamic
      operations the handlers apply to them;
    - the text that [json.dump (data, f, indent=4)] writes and the decoder
      of [json.load];
    - the file system as a finite map from paths to file contents;
    - the handlers of [src/app.py], line by line, in a state-and-exception
      monad.

    Scope of the embedding.  Numbers are integers: [float] values are not
    part of the value type, and the decoder reports a number literal with a
    fraction or an exponent as [Unsupported].  A Python [str] is a
    [string] whose characters are the code points U+0000..U+00FF; a
    [\uXXXX] escape above U+00FF is reported as [Unsupported] too.  The
    clock read by [datetime.now ()] is an argument of the handler that
    uses it.  I/O failures other than a missing file are not modelled, nor
    are the limits of the interpreter (recursion depth, digits of an
    [int]).  A response is the object given to [jsonify] and the status. *)

From Stdlib Require Import ZArith Ascii String List Bool Lia.
From Stdlib Require Import DecimalString DecimalZ DecimalPos DecimalFacts Decimal.
From stdpp Require Import gmap strings list.

Local Open Scope Z_scope.
Local Open Scope string_scope.
Local Open Scope list_scope.

#[local] Arguments String.append !s1 s2 : simpl nomatch.

(** ** Python values *)

(** A dictionary key.  [request.json] and [json.load] only build [str]
    keys; the others arise from [data[tutor_id] = ...] when the client
    sends an id that is not a string. *)
Inductive key :=
| KStr (s : string)
| KInt (z : Z)
| KBool (b : bool)
| KNone.

Unset Elimination Schemes.

(** A value.  A [dict] is the list of its items in insertion order;
    induction on values is by [value_ind']. *)
Inductive value :=
| VNone
| VBool (b : bool)
| VInt (z : Z)
| VStr (s : string)
| VList (l : list value)
| VDict (d : list (key * value)).

Set Elimination Schemes.

Abbreviation dict := (list (key * value)).

(** Exceptions, by class.  The text of [str(e)] is not modelled: a
    response that carries it carries the exception. *)
Inductive exn :=
| KeyError (k : key)
| TypeError
| AttributeError
| IndexError
| FileNotFoundError (path : string)
| JSONDecodeError
| RecursionError
| Unsupported.

Definition result (A : Type) : Type := exn + A.

Definition ret {A} (a : A) : result A := inr a.

Definition raise {A} (e : exn) : result A := inl e.

Definition bind {A B} (m : result A) (f : A -> result B) : result B :=
  match m with
  | inl e => inl e
  | inr a => f a
  end.

Declare Scope result_scope.
Delimit Scope result_scope with result.

Notation "x <- m ;; k" := (bind m (fun x => k))
  (at level 100, m at next level, right associativity,
   format "'[v' x  <-  m  ;;  '/' k ']'") : result_scope.

Notation "' ( x , y ) <- m ;; k" := (bind m (fun xy => let '(x, y) := xy in k))
  (at level 100, m at next level, right associativity) : result_scope.

(** *** Keys *)

(** [True == 1] and [False == 0] in Python, with equal hashes: as keys
    they are the same key. *)
Definition key_num (k : key) : option Z :=
  match k with
  | KInt z => Some z
  | KBool b => Some (if b then 1 else 0)
  | _ => None
  end.

Definition key_eqb (a b : key) : bool :=
  match a, b with
  | KStr s, KStr t => String.eqb s t
  | KNone, KNone => true
  | _, _ =>
      match key_num a, key_num b with
      | Some x, Some y => Z.eqb x y
      | _, _ => false
      end
  end.

(** [hash(x)]: lists and dictionaries are unhashable. *)
Definition hashable (v : value) : result key :=
  match v with
  | VNone => ret KNone
  | VBool b => ret (KBool b)
  | VInt z => ret (KInt z)
  | VStr s => ret (KStr s)
  | VList _ | VDict _ => raise TypeError
  end.

Definition key_value (k : key) : value :=
  match k with
  | KStr s => VStr s
  | KInt z => VInt z
  | KBool b => VBool b
  | KNone => VNone
  end.

(** *** Dictionaries *)

Fixpoint dict_get (d : dict) (k : key) : option value :=
  match d with
  | [] => None
  | (k', v) :: r => if key_eqb k' k then Some v else dict_get r k
  end.

(** [d[k] = v]: an existing key keeps its place (and its key object), a new
    one goes last. *)
Fixpoint dict_set (d : dict) (k : key) (v : value) : dict :=
  match d with
  | [] => [(k, v)]
  | (k', v') :: r =>
      if key_eqb k' k then (k', v) :: r else (k', v') :: dict_set r k v
  end.

Definition dict_mem (d : dict) (k : key) : bool :=
  match dict_get d k with Some _ => true | None => false end.

(** [dict(pairs)] *)
Definition dict_of_pairs (pairs : list (key * value)) : dict :=
  fold_left (fun d kv => dict_set d (fst kv) (snd kv)) pairs [].

Definition dict_keys (d : dict) : list key := map fst d.

Definition dict_values (d : dict) : list value := map snd d.

(** *** Truth value, equality *)

Definition truthy (v : value) : bool :=
  match v with
  | VNone => false
  | VBool b => b
  | VInt z => negb (Z.eqb z 0)
  | VStr s => negb (String.eqb s "")
  | VList l => match l with [] => false | _ => true end
  | VDict d => match d with [] => false | _ => true end
  end.

Definition value_num (v : value) : option Z :=
  match v with
  | VInt z => Some z
  | VBool b => Some (if b then 1 else 0)
  | _ => None
  end.

(** [a == b].  Lists compare item by item, dictionaries as sets of items
    whatever their order. *)
Fixpoint py_eq (a b : value) : bool :=
  match a, b with
  | VNone, VNone => true
  | VStr s, VStr t => String.eqb s t
  | VList l, VList m =>
      (fix items (l m : list value) : bool :=
         match l, m with
         | [], [] => true
         | x :: l', y :: m' => py_eq x y && items l' m'
         | _, _ => false
         end) l m
  | VDict d, VDict e =>
      Nat.eqb (length d) (length e) &&
      (fix items (d : dict) : bool :=
         match d with
         | [] => true
         | (k, v) :: r =>
             (fix find (e : dict) : bool :=
                match e with
                | [] => false
                | (k', w) :: e' => if key_eqb k' k then py_eq v w else find e'
                end) e && items r
         end) d
  | _, _ =>
      match value_num a, value_num b with
      | Some x, Some y => Z.eqb x y
      | _, _ => false
      end
  end.

(** ** The encoder: [json.dump (data, f, indent=4)] *)

Definition LF : ascii := "010"%char.

Definition DQUOTE : ascii := "034"%char.

Definition BACKSLASH : ascii := "092"%char.

Definition chr (n : N) : ascii := ascii_of_N n.

Definition ord (c : ascii) : N := N_of_ascii c.

(** [repr] of an [int]: decimal digits, a minus sign when negative. *)
Definition intstr (z : Z) : string := NilZero.string_of_int (Z.to_int z).

Definition hexdigit (n : N) : ascii :=
  if (n <? 10)%N then chr (48 + n) else chr (87 + n).

(** One character of [ESCAPE_ASCII.sub (replace, s)]: the printable ASCII
    characters other than the quote and the backslash stand for
    themselves. *)
Definition escape_char (c : ascii) : string :=
  let n := ord c in
  if (n =? 34)%N then String BACKSLASH (String DQUOTE "")
  else if (n =? 92)%N then String BACKSLASH (String BACKSLASH "")
  else if (n =? 8)%N then String BACKSLASH "b"
  else if (n =? 12)%N then String BACKSLASH "f"
  else if (n =? 10)%N then String BACKSLASH "n"
  else if (n =? 13)%N then String BACKSLASH "r"
  else if (n =? 9)%N then String BACKSLASH "t"
  else if ((32 <=? n) && (n <=? 126))%N then String c ""
  else String BACKSLASH
         (String "u" (String "0" (String "0"
            (String (hexdigit (n / 16)) (String (hexdigit (n mod 16)) ""))))).

Fixpoint escape (s : string) : string :=
  match s with
  | "" => ""
  | String c r => escape_char c +:+ escape r
  end.

Definition encode_basestring_ascii (s : string) : string :=
  String DQUOTE (escape s +:+ String DQUOTE "").

(** The text a key is written as: [int], [bool] and [None] keys become
    strings. *)
Definition key_str (k : key) : string :=
  match k with
  | KStr s => s
  | KInt z => intstr z
  | KBool true => "true"
  | KBool false => "false"
  | KNone => "null"
  end.

Fixpoint spaces (n : nat) : string :=
  match n with
  | O => ""
  | S n' => String " " (spaces n')
  end.

(** ['\n' + _indent * _current_indent_level], with [_indent] four
    spaces. *)
Definition newline_indent (lvl : nat) : string :=
  String LF (spaces (4 * lvl)).

(** [_iterencode (o, _current_indent_level)], the chunks concatenated.
    The item separator is [","] followed by the new line and its
    indentation, the key separator [": "]. *)
Fixpoint iterencode (lvl : nat) (o : value) : string :=
  match o with
  | VNone => "null"
  | VBool true => "true"
  | VBool false => "false"
  | VInt z => intstr z
  | VStr s => encode_basestring_ascii s
  | VList [] => "[]"
  | VList l =>
      "[" +:+ newline_indent (S lvl) +:+
      String.concat ("," +:+ newline_indent (S lvl)) (map (iterencode (S lvl)) l) +:+
      newline_indent lvl +:+ "]"
  | VDict [] => "{}"
  | VDict d =>
      "{" +:+ newline_indent (S lvl) +:+
      String.concat ("," +:+ newline_indent (S lvl))
        (map (fun kv => encode_basestring_ascii (key_str (fst kv)) +:+ ": " +:+
                        iterencode (S lvl) (snd kv)) d) +:+
      newline_indent lvl +:+ "}"
  end.

Definition dumps (o : value) : string := iterencode 0 o.

(** ** The decoder: [json.load (f)] *)

Definition is_ws (c : ascii) : bool :=
  let n := ord c in ((n =? 32) || (n =? 9) || (n =? 10) || (n =? 13))%N.

Fixpoint skip_ws (s : string) : string :=
  match s with
  | String c r => if is_ws c then skip_ws r else s
  | "" => ""
  end.

Definition is_digit (c : ascii) : bool :=
  let n := ord c in ((48 <=? n) && (n <=? 57))%N.

Definition hexval (c : ascii) : option N :=
  let n := ord c in
  if ((48 <=? n) && (n <=? 57))%N then Some (n - 48)%N
  else if ((97 <=? n) && (n <=? 102))%N then Some (n - 87)%N
  else if ((65 <=? n) && (n <=? 70))%N then Some (n - 55)%N
  else None.

Definition hex4 (a b c d : ascii) : option N :=
  match hexval a, hexval b, hexval c, hexval d with
  | Some x, Some y, Some z, Some w => Some (((x * 16 + y) * 16 + z) * 16 + w)%N
  | _, _, _, _ => None
  end.

(** The character a backslash escape other than [\u] stands for. *)
Definition unescape (e : ascii) : option ascii :=
  let n := ord e in
  if (n =? 34)%N then Some DQUOTE
  else if (n =? 92)%N then Some BACKSLASH
  else if (n =? 47)%N then Some "/"%char
  else if (n =? 98)%N then Some (chr 8)
  else if (n =? 102)%N then Some (chr 12)
  else if (n =? 110)%N then Some (chr 10)
  else if (n =? 114)%N then Some (chr 13)
  else if (n =? 116)%N then Some (chr 9)
  else None.

(** [scanstring], strict, from the character after the opening quote:
    the string read and the text after its closing quote. *)
Fixpoint scanstring (s : string) : result (string * string) :=
  match s with
  | "" => raise JSONDecodeError
  | String c r =>
      if (ord c =? 34)%N then ret ("", r)
      else if (ord c =? 92)%N then
        match r with
        | "" => raise JSONDecodeError
        | String e r1 =>
            if (ord e =? 117)%N then
              match r1 with
              | String h1 (String h2 (String h3 (String h4 r2))) =>
                  match hex4 h1 h2 h3 h4 with
                  | None => raise JSONDecodeError
                  | Some n =>
                      if (n <? 256)%N then
                        match scanstring r2 with
                        | inl e => inl e
                        | inr (t, rest) => ret (String (chr n) t, rest)
                        end
                      else raise Unsupported
                  end
              | _ => raise JSONDecodeError
              end
            else
              match unescape e with
              | None => raise JSONDecodeError
              | Some ch =>
                  match scanstring r1 with
                  | inl e => inl e
                  | inr (t, rest) => ret (String ch t, rest)
                  end
              end
        end
      else if (ord c <? 32)%N then raise JSONDecodeError
      else
        match scanstring r with
        | inl e => inl e
        | inr (t, rest) => ret (String c t, rest)
        end
  end.

(** The longest run of digits at the head of the text. *)
Fixpoint span_digits (s : string) : string * string :=
  match s with
  | String c r =>
      if is_digit c then let (ds, rest) := span_digits r in (String c ds, rest)
      else ("", s)
  | "" => ("", "")
  end.

Definition head_is (p : ascii -> bool) (s : string) : bool :=
  match s with
  | String c _ => p c
  | "" => false
  end.

Definition is_char (a c : ascii) : bool := Ascii.eqb a c.

(** Does a fraction or an exponent follow the integer part?  Then the
    literal is a [float]. *)
Definition float_follows (s : string) : bool :=
  match s with
  | String c r =>
      if is_char "." c then head_is is_digit r
      else if is_char "e" c || is_char "E" c then
        match r with
        | String d r' =>
            if is_char "+" d || is_char "-" d then head_is is_digit r'
            else is_digit d
        | "" => false
        end
      else false
  | "" => false
  end.

(** The integer part of [NUMBER_RE]: an optional minus sign, then either
    a single zero or a run of digits that does not start with zero. *)
Definition int_part (s : string) : option (string * string) :=
  match s with
  | String c r =>
      if is_char "0" c then Some ("0", r)
      else if is_digit c then Some (span_digits s)
      else None
  | "" => None
  end.

Definition match_number (s : string) : result (value * string) :=
  let (negative, s1) :=
    match s with
    | String c r => if is_char "-" c then (true, r) else (false, s)
    | "" => (false, s)
    end in
  match int_part s1 with
  | None => raise JSONDecodeError
  | Some (ds, rest) =>
      if float_follows rest then raise Unsupported
      else
        match NilEmpty.uint_of_string ds with
        | Some u =>
            ret (VInt (if negative then Z.of_int (Neg u) else Z.of_int (Pos u)), rest)
        | None => raise JSONDecodeError
        end
  end.

Fixpoint strip_prefix (p s : string) : option string :=
  match p, s with
  | "", _ => Some s
  | String a p', String b s' => if Ascii.eqb a b then strip_prefix p' s' else None
  | String _ _, "" => None
  end.

(** The scalars other than strings: the three names, the [float] names,
    the numbers. *)
Definition scan_scalar (s : string) : result (value * string) :=
  match strip_prefix "null" s with
  | Some r => ret (VNone, r)
  | None =>
  match strip_prefix "true" s with
  | Some r => ret (VBool true, r)
  | None =>
  match strip_prefix "false" s with
  | Some r => ret (VBool false, r)
  | None =>
  match strip_prefix "NaN" s, strip_prefix "Infinity" s, strip_prefix "-Infinity" s with
  | None, None, None => match_number s
  | _, _, _ => raise Unsupported
  end end end end.

(** [scan_once], with the loops of [JSONArray] and [JSONObject].  The text
    is consumed from the left; [fuel] bounds the calls, and the fuel
    [loads] gives is never used up ([loads_no_recursion_error]).

    [parse_elements] starts at an item of an array and [parse_members]
    after the opening quote of a key; both carry what has been read so
    far.  An object is built with [dict_set], so that of two members with
    one key the second gives the value and the first the place. *)
Fixpoint scan_once (fuel : nat) (s : string) {struct fuel} : result (value * string) :=
  match fuel with
  | O => raise RecursionError
  | S f =>
      match s with
      | "" => raise JSONDecodeError
      | String c r =>
          if is_char DQUOTE c then
            match scanstring r with
            | inl e => inl e
            | inr (t, r1) => ret (VStr t, r1)
            end
          else if is_char "{" c then
            match skip_ws r with
            | String c1 r1 =>
                if is_char "}" c1 then ret (VDict [], r1)
                else if is_char DQUOTE c1 then parse_members f r1 []
                else raise JSONDecodeError
            | "" => raise JSONDecodeError
            end
          else if is_char "[" c then
            match skip_ws r with
            | String c1 r1 =>
                if is_char "]" c1 then ret (VList [], r1)
                else parse_elements f (String c1 r1) []
            | "" => raise JSONDecodeError
            end
          else scan_scalar s
      end
  end
with parse_elements (fuel : nat) (s : string) (acc : list value) {struct fuel}
  : result (value * string) :=
  match fuel with
  | O => raise RecursionError
  | S f =>
      match scan_once f s with
      | inl e => inl e
      | inr (v, r) =>
          match skip_ws r with
          | String c r1 =>
              if is_char "]" c then ret (VList (acc ++ [v]), r1)
              else if is_char "," c then parse_elements f (skip_ws r1) (acc ++ [v])
              else raise JSONDecodeError
          | "" => raise JSONDecodeError
          end
      end
  end
with parse_members (fuel : nat) (s : string) (acc : dict) {struct fuel}
  : result (value * string) :=
  match fuel with
  | O => raise RecursionError
  | S f =>
      match scanstring s with
      | inl e => inl e
      | inr (k, r) =>
          match skip_ws r with
          | String c r1 =>
              if is_char ":" c then
                match scan_once f (skip_ws r1) with
                | inl e => inl e
                | inr (v, r2) =>
                    match skip_ws r2 with
                    | String c2 r3 =>
                        if is_char "}" c2 then ret (VDict (dict_set acc (KStr k) v), r3)
                        else if is_char "," c2 then
                          match skip_ws r3 with
                          | String c3 r4 =>
                              if is_char DQUOTE c3
                              then parse_members f r4 (dict_set acc (KStr k) v)
                              else raise JSONDecodeError
                          | "" => raise JSONDecodeError
                          end
                        else raise JSONDecodeError
                    | "" => raise JSONDecodeError
                    end
                end
              else raise JSONDecodeError
          | "" => raise JSONDecodeError
          end
      end
  end.

(** [JSONDecoder.decode]: white space, one value, white space, the end. *)
Definition loads (s : string) : result value :=
  match scan_once (2 * String.length s + 1) (skip_ws s) with
  | inl e => inl e
  | inr (v, r) =>
      match skip_ws r with
      | "" => ret v
      | String _ _ => raise JSONDecodeError
      end
  end.

(** ** The files *)

Abbreviation files := (gmap string string).

Definition DATA_FOLDER : string := "data".

Definition TUTORS_FILE : string := "data/tutors.json".

Definition STUDENTS_FILE : string := "data/students.json".

(** [load_data (file_path)]: [open (file_path, 'r')] raises when the file
    is missing, [json.load] when its text is not JSON. *)
Definition load_data (file_path : string) (fs : files) : result value :=
  match fs !! file_path with
  | None => raise (FileNotFoundError file_path)
  | Some text => loads text
  end.

(** [save_data (file_path, data)]: [open (file_path, 'w')] empties the
    file, [json.dump] writes the text of [data]. *)
Definition save_data (file_path : string) (data : value) (fs : files) : files :=
  <[file_path := dumps data]> fs.

(** [ensure_data_files_exist ()]: a file that is missing or empty is
    started with the text of the empty dictionary. *)
Definition ensure_file (file_path : string) (fs : files) : files :=
  match fs !! file_path with
  | Some (String _ _) => fs
  | _ => <[file_path := dumps (VDict [])]> fs
  end.

Definition ensure_data_files_exist (fs : files) : files :=
  ensure_file STUDENTS_FILE (ensure_file TUTORS_FILE fs).

(** ** The operations the handlers apply to values *)

(** [o.get (k, default)]; [o.get (k)] is [o.get (k, None)].  Only a
    dictionary has the method. *)
Definition py_get (o : value) (k : string) (default : value) : result value :=
  match o with
  | VDict d =>
      ret (match dict_get d (KStr k) with Some v => v | None => default end)
  | _ => raise AttributeError
  end.

(** [t in s] for strings. *)
Fixpoint is_substring (t s : string) : bool :=
  match strip_prefix t s with
  | Some _ => true
  | None =>
      match s with
      | "" => false
      | String _ s' => is_substring t s'
      end
  end.

(** [x in c] *)
Definition py_contains (c x : value) : result bool :=
  match c with
  | VDict d => (k <- hashable x ;; ret (dict_mem d k))%result
  | VList l => ret (existsb (fun y => py_eq y x) l)
  | VStr s =>
      match x with
      | VStr t => ret (is_substring t s)
      | _ => raise TypeError
      end
  | _ => raise TypeError
  end.

(** The position an index denotes in a sequence of [n] items: a negative
    index counts from the end. *)
Definition py_index (n : nat) (i : Z) : result nat :=
  let j := (if i <? 0 then i + Z.of_nat n else i)%Z in
  if ((0 <=? j) && (j <? Z.of_nat n))%Z then ret (Z.to_nat j) else raise IndexError.

(** [c[k]] *)
Definition py_getitem (c k : value) : result value :=
  match c with
  | VDict d =>
      (key <- hashable k ;;
       match dict_get d key with
       | Some v => ret v
       | None => raise (KeyError key)
       end)%result
  | VList l =>
      match value_num k with
      | Some i =>
          (j <- py_index (length l) i ;;
           match nth_error l j with
           | Some v => ret v
           | None => raise IndexError
           end)%result
      | None => raise TypeError
      end
  | VStr s =>
      match value_num k with
      | Some i =>
          (j <- py_index (String.length s) i ;;
           match String.get j s with
           | Some ch => ret (VStr (String ch ""))
           | None => raise IndexError
           end)%result
      | None => raise TypeError
      end
  | _ => raise TypeError
  end.

(** [c[k] = v] *)
Definition py_setitem (c k v : value) : result value :=
  match c with
  | VDict d => (key <- hashable k ;; ret (VDict (dict_set d key v)))%result
  | VList l =>
      match value_num k with
      | Some i => (j <- py_index (length l) i ;; ret (VList (<[j := v]> l)))%result
      | None => raise TypeError
      end
  | _ => raise TypeError
  end.

(** [c.append (v)] *)
Definition py_append (c v : value) : result value :=
  match c with
  | VList l => ret (VList (l ++ [v]))
  | _ => raise AttributeError
  end.

(** [list (c.values ())] and [c.items ()] *)
Definition py_values (c : value) : result (list value) :=
  match c with
  | VDict d => ret (dict_values d)
  | _ => raise AttributeError
  end.

Definition py_items (c : value) : result dict :=
  match c with
  | VDict d => ret d
  | _ => raise AttributeError
  end.

(** A list comprehension whose item expression may raise. *)
Fixpoint traverse {A B} (f : A -> result B) (l : list A) : result (list B) :=
  match l with
  | [] => ret []
  | x :: r => (y <- f x ;; ys <- traverse f r ;; ret (y :: ys))%result
  end.

(** *** [repr] and [str] *)

Definition hex2 (n : N) : string :=
  String (hexdigit (n / 16)) (String (hexdigit (n mod 16)) "").

Definition has_char (c : ascii) (s : string) : bool :=
  existsb (Ascii.eqb c) (list_ascii_of_string s).

(** The quote [repr] puts around a string: the double quote when the
    string holds a single quote and no double quote. *)
Definition repr_quote (s : string) : ascii :=
  if has_char "'" s && negb (has_char DQUOTE s) then DQUOTE else "'"%char.

(** Among the characters above U+007E, [str.isprintable] rejects
    U+007F..U+00A0 and U+00AD. *)
Definition repr_char (quote c : ascii) : string :=
  let n := ord c in
  if Ascii.eqb c quote || (n =? 92)%N then String BACKSLASH (String c "")
  else if (n =? 9)%N then String BACKSLASH "t"
  else if (n =? 10)%N then String BACKSLASH "n"
  else if (n =? 13)%N then String BACKSLASH "r"
  else if ((n <? 32) || ((127 <=? n) && (n <=? 160)) || (n =? 173))%N
       then String BACKSLASH (String "x" (hex2 n))
  else String c "".

Definition repr_str (s : string) : string :=
  let q := repr_quote s in
  String q (String.concat "" (map (repr_char q) (list_ascii_of_string s)) +:+ String q "").

Definition repr_key (k : key) : string :=
  match k with
  | KStr s => repr_str s
  | KInt z => intstr z
  | KBool true => "True"
  | KBool false => "False"
  | KNone => "None"
  end.

Fixpoint py_repr (v : value) : string :=
  match v with
  | VNone => "None"
  | VBool true => "True"
  | VBool false => "False"
  | VInt z => intstr z
  | VStr s => repr_str s
  | VList l => "[" +:+ String.concat ", " (map py_repr l) +:+ "]"
  | VDict d =>
      "{" +:+
      String.concat ", " (map (fun kv => repr_key (fst kv) +:+ ": " +:+ py_repr (snd kv)) d) +:+
      "}"
  end.

(** [str (v)], which is what [f"{v}"] formats. *)
Definition py_str (v : value) : string :=
  match v with
  | VStr s => s
  | _ => py_repr v
  end.

(** ** Requests and responses *)

(** What a handler returns: [jsonify (...)], status.  The body of a
    failure is [{"message": message, "error": str(e)}]. *)
Inductive payload :=
| Json (v : value)
| Failure (message : string) (e : exn).

Definition response : Type := payload * Z.

Definition message (text : string) : payload :=
  Json (VDict [(KStr "message", VStr text)]).

(** A computation that reads and writes the files and may raise. *)
Definition io (A : Type) : Type := files -> result A * files.

Definition io_ret {A} (a : A) : io A := fun fs => (inr a, fs).

Definition io_bind {A B} (m : io A) (f : A -> io B) : io B :=
  fun fs =>
    match m fs with
    | (inl e, fs') => (inl e, fs')
    | (inr a, fs') => f a fs'
    end.

Definition lift {A} (r : result A) : io A := fun fs => (r, fs).

Declare Scope io_scope.
Delimit Scope io_scope with io.

Notation "x <- m ;; k" := (io_bind m (fun x => k))
  (at level 100, m at next level, right associativity) : io_scope.

Definition io_load (file_path : string) : io value :=
  fun fs => (load_data file_path fs, fs).

Definition io_save (file_path : string) (data : value) : io unit :=
  fun fs => (inr tt, save_data file_path data fs).

(** [try: body except Exception as e: return handler (e)] *)
Definition try_except {A} (body : io A) (handler : exn -> A) : io A :=
  fun fs =>
    match body fs with
    | (inl e, fs') => (inr (handler e), fs')
    | (inr a, fs') => (inr a, fs')
    end.

(** ** The handlers

    A handler takes [request.json] (and what else the request brings) and
    is a computation over the files.  An exception that leaves the
    handler, [inl e], is one Flask answers with its own 500 page. *)

(** [POST /api/register/tutor] *)
Definition register_tutor (request_json : value) : io response :=
  (let tutor_data := request_json in
   tutor_id <- lift (py_get tutor_data "id" VNone) ;;
   if negb (truthy tutor_id) then
     io_ret (message "Tutor ID is required", 400)
   else
     try_except
       (data <- io_load TUTORS_FILE ;;
        tutor_data <- lift (py_setitem tutor_data (VStr "notifications") (VList [])) ;;
        data <- lift (py_setitem data tutor_id tutor_data) ;;
        _ <- io_save TUTORS_FILE data ;;
        io_ret (message "Tutor profile saved successfully!", 201))
       (fun e => (Failure "Failed to save tutor profile" e, 500)))%io.

(** [POST /api/register/student] *)
Definition register_student (request_json : value) : io response :=
  (let student_data := request_json in
   student_id <- lift (py_get student_data "id" VNone) ;;
   if negb (truthy student_id) then
     io_ret (message "Student ID is required", 400)
   else
     try_except
       (data <- io_load STUDENTS_FILE ;;
        data <- lift (py_setitem data student_id student_data) ;;
        _ <- io_save STUDENTS_FILE data ;;
        io_ret (message "Student profile saved successfully!", 201))
       (fun e => (Failure "Failed to save student profile" e, 500)))%io.

(** [k != 'notifications'], on an item [(k, v)] *)
Definition not_notifications (kv : key * value) : bool :=
  negb (key_eqb (fst kv) (KStr "notifications")).

(** [{k: v for k, v in tutor.items () if k != 'notifications'}] *)
Definition without_notifications (tutor : value) : result value :=
  (items <- py_items tutor ;;
   ret (VDict (dict_of_pairs (List.filter not_notifications items))))%result.

(** [GET /api/tutors] *)
Definition get_all_tutors : io response :=
  try_except
    (data <- io_load TUTORS_FILE ;;
     tutor_list <- lift (py_values data) ;;
     filtered_tutors <- lift (traverse without_notifications tutor_list) ;;
     io_ret (Json (VList filtered_tutors), 200))%io
    (fun e => (Failure "Failed to retrieve tutor data" e, 500)).

(** The notification [select_tutor] builds; [now] is
    [datetime.now ().isoformat ()]. *)
Definition notification_for (now : string) (student_id : value) : value :=
  VDict [ (KStr "student_id", student_id);
          (KStr "message",
           VStr ("Student " +:+ py_str student_id +:+ " is interested in your services."));
          (KStr "timestamp", VStr now) ].

(** [tutor_data[tutor_id]['notifications'].append (notification)].  The
    value [json.load] built shares no object, so the list changed in place
    is the one at this path of [tutor_data] and nowhere else: the
    statement leaves [tutor_data] with that item replaced. *)
Definition append_notification (tutor_data tutor_id notification : value) : result value :=
  (tutor <- py_getitem tutor_data tutor_id ;;
   notifications <- py_getitem tutor (VStr "notifications") ;;
   notifications <- py_append notifications notification ;;
   tutor <- py_setitem tutor (VStr "notifications") notifications ;;
   py_setitem tutor_data tutor_id tutor)%result.

(** [POST /api/tutor/select] *)
Definition select_tutor (now : string) (request_json : value) : io response :=
  (let request_data := request_json in
   tutor_id <- lift (py_get request_data "tutorId" VNone) ;;
   student_id <- lift (py_get request_data "studentId" VNone) ;;
   if negb (truthy tutor_id) || negb (truthy student_id) then
     io_ret (message "Tutor ID and Student ID are required", 400)
   else
     try_except
       (tutor_data <- io_load TUTORS_FILE ;;
        student_data <- io_load STUDENTS_FILE ;;
        tutor_found <- lift (py_contains tutor_data tutor_id) ;;
        not_found <- (if negb tutor_found then io_ret true
                      else student_found <- lift (py_contains student_data student_id) ;;
                           io_ret (negb student_found)) ;;
        if not_found : bool then
          io_ret (message "Tutor or student not found", 404)
        else
          let notification := notification_for now student_id in
          tutor_data <- lift (append_notification tutor_data tutor_id notification) ;;
          _ <- io_save TUTORS_FILE tutor_data ;;
          io_ret (message "Tutor notified successfully!", 200))
       (fun e => (Failure "Failed to notify tutor" e, 500)))%io.

(** [GET /api/tutor/notifications/<string:tutor_id>] *)
Definition get_tutor_notifications (tutor_id : string) : io response :=
  try_except
    (tutor_data <- io_load TUTORS_FILE ;;
     tutor_profile <- lift (py_get tutor_data tutor_id VNone) ;;
     if negb (truthy tutor_profile) then
       io_ret (message "Tutor not found", 404)
     else
       notifications <- lift (py_get tutor_profile "notifications" (VList [])) ;;
       io_ret (Json (VDict [(KStr "notifications", notifications)]), 200))%io
    (fun e => (Failure "Failed to retrieve notifications" e, 500)).

(** The files after one selection request for each time of [nows], in
    order. *)
Fixpoint select_repeatedly (nows : list string) (request_json : value) (fs : files)
  : files :=
  match nows with
  | [] => fs
  | now :: later => select_repeatedly later request_json (snd (select_tutor now request_json fs))
  end.

(** ** Decoded values, coercion, and what the listing shows *)

Definition is_str_key (k : key) : bool :=
  match k with KStr _ => true | _ => false end.

(** No key equals a later one. *)
Fixpoint distinct_keys (ks : list key) : bool :=
  match ks with
  | [] => true
  | k :: r => negb (existsb (key_eqb k) r) && distinct_keys r
  end.

(** The values [json.load] and [request.json] build: every key of every
    dictionary is a string, and no dictionary holds a key twice. *)
Fixpoint is_json (v : value) : bool :=
  match v with
  | VList l => forallb is_json l
  | VDict d =>
      forallb (fun kv => is_str_key (fst kv) && is_json (snd kv)) d &&
      distinct_keys (map fst d)
  | _ => true
  end.

(** What [json.load] gives for the text of a value: the keys of every
    dictionary written as strings, and a dictionary rebuilt from its
    items in order. *)
Fixpoint coerce (v : value) : value :=
  match v with
  | VList l => VList (map coerce l)
  | VDict d =>
      VDict (dict_of_pairs (map (fun kv => (KStr (key_str (fst kv)), coerce (snd kv))) d))
  | _ => v
  end.

Definition is_dict (v : value) : bool :=
  match v with VDict _ => true | _ => false end.

(** What the listing shows of a record. *)
Definition listed (tutor shown : value) : Prop :=
  exists fields fields',
    tutor = VDict fields /\ shown = VDict fields' /\
    dict_get fields' (KStr "notifications") = None /\
    forall k, key_eqb (KStr "notifications") k = false ->
              dict_get fields' k = dict_get fields k.

(** ** The invariant of the tutor document, and the server *)

(** A record with a list under [notifications]. *)
Definition has_notifications (tutor : value) : bool :=
  match tutor with
  | VDict d =>
      match dict_get d (KStr "notifications") with
      | Some (VList _) => true
      | _ => false
      end
  | _ => false
  end.

(** The tutor document holds a map, and every record of it has its list
    of notifications. *)
Definition well_kept (fs : files) : Prop :=
  exists tutors,
    load_data TUTORS_FILE fs = inr (VDict tutors) /\
    forallb has_notifications (dict_values tutors) = true.

(** The requests of the HTTP surface. *)
Inductive request :=
| RegisterTutor (body : value)
| RegisterStudent (body : value)
| ListTutors
| SelectTutor (now : string) (body : value)
| GetTutorNotifications (tutor_id : string).

Definition handle (r : request) : io response :=
  match r with
  | RegisterTutor body => register_tutor body
  | RegisterStudent body => register_student body
  | ListTutors => get_all_tutors
  | SelectTutor now body => select_tutor now body
  | GetTutorNotifications tutor_id => get_tutor_notifications tutor_id
  end.

(** The body of a request is a decoded value. *)
Definition request_ok (r : request) : bool :=
  match r with
  | RegisterTutor body | RegisterStudent body | SelectTutor _ body => is_json body
  | ListTutors | GetTutorNotifications _ => true
  end.

(** The files after the requests, in order. *)
Fixpoint serve (requests : list request) (fs : files) : files :=
  match requests with
  | [] => fs
  | r :: later => serve later (snd (handle r fs))
  end.

(** ** Definitions the proofs use *)

(** What may follow a value in the text the encoder writes: the end, a
    comma, a new line. *)
Definition ends_value (rest : string) : bool :=
  match rest with
  | "" => true
  | String c _ => is_char "," c || is_char LF c
  end.

(** The number of values in a value: the fuel that reads its text. *)
Fixpoint size (v : value) : nat :=
  match v with
  | VList l => S (list_sum (map (fun x => S (size x)) l))
  | VDict d => S (list_sum (map (fun kv => S (size (snd kv))) d))
  | _ => 1
  end.

Definition item_separator (lvl : nat) : string := "," +:+ newline_indent (S lvl).

Definition member_tail (lvl : nat) (kv : key * value) : string :=
  escape (key_str (fst kv)) +:+ String DQUOTE (": " +:+ iterencode (S lvl) (snd kv)).

Definition member (lvl : nat) (kv : key * value) : string :=
  String DQUOTE (member_tail lvl kv).

Definition reads_back (v : value) : Prop :=
  forall lvl fuel rest,
    (size v <= fuel)%nat -> ends_value rest = true ->
    scan_once fuel (iterencode lvl v +:+ rest) = inr (coerce v, rest).

(** The text of the items of a list after its opening bracket and
    indentation, up to the text [rest] that follows the list. *)
Fixpoint elements_text (lvl : nat) (x : value) (l : list value) (rest : string) : string :=
  match l with
  | [] => iterencode (S lvl) x +:+ (newline_indent lvl +:+ String "]" rest)
  | y :: l' =>
      iterencode (S lvl) x +:+
      String "," (newline_indent (S lvl) +:+ elements_text lvl y l' rest)
  end.

(** The text of the members of a dictionary after the opening quote of
    the first key. *)
Fixpoint members_text (lvl : nat) (kv : key * value) (d : dict) (rest : string) : string :=
  match d with
  | [] => member_tail lvl kv +:+ (newline_indent lvl +:+ String "}" rest)
  | kv' :: d' =>
      member_tail lvl kv +:+
      String "," (newline_indent (S lvl) +:+ String DQUOTE (members_text lvl kv' d' rest))
  end.

Definition coerce_item (kv : key * value) : key * value :=
  (KStr (key_str (fst kv)), coerce (snd kv)).

Definition dict_update (acc : dict) (pairs : list (key * value)) : dict :=
  fold_left (fun d kv => dict_set d (fst kv) (snd kv)) pairs acc.

(** The key a key is equal to, with [True] and [False] as [1] and [0]. *)
Definition key_norm (k : key) : key :=
  match k with
  | KBool b => KInt (if b then 1 else 0)
  | _ => k
  end.

Ltac case_scrutinee H :=
  match type of H with
  | context [match ?x with _ => _ end] =>
      lazymatch x with
      | context [match _ with _ => _ end] => fail
      | _ => let E := fresh "E" in destruct x eqn:E; try discriminate H
      end
  end.

Ltac inr_inv H :=
  match type of H with
  | inr _ = inr _ => injection H as <- <-
  | ret _ = inr _ => unfold ret in H; injection H as <- <-
  end.

#[local] Arguments load_data : simpl never.
#[local] Arguments save_data : simpl never.

(** ** Example documents and requests *)

Definition example_map : value :=
  VDict [ (KStr "t1", VDict [ (KStr "id", VStr "t1"); (KStr "rate", VInt 25);
                              (KStr "notifications", VList []) ]) ].

Definition example_tutor : dict :=
  [ (KStr "id", VStr "t1"); (KStr "name", VStr "Jane"); (KStr "notifications", VList []) ].

Definition example_tutors : dict := [ (KStr "t1", VDict example_tutor) ].

Definition example_students : dict :=
  [ (KStr "s1", VDict [ (KStr "id", VStr "s1"); (KStr "name", VStr "Sam") ]) ].

Definition example_files : files :=
  save_data STUDENTS_FILE (VDict example_students)
    (save_data TUTORS_FILE (VDict example_tutors) ∅).

Definition example_selection : dict :=
  [ (KStr "tutorId", VStr "t1"); (KStr "studentId", VStr "s1") ].

Definition example_registration : dict :=
  [ (KStr "id", VStr "t1"); (KStr "name", VStr "Janet");
    (KStr "notifications", VList [VStr "mine"]) ].

Definition example_time : string := "2026-01-01T09:00:00".

Definition bare_tutors : dict :=
  [ (KStr "t1", VDict [ (KStr "id", VStr "t1"); (KStr "name", VStr "Jane") ]) ].

Definition bare_files : files :=
  save_data STUDENTS_FILE (VDict example_students)
    (save_data TUTORS_FILE (VDict bare_tutors) ∅).

Definition blank_tutors : dict := [ (KStr "t1", VDict []) ].

Definition blank_files : files := save_data TUTORS_FILE (VDict blank_tutors) ∅.

Definition lapsed_tutors : dict :=
  [ (KStr "t1", VDict example_tutor); (KStr "t2", VDict []) ].

Definition lapsed_files : files := save_data TUTORS_FILE (VDict lapsed_tutors) ∅.

(** ** More example documents and requests *)

Definition tutors_only_files : files := save_data TUTORS_FILE (VDict example_tutors) ∅.

Definition numbered_registration : dict :=
  [ (KStr "id", VInt 1); (KStr "name", VStr "Jane Doe") ].

Definition listed_registration : dict :=
  [ (KStr "id", VList [VInt 1]); (KStr "name", VStr "Jane Doe") ].

Definition example_student : dict :=
  [ (KStr "id", VStr "s2"); (KStr "name", VStr "Kim") ].

(** The body of a selection request. *)
Definition selection (tutor_id student_id : value) : dict :=
  [ (KStr "tutorId", tutor_id); (KStr "studentId", student_id) ].

(** The selection requests of a list of (time, student) pairs, all for
    the tutor [t]. *)
Definition selections (t : string) (picks : list (string * string)) : list request :=
  map (fun p => SelectTutor (fst p) (VDict (selection (VStr t) (VStr (snd p))))) picks.

Definition example_picks : list (string * string) :=
  [ (example_time, "s1"); ("2024-05-02T09:00:00", "s1") ].

(** A tutor document with a record that is no object. *)
Definition odd_tutors : dict :=
  [ (KStr "t1", VDict example_tutor); (KStr "t2", VStr "gone") ].

Definition odd_files : files := save_data TUTORS_FILE (VDict odd_tutors) ∅.

(** A printable ASCII character, or the new line. *)
Definition is_plain (c : ascii) : bool :=
  let n := ord c in ((n =? 10) || ((32 <=? n) && (n <=? 126)))%N.

Fixpoint all_plain (s : string) : bool :=
  match s with
  | "" => true
  | String c r => is_plain c && all_plain r
  end.

(** * Theorems *)

(** The induction principle that reaches inside lists and dictionaries. *)
Lemma value_ind' (P : value -> Prop) :
  P VNone ->
  (forall b, P (VBool b)) ->
  (forall z, P (VInt z)) ->
  (forall s, P (VStr s)) ->
  (forall l, Forall P l -> P (VList l)) ->
  (forall d, Forall (fun kv => P (snd kv)) d -> P (VDict d)) ->
  forall v, P v.
Proof.
  intros HN HB HI HS HL HD.
  fix IH 1. intros [ | b | z | s | l | d ].
  - exact HN.
  - apply HB.
  - apply HI.
  - apply HS.
  - apply HL. induction l as [ | x l IHl ]; constructor; [ apply IH | exact IHl ].
  - apply HD. induction d as [ | [k x] d IHd ]; constructor; [ apply IH | exact IHd ].
Qed.

(** ** The decoder reads back what the encoder writes *)

Lemma append_assoc (a b c : string) : (a +:+ b) +:+ c = a +:+ (b +:+ c).
Proof. induction a as [ | x a IH ]; simpl; [ reflexivity | now f_equal ]. Qed.

Lemma append_nil_r (a : string) : a +:+ "" = a.
Proof. induction a as [ | x a IH ]; simpl; [ reflexivity | now f_equal ]. Qed.

Lemma length_append (a b : string) :
  String.length (a +:+ b) = (String.length a + String.length b)%nat.
Proof. induction a as [ | x a IH ]; simpl; [ reflexivity | now f_equal ]. Qed.

Lemma ends_value_cases rest :
  ends_value rest = true ->
  rest = "" \/ exists r, rest = String "," r \/ rest = String LF r.
Proof.
  destruct rest as [ | c r ]; [ now left | ].
  unfold ends_value, is_char. intros H. right. exists r.
  apply orb_true_iff in H as [H | H]; apply Ascii.eqb_eq in H; subst; auto.
Qed.

(** *** Strings *)

Lemma scanstring_escape_char (c : ascii) (r : string) :
  scanstring (escape_char c +:+ r) =
  match scanstring r with
  | inl e => inl e
  | inr (t, rest) => inr (String c t, rest)
  end.
Proof. destruct c as [[] [] [] [] [] [] [] []]; reflexivity. Qed.

Lemma scanstring_escape (s rest : string) :
  scanstring (escape s +:+ String DQUOTE rest) = inr (s, rest).
Proof.
  induction s as [ | c s IH ]; cbn [escape].
  - reflexivity.
  - rewrite append_assoc, scanstring_escape_char, IH. reflexivity.
Qed.

Lemma scan_once_string fuel (s rest : string) :
  scan_once (S fuel) (encode_basestring_ascii s +:+ rest) = inr (VStr s, rest).
Proof.
  unfold encode_basestring_ascii.
  change (scan_once (S fuel) (String DQUOTE ((escape s +:+ String DQUOTE "") +:+ rest))
          = inr (VStr s, rest)).
  rewrite append_assoc. cbn [scan_once String.append].
  change (is_char DQUOTE DQUOTE) with true. cbv iota.
  now rewrite scanstring_escape.
Qed.

(** *** Numbers *)

Lemma span_digits_uint (d : uint) (rest : string) :
  head_is is_digit rest = false ->
  span_digits (NilEmpty.string_of_uint d +:+ rest) = (NilEmpty.string_of_uint d, rest).
Proof.
  intros Hrest. induction d; simpl; try (rewrite IHd; reflexivity).
  destruct rest as [ | c r ]; [ reflexivity | ].
  simpl in *. now rewrite Hrest.
Qed.

Lemma to_uint_unorm (p : positive) : unorm (Pos.to_uint p) = Pos.to_uint p.
Proof.
  rewrite <- (DecimalPos.Unsigned.to_of (Pos.to_uint p)).
  now rewrite DecimalPos.Unsigned.of_to.
Qed.

Lemma to_uint_head (p : positive) :
  match Pos.to_uint p with
  | Nil | D0 _ => False
  | _ => True
  end.
Proof.
  pose proof (to_uint_unorm p) as Hn.
  pose proof (DecimalPos.Unsigned.to_uint_nonzero p) as Hz.
  pose proof (DecimalPos.Unsigned.to_uint_nonnil p) as Hnil.
  destruct (Pos.to_uint p) as [ | u | | | | | | | | | ]; try exact I.
  - now apply Hnil.
  - rewrite unorm_D0 in Hn.
    assert (Hle : (nb_digits (unorm u) <= nb_digits u)%nat).
    { destruct u; [ now destruct Hz | apply nb_digits_unorm; discriminate .. ]. }
    rewrite Hn in Hle. simpl in Hle.
    destruct u; [ now apply Hz | simpl in Hle; lia .. ].
Qed.

Lemma ends_value_not_digit rest :
  ends_value rest = true -> head_is is_digit rest = false.
Proof.
  intros H. apply ends_value_cases in H as [-> | [r [-> | ->]]]; reflexivity.
Qed.

Lemma ends_value_not_float rest :
  ends_value rest = true -> float_follows rest = false.
Proof.
  intros H. apply ends_value_cases in H as [-> | [r [-> | ->]]]; reflexivity.
Qed.

Lemma string_of_uint_head (d : uint) :
  match d with Nil | D0 _ => False | _ => True end ->
  exists c r, NilEmpty.string_of_uint d = String c r /\
              is_digit c = true /\ is_char "0" c = false /\ is_char "-" c = false.
Proof.
  destruct d; try contradiction; intros _; simpl; do 2 eexists;
    (split; [ reflexivity | repeat split ]).
Qed.

(** A run of digits that does not start with zero is read back as the
    number it writes. *)
Lemma match_number_uint (d : uint) (rest : string) :
  match d with Nil | D0 _ => False | _ => True end ->
  ends_value rest = true ->
  match_number (NilEmpty.string_of_uint d +:+ rest) = inr (VInt (Z.of_int (Pos d)), rest)
  /\ match_number (String "-" (NilEmpty.string_of_uint d +:+ rest))
     = inr (VInt (Z.of_int (Neg d)), rest).
Proof.
  intros Hd Hrest.
  pose proof (ends_value_not_digit _ Hrest) as Hdig.
  pose proof (ends_value_not_float _ Hrest) as Hfl.
  pose proof (span_digits_uint d rest Hdig) as Hspan.
  pose proof (NilEmpty.usu d) as Husu.
  destruct (string_of_uint_head d Hd) as (c & r & Hs & Hc & Hz & Hm).
  rewrite Hs in *. cbn [String.append] in *.
  unfold match_number.
  change (is_char "-" "-") with true. cbv iota.
  rewrite Hm. unfold int_part. rewrite Hz, Hc, Hspan, Hfl, Husu.
  split; reflexivity.
Qed.

Lemma scan_scalar_digit (c : ascii) (r : string) :
  is_digit c = true -> scan_scalar (String c r) = match_number (String c r).
Proof.
  destruct c as [[] [] [] [] [] [] [] []]; intros H; try discriminate H; reflexivity.
Qed.

Lemma scan_scalar_minus (c : ascii) (r : string) :
  is_digit c = true ->
  scan_scalar (String "-" (String c r)) = match_number (String "-" (String c r)).
Proof.
  destruct c as [[] [] [] [] [] [] [] []]; intros H; try discriminate H; reflexivity.
Qed.

Lemma scan_once_scalar fuel (c : ascii) (r : string) :
  is_digit c = true \/ c = "-"%char ->
  scan_once (S fuel) (String c r) = scan_scalar (String c r).
Proof.
  intros [H | ->]; [ | reflexivity ].
  destruct c as [[] [] [] [] [] [] [] []]; try discriminate H; reflexivity.
Qed.

Lemma scan_once_int fuel (z : Z) (rest : string) :
  ends_value rest = true ->
  scan_once (S fuel) (intstr z +:+ rest) = inr (VInt z, rest).
Proof.
  intros Hrest. unfold intstr.
  destruct z as [ | p | p ].
  - change (NilZero.string_of_int (Z.to_int 0) +:+ rest) with (String "0" rest).
    rewrite scan_once_scalar by (now left).
    rewrite scan_scalar_digit by reflexivity.
    unfold match_number, int_part.
    change (is_char "-" "0") with false. cbv iota.
    change (is_char "0" "0") with true. cbv iota.
    now rewrite (ends_value_not_float _ Hrest).
  - pose proof (to_uint_head p) as Hh.
    pose proof (DecimalZ.of_to (Z.pos p)) as Hof.
    change (Z.to_int (Z.pos p)) with (Pos (Pos.to_uint p)) in *.
    destruct (match_number_uint _ rest Hh Hrest) as [Hn _].
    destruct (string_of_uint_head _ Hh) as (c & r & Hs & Hc & _).
    assert (Hstr : NilZero.string_of_int (Pos (Pos.to_uint p)) = String c r).
    { unfold NilZero.string_of_int, NilZero.string_of_uint. rewrite <- Hs.
      destruct (Pos.to_uint p); [ contradiction | reflexivity .. ]. }
    rewrite Hstr. rewrite Hs in Hn. cbn [String.append] in *.
    rewrite scan_once_scalar by (now left).
    rewrite scan_scalar_digit by exact Hc.
    now rewrite Hn, Hof.
  - pose proof (to_uint_head p) as Hh.
    pose proof (DecimalZ.of_to (Z.neg p)) as Hof.
    change (Z.to_int (Z.neg p)) with (Neg (Pos.to_uint p)) in *.
    destruct (match_number_uint _ rest Hh Hrest) as [_ Hn].
    destruct (string_of_uint_head _ Hh) as (c & r & Hs & Hc & _).
    assert (Hstr : NilZero.string_of_int (Neg (Pos.to_uint p)) = String "-" (String c r)).
    { unfold NilZero.string_of_int, NilZero.string_of_uint. rewrite <- Hs.
      destruct (Pos.to_uint p); [ contradiction | reflexivity .. ]. }
    rewrite Hstr. rewrite Hs in Hn. cbn [String.append] in *.
    rewrite scan_once_scalar by (now right).
    rewrite scan_scalar_minus by exact Hc.
    now rewrite Hn, Hof.
Qed.

(** *** Lists and dictionaries *)

Lemma iterencode_list lvl x l :
  iterencode lvl (VList (x :: l)) =
  String "[" (newline_indent (S lvl) +:+
    (String.concat (item_separator lvl) (map (iterencode (S lvl)) (x :: l)) +:+
     (newline_indent lvl +:+ "]"))).
Proof. reflexivity. Qed.

Lemma iterencode_dict lvl kv d :
  iterencode lvl (VDict (kv :: d)) =
  String "{" (newline_indent (S lvl) +:+
    (String.concat (item_separator lvl) (map (member lvl) (kv :: d)) +:+
     (newline_indent lvl +:+ "}"))).
Proof.
  rewrite <- (map_ext
    (fun kv => encode_basestring_ascii (key_str (fst kv)) +:+ ": " +:+
               iterencode (S lvl) (snd kv)) (member lvl)).
  - reflexivity.
  - intros a. unfold member, member_tail, encode_basestring_ascii.
    cbn [String.append]. now rewrite append_assoc.
Qed.

Lemma skip_ws_spaces n s : skip_ws (spaces n +:+ s) = skip_ws s.
Proof. induction n as [ | n IH ]; simpl; [ reflexivity | exact IH ]. Qed.

Lemma skip_ws_newline_indent lvl s : skip_ws (newline_indent lvl +:+ s) = skip_ws s.
Proof. unfold newline_indent. cbn [String.append skip_ws]. apply skip_ws_spaces. Qed.

Lemma skip_ws_space s : skip_ws (String " " s) = skip_ws s.
Proof. reflexivity. Qed.

Lemma skip_ws_head c r : is_ws c = false -> skip_ws (String c r) = String c r.
Proof. intros H. simpl. now rewrite H. Qed.

(** The text of a value starts with a character that is neither white
    space nor a closing bracket. *)
Lemma intstr_head z :
  exists c r, intstr z = String c r /\ (is_digit c = true \/ c = "-"%char).
Proof.
  unfold intstr. destruct z as [ | p | p ].
  - exists "0"%char, "". split; [ reflexivity | now left ].
  - pose proof (to_uint_head p) as Hh.
    destruct (string_of_uint_head _ Hh) as (c & r & Hs & Hc & _).
    exists c, r. split; [ | now left ].
    change (Z.to_int (Z.pos p)) with (Pos (Pos.to_uint p)).
    unfold NilZero.string_of_int, NilZero.string_of_uint. rewrite <- Hs.
    destruct (Pos.to_uint p); [ contradiction | reflexivity .. ].
  - pose proof (to_uint_head p) as Hh.
    destruct (string_of_uint_head _ Hh) as (c & r & Hs & Hc & _).
    exists "-"%char, (String c r). split; [ | now right ].
    change (Z.to_int (Z.neg p)) with (Neg (Pos.to_uint p)).
    unfold NilZero.string_of_int, NilZero.string_of_uint. rewrite <- Hs.
    destruct (Pos.to_uint p); [ contradiction | reflexivity .. ].
Qed.

Lemma digit_head c :
  is_digit c = true \/ c = "-"%char -> is_ws c = false /\ is_char "]" c = false.
Proof.
  intros [H | ->]; [ | now split ].
  destruct c as [[] [] [] [] [] [] [] []]; try discriminate H; now split.
Qed.

Lemma iterencode_head lvl v :
  exists c r, iterencode lvl v = String c r /\ is_ws c = false /\ is_char "]" c = false.
Proof.
  destruct v as [ | [] | z | s | [ | x l ] | [ | kv d ] ];
    try (do 2 eexists; split; [ reflexivity | now split ]).
  destruct (intstr_head z) as (c & r & Hs & Hc).
  exists c, r. split; [ exact Hs | now apply digit_head ].
Qed.

Lemma skip_ws_iterencode lvl v s :
  skip_ws (iterencode lvl v +:+ s) = iterencode lvl v +:+ s.
Proof.
  destruct (iterencode_head lvl v) as (c & r & -> & Hc & _).
  now apply skip_ws_head.
Qed.

Lemma elements_text_eq lvl x l rest :
  String.concat (item_separator lvl) (map (iterencode (S lvl)) (x :: l)) +:+
  (newline_indent lvl +:+ String "]" rest) = elements_text lvl x l rest.
Proof.
  revert x. induction l as [ | y l IH ]; intros x.
  - reflexivity.
  - change (String.concat (item_separator lvl) (map (iterencode (S lvl)) (x :: y :: l)))
      with (iterencode (S lvl) x +:+ (item_separator lvl +:+
              String.concat (item_separator lvl) (map (iterencode (S lvl)) (y :: l)))).
    rewrite !append_assoc, IH. reflexivity.
Qed.

Lemma skip_ws_elements_text lvl x l rest :
  skip_ws (elements_text lvl x l rest) = elements_text lvl x l rest.
Proof. destruct l; apply skip_ws_iterencode. Qed.

Lemma parse_elements_text lvl (l : list value) :
  Forall reads_back l ->
  forall x, reads_back x ->
  forall fuel acc rest,
    (list_sum (map (fun x => S (size x)) (x :: l)) <= fuel)%nat ->
    parse_elements fuel (elements_text lvl x l rest) acc
    = inr (VList (acc ++ map coerce (x :: l)), rest).
Proof.
  induction 1 as [ | y l Hy Hl IH ]; intros x Hx fuel acc rest Hfuel.
  - destruct fuel as [ | f ]; [ simpl in Hfuel; lia | ].
    cbn [elements_text parse_elements].
    rewrite Hx by (simpl in Hfuel; (lia || reflexivity)).
    rewrite skip_ws_newline_indent.
    reflexivity.
  - destruct fuel as [ | f ]; [ simpl in Hfuel; lia | ].
    cbn [elements_text parse_elements].
    rewrite Hx by (simpl in Hfuel |- *; (lia || reflexivity)).
    cbn [skip_ws]. change (is_ws ",") with false. cbv iota.
    change (is_char "]" ",") with false. change (is_char "," ",") with true.
    cbv iota.
    rewrite skip_ws_newline_indent, skip_ws_elements_text.
    rewrite (IH y Hy f (acc ++ [coerce x]) rest) by (simpl in Hfuel |- *; lia).
    now rewrite <- app_assoc.
Qed.

Lemma members_text_eq lvl kv d rest :
  String.concat (item_separator lvl) (map (member lvl) (kv :: d)) +:+
  (newline_indent lvl +:+ String "}" rest) = String DQUOTE (members_text lvl kv d rest).
Proof.
  revert kv. induction d as [ | kv' d IH ]; intros kv.
  - reflexivity.
  - change (String.concat (item_separator lvl) (map (member lvl) (kv :: kv' :: d)))
      with (member lvl kv +:+ (item_separator lvl +:+
              String.concat (item_separator lvl) (map (member lvl) (kv' :: d)))).
    rewrite !append_assoc, IH. reflexivity.
Qed.

Lemma parse_members_text lvl (d : dict) :
  Forall (fun kv => reads_back (snd kv)) d ->
  forall kv, reads_back (snd kv) ->
  forall fuel acc rest,
    (list_sum (map (fun kv => S (size (snd kv))) (kv :: d)) <= fuel)%nat ->
    parse_members fuel (members_text lvl kv d rest) acc
    = inr (VDict (dict_update acc (map coerce_item (kv :: d))), rest).
Proof.
  induction 1 as [ | kv' d Hkv' Hd IH ]; intros kv Hkv fuel acc rest Hfuel.
  - destruct fuel as [ | f ]; [ simpl in Hfuel; lia | ].
    cbn [members_text parse_members]. unfold member_tail.
    rewrite append_assoc. cbn [String.append]. rewrite scanstring_escape.
    rewrite ?append_assoc. cbn [String.append skip_ws]. change (is_ws ":") with false. cbv iota.
    change (is_char ":" ":") with true. cbv iota.
    rewrite skip_ws_space.
    rewrite skip_ws_iterencode.
    rewrite Hkv by (simpl in Hfuel; (lia || reflexivity)).
    rewrite skip_ws_newline_indent.
    reflexivity.
  - destruct fuel as [ | f ]; [ simpl in Hfuel; lia | ].
    cbn [members_text parse_members]. unfold member_tail at 1.
    rewrite append_assoc. cbn [String.append]. rewrite scanstring_escape.
    rewrite ?append_assoc. cbn [String.append skip_ws]. change (is_ws ":") with false. cbv iota.
    change (is_char ":" ":") with true. cbv iota.
    rewrite skip_ws_space.
    rewrite skip_ws_iterencode.
    rewrite Hkv by (simpl in Hfuel |- *; (lia || reflexivity)).
    cbn [skip_ws]. change (is_ws ",") with false. cbv iota.
    change (is_char "}" ",") with false. change (is_char "," ",") with true.
    cbv iota.
    rewrite skip_ws_newline_indent.
    cbn [skip_ws]. change (is_ws DQUOTE) with false. cbv iota.
    change (is_char DQUOTE DQUOTE) with true. cbv iota.
    rewrite (IH kv' Hkv' f _ rest) by (simpl in Hfuel |- *; lia).
    reflexivity.
Qed.

(** The decoder reads the text of a value back, whatever follows it. *)
Lemma scan_once_iterencode (v : value) : reads_back v.
Proof.
  induction v as [ | b | z | s | l IH | d IH ] using value_ind';
    intros lvl fuel rest Hfuel Hrest;
    (destruct fuel as [ | f ]; [ simpl in Hfuel; lia | ]).
  - reflexivity.
  - destruct b; reflexivity.
  - now apply scan_once_int.
  - apply scan_once_string.
  - destruct IH as [ | x l Hx Hl ]; [ reflexivity | ].
    rewrite iterencode_list.
    cbn [String.append scan_once]. change (is_char DQUOTE "[") with false.
    change (is_char "{" "[") with false. change (is_char "[" "[") with true.
    cbv iota.
    rewrite !append_assoc, skip_ws_newline_indent.
    change (String "]" "" +:+ rest) with (String "]" rest).
    rewrite elements_text_eq, skip_ws_elements_text.
    destruct (elements_text lvl x l rest) as [ | c1 r1 ] eqn:Ht.
    { destruct l; destruct (iterencode_head (S lvl) x) as (c & r & Hc & _);
        simpl in Ht; rewrite Hc in Ht; discriminate Ht. }
    assert (Hc1 : is_char "]" c1 = false).
    { destruct l; destruct (iterencode_head (S lvl) x) as (c & r & Hc & _ & Hb);
        simpl in Ht; rewrite Hc in Ht; injection Ht as <- _; exact Hb. }
    rewrite Hc1, <- Ht.
    rewrite (parse_elements_text lvl l Hl x Hx f [] rest) by (simpl in Hfuel |- *; lia).
    reflexivity.
  - destruct IH as [ | kv d Hkv Hd ]; [ reflexivity | ].
    rewrite iterencode_dict.
    cbn [String.append scan_once]. change (is_char DQUOTE "{") with false.
    change (is_char "{" "{") with true. cbv iota.
    rewrite !append_assoc, skip_ws_newline_indent.
    change (String "}" "" +:+ rest) with (String "}" rest).
    rewrite members_text_eq.
    cbn [skip_ws]. change (is_ws DQUOTE) with false. cbv iota.
    change (is_char "}" DQUOTE) with false. change (is_char DQUOTE DQUOTE) with true.
    cbv iota.
    rewrite (parse_members_text lvl d Hd kv Hkv f [] rest) by (simpl in Hfuel |- *; lia).
    reflexivity.
Qed.

(** *** The whole text *)

Lemma size_elements_text lvl (l : list value) rest :
  Forall (fun x => forall lvl, (size x <= String.length (iterencode lvl x))%nat) l ->
  forall x, (forall lvl, (size x <= String.length (iterencode lvl x))%nat) ->
  (list_sum (map (fun x => S (size x)) (x :: l))
   <= String.length (elements_text lvl x l rest))%nat.
Proof.
  induction 1 as [ | y l Hy Hl IH ]; intros x Hx; cbn [elements_text].
  - rewrite length_append. unfold newline_indent. cbn [String.append String.length].
    specialize (Hx (S lvl)). simpl. lia.
  - rewrite length_append. cbn [String.length]. rewrite length_append.
    specialize (Hx (S lvl)). specialize (IH y Hy).
    cbn [map list_sum fold_right] in IH |- *. lia.
Qed.

Lemma size_members_text lvl (d : dict) rest :
  Forall (fun kv => forall lvl, (size (snd kv) <= String.length (iterencode lvl (snd kv)))%nat) d ->
  forall kv, (forall lvl, (size (snd kv) <= String.length (iterencode lvl (snd kv)))%nat) ->
  (list_sum (map (fun kv => S (size (snd kv))) (kv :: d))
   <= String.length (members_text lvl kv d rest))%nat.
Proof.
  induction 1 as [ | kv' d Hkv' Hd IH ]; intros kv Hkv; cbn [members_text];
    unfold member_tail; rewrite !length_append; cbn [String.length];
    rewrite ?length_append; cbn [String.length]; specialize (Hkv (S lvl)).
  - simpl. lia.
  - specialize (IH kv' Hkv'). cbn [map list_sum fold_right] in IH |- *. lia.
Qed.

Lemma size_le_length (v : value) (lvl : nat) :
  (size v <= String.length (iterencode lvl v))%nat.
Proof.
  revert lvl.
  induction v as [ | b | z | s | l IH | d IH ] using value_ind'; intros lvl.
  - simpl. lia.
  - destruct b; simpl; lia.
  - destruct (intstr_head z) as (c & r & Hs & _).
    cbn [iterencode size]. rewrite Hs. simpl. lia.
  - simpl. lia.
  - destruct IH as [ | x l Hx Hl ]; [ simpl; lia | ].
    rewrite iterencode_list.
    rewrite <- (append_nil_r (newline_indent lvl +:+ "]")), append_assoc.
    cbn [String.append]. rewrite elements_text_eq.
    pose proof (size_elements_text lvl l "" Hl x Hx) as Hle.
    cbn [String.length size]. rewrite length_append. lia.
  - destruct IH as [ | kv d Hkv Hd ]; [ simpl; lia | ].
    rewrite iterencode_dict.
    rewrite <- (append_nil_r (newline_indent lvl +:+ "}")), append_assoc.
    cbn [String.append]. rewrite members_text_eq.
    pose proof (size_members_text lvl d "" Hd kv Hkv) as Hle.
    cbn [String.length size]. rewrite length_append. cbn [String.length]. lia.
Qed.

(** [json.loads (json.dumps (o, indent=4))] *)
Lemma loads_dumps (o : value) : loads (dumps o) = inr (coerce o).
Proof.
  unfold loads, dumps.
  rewrite <- (append_nil_r (iterencode 0 o)) at 2.
  rewrite skip_ws_iterencode.
  rewrite scan_once_iterencode; [ reflexivity | | reflexivity ].
  pose proof (size_le_length o 0). lia.
Qed.

(** ** Keys and dictionaries *)

Lemma key_eqb_norm (a b : key) : key_eqb a b = true <-> key_norm a = key_norm b.
Proof.
  destruct a as [s | x | [] | ], b as [t | y | [] | ];
    unfold key_eqb, key_norm, key_num;
    rewrite ?String.eqb_eq, ?Z.eqb_eq; split; intros H;
    try congruence; try discriminate H; try reflexivity.
Qed.

Lemma key_eqb_refl (k : key) : key_eqb k k = true.
Proof. now apply key_eqb_norm. Qed.

Lemma key_eqb_sym (a b : key) : key_eqb a b = key_eqb b a.
Proof.
  destruct (key_eqb a b) eqn:H1, (key_eqb b a) eqn:H2; try reflexivity.
  - apply key_eqb_norm in H1. symmetry in H1. apply key_eqb_norm in H1. congruence.
  - apply key_eqb_norm in H2. symmetry in H2. apply key_eqb_norm in H2. congruence.
Qed.

Lemma key_eqb_trans (a b c : key) :
  key_eqb a b = true -> key_eqb b c = true -> key_eqb a c = true.
Proof. rewrite !key_eqb_norm. congruence. Qed.

Lemma key_eqb_str (s t : string) : key_eqb (KStr s) (KStr t) = true <-> s = t.
Proof. simpl. apply String.eqb_eq. Qed.

(** *** Dictionaries *)

Lemma dict_get_set_eq (d : dict) (k k' : key) (v : value) :
  key_eqb k k' = true -> dict_get (dict_set d k v) k' = Some v.
Proof.
  intros Hk. induction d as [ | [k0 v0] d IH ]; simpl.
  - now rewrite Hk.
  - destruct (key_eqb k0 k) eqn:H0; simpl.
    + now rewrite (key_eqb_trans _ _ _ H0 Hk).
    + destruct (key_eqb k0 k') eqn:H1; [ | exact IH ].
      rewrite key_eqb_sym in Hk.
      rewrite (key_eqb_trans _ _ _ H1 Hk) in H0. discriminate H0.
Qed.

Lemma dict_get_set_ne (d : dict) (k k' : key) (v : value) :
  key_eqb k k' = false -> dict_get (dict_set d k v) k' = dict_get d k'.
Proof.
  intros Hk. induction d as [ | [k0 v0] d IH ]; simpl.
  - now rewrite Hk.
  - destruct (key_eqb k0 k) eqn:H0; simpl.
    + destruct (key_eqb k0 k') eqn:H1; [ | reflexivity ].
      rewrite key_eqb_sym in H0.
      rewrite (key_eqb_trans _ _ _ H0 H1) in Hk. discriminate Hk.
    + now rewrite IH.
Qed.

(** Assignment to a key the dictionary holds changes neither the keys nor
    their order. *)
Lemma dict_keys_set_mem (d : dict) (k : key) (v w : value) :
  dict_get d k = Some w -> dict_keys (dict_set d k v) = dict_keys d.
Proof.
  unfold dict_keys. induction d as [ | [k0 v0] d IH ]; simpl; [ discriminate | ].
  destruct (key_eqb k0 k); simpl; [ reflexivity | ].
  intros H. now rewrite IH.
Qed.

Lemma dict_keys_set_new (d : dict) (k : key) (v : value) :
  dict_get d k = None -> dict_set d k v = d ++ [(k, v)].
Proof.
  induction d as [ | [k0 v0] d IH ]; simpl; [ reflexivity | ].
  destruct (key_eqb k0 k); [ discriminate | ].
  intros H. now rewrite IH.
Qed.

Lemma dict_get_existsb (d : dict) (k : key) :
  dict_get d k = None <-> existsb (fun k' => key_eqb k' k) (map fst d) = false.
Proof.
  induction d as [ | [k0 v0] d IH ]; simpl; [ tauto | ].
  destruct (key_eqb k0 k); simpl; [ split; discriminate | exact IH ].
Qed.

Lemma existsb_key_sym (k : key) (ks : list key) :
  existsb (key_eqb k) ks = existsb (fun k' => key_eqb k' k) ks.
Proof.
  induction ks as [ | k0 ks IH ]; simpl; [ reflexivity | ].
  now rewrite IH, key_eqb_sym.
Qed.

Lemma distinct_keys_set (d : dict) (k : key) (v : value) :
  distinct_keys (map fst d) = true ->
  distinct_keys (map fst (dict_set d k v)) = true.
Proof.
  destruct (dict_get d k) as [w | ] eqn:Hg.
  - intros H. pose proof (dict_keys_set_mem d k v w Hg) as Hk.
    unfold dict_keys in Hk. now rewrite Hk.
  - rewrite (dict_keys_set_new d k v Hg).
    apply dict_get_existsb in Hg.
    induction d as [ | [k0 v0] d IH ]; simpl in *; [ reflexivity | ].
    rewrite !andb_true_iff, !negb_true_iff. intros [H1 H2].
    apply orb_false_iff in Hg as [Hg1 Hg2].
    split; [ | now apply IH ].
    rewrite map_app, existsb_app, H1. simpl. now rewrite Hg1.
Qed.

Lemma str_keys_set (d : dict) (k : string) (v : value) :
  forallb (fun kv => is_str_key (fst kv) && is_json (snd kv)) d = true ->
  is_json v = true ->
  forallb (fun kv => is_str_key (fst kv) && is_json (snd kv)) (dict_set d (KStr k) v) = true.
Proof.
  intros Hd Hv. induction d as [ | [k0 v0] d IH ]; simpl in *.
  - now rewrite Hv.
  - apply andb_true_iff in Hd as [H0 Hd]. apply andb_true_iff in H0 as [Hk0 Hv0].
    destruct (key_eqb k0 (KStr k)); simpl.
    + now rewrite Hk0, Hv, Hd.
    + now rewrite Hk0, Hv0, IH.
Qed.

Lemma is_json_dict_set (d : dict) (k : string) (v : value) :
  is_json (VDict d) = true -> is_json v = true ->
  is_json (VDict (dict_set d (KStr k) v)) = true.
Proof.
  cbn [is_json]. rewrite !andb_true_iff. intros [H1 H2] Hv. split.
  - now apply str_keys_set.
  - now apply distinct_keys_set.
Qed.

Lemma is_json_dict_get (d : dict) (k : key) (v : value) :
  is_json (VDict d) = true -> dict_get d k = Some v -> is_json v = true.
Proof.
  cbn [is_json]. rewrite andb_true_iff. intros [H _]. revert H.
  induction d as [ | [k0 v0] d IH ]; simpl; [ discriminate | ].
  rewrite !andb_true_iff. intros [[_ H0] Hd].
  destruct (key_eqb k0 k); [ congruence | now apply IH ].
Qed.

Lemma is_json_app (l : list value) (v : value) :
  is_json (VList l) = true -> is_json v = true -> is_json (VList (l ++ [v])) = true.
Proof.
  cbn [is_json]. intros Hl Hv. rewrite forallb_app, Hl. simpl. now rewrite Hv.
Qed.

(** ** What the decoder builds is a decoded value *)

Lemma scan_scalar_is_json (s : string) (v : value) (r : string) :
  scan_scalar s = inr (v, r) -> is_json v = true.
Proof.
  unfold scan_scalar, match_number, raise. intros H.
  repeat case_scrutinee H; inr_inv H; reflexivity.
Qed.

Lemma scan_once_is_json (fuel : nat) :
  (forall s v r, scan_once fuel s = inr (v, r) -> is_json v = true) /\
  (forall s acc v r,
      is_json (VList acc) = true ->
      parse_elements fuel s acc = inr (v, r) -> is_json v = true) /\
  (forall s acc v r,
      is_json (VDict acc) = true ->
      parse_members fuel s acc = inr (v, r) -> is_json v = true).
Proof.
  induction fuel as [ | f (IHv & IHe & IHm) ].
  - repeat split; intros; discriminate.
  - repeat split.
    + intros s v r H. cbn [scan_once] in H. unfold raise in H.
      destruct s as [ | c s ]; [ discriminate H | ].
      destruct (is_char DQUOTE c).
      { repeat case_scrutinee H. inr_inv H. reflexivity. }
      destruct (is_char "{" c).
      { repeat case_scrutinee H.
        - inr_inv H. reflexivity.
        - eapply IHm; [ | exact H ]. reflexivity. }
      destruct (is_char "[" c).
      { repeat case_scrutinee H.
        - inr_inv H. reflexivity.
        - eapply IHe; [ | exact H ]. reflexivity. }
      eapply scan_scalar_is_json; exact H.
    + intros s acc v r Hacc H. cbn [parse_elements] in H. unfold raise in H.
      destruct (scan_once f s) as [ e | [x r0] ] eqn:Hx; [ discriminate H | ].
      apply IHv in Hx.
      repeat case_scrutinee H.
      * inr_inv H. now apply is_json_app.
      * eapply IHe; [ | exact H ]. now apply is_json_app.
    + intros s acc v r Hacc H. cbn [parse_members] in H. unfold raise in H.
      destruct (scanstring s) as [ e | [k r0] ]; [ discriminate H | ].
      destruct (skip_ws r0) as [ | c r1 ]; [ discriminate H | ].
      destruct (is_char ":" c); [ | discriminate H ].
      destruct (scan_once f (skip_ws r1)) as [ e | [x r2] ] eqn:Hx; [ discriminate H | ].
      apply IHv in Hx.
      repeat case_scrutinee H.
      * inr_inv H. now apply is_json_dict_set.
      * eapply IHm; [ | exact H ]. now apply is_json_dict_set.
Qed.

Lemma loads_is_json (s : string) (v : value) : loads s = inr v -> is_json v = true.
Proof.
  unfold loads, raise, ret. intros H.
  destruct (scan_once (2 * String.length s + 1) (skip_ws s)) as [ e | [x r] ] eqn:Hx;
    [ discriminate H | ].
  destruct (skip_ws r); [ | discriminate H ].
  injection H as <-.
  destruct (scan_once_is_json (2 * String.length s + 1)) as (Hv & _).
  eapply Hv; exact Hx.
Qed.

(** ** A decoded value is written and read back unchanged *)

Lemma dict_update_distinct (d acc : dict) :
  distinct_keys (map fst d) = true ->
  (forall k, In k (map fst acc) -> existsb (key_eqb k) (map fst d) = false) ->
  dict_update acc d = acc ++ d.
Proof.
  revert acc. induction d as [ | [k v] d IH ]; intros acc Hd Hacc.
  - simpl. now rewrite app_nil_r.
  - simpl in Hd. apply andb_true_iff in Hd as [Hk Hd]. apply negb_true_iff in Hk.
    unfold dict_update in *. cbn [fold_left fst snd].
    assert (Hnew : dict_get acc k = None).
    { apply dict_get_existsb.
      apply not_true_is_false. intros Hex. apply existsb_exists in Hex as (k' & Hin & Heq).
      specialize (Hacc k' Hin). simpl in Hacc. now rewrite Heq in Hacc. }
    rewrite (dict_keys_set_new acc k v Hnew).
    rewrite IH; [ now rewrite <- app_assoc | exact Hd | ].
    intros k' Hin. rewrite map_app, in_app_iff in Hin. destruct Hin as [Hin | Hin].
    + specialize (Hacc k' Hin). simpl in Hacc. now apply orb_false_iff in Hacc.
    + simpl in Hin. destruct Hin as [<- | []]. exact Hk.
Qed.

Lemma coerce_is_json (v : value) : is_json v = true -> coerce v = v.
Proof.
  induction v as [ | b | z | s | l IH | d IH ] using value_ind'; try reflexivity.
  - cbn [is_json coerce]. intros H. f_equal.
    induction IH as [ | x l Hx Hl IHl ]; [ reflexivity | ].
    simpl in H. apply andb_true_iff in H as [H1 H2].
    simpl. now rewrite Hx, IHl.
  - cbn [is_json coerce]. intros H. apply andb_true_iff in H as [H1 H2]. f_equal.
    assert (Hmap : map (fun kv => (KStr (key_str (fst kv)), coerce (snd kv))) d = d).
    { clear H2. induction IH as [ | [k x] d Hx Hd IHd ]; [ reflexivity | ].
      simpl in H1. apply andb_true_iff in H1 as [H1 H3].
      apply andb_true_iff in H1 as [Hk Hj].
      simpl in *. rewrite (Hx Hj), (IHd H3).
      destruct k; try discriminate Hk. reflexivity. }
    rewrite Hmap. change (dict_of_pairs d) with (dict_update [] d).
    apply dict_update_distinct; [ exact H2 | intros k [] ].
Qed.

(** [json.loads (json.dumps (o, indent=4)) == o] for a decoded [o]. *)
Lemma loads_dumps_json (o : value) : is_json o = true -> loads (dumps o) = inr o.
Proof. intros H. now rewrite loads_dumps, coerce_is_json. Qed.

(** ** The fuel [loads] gives is never used up *)

Lemma skip_ws_length (s : string) : (String.length (skip_ws s) <= String.length s)%nat.
Proof.
  induction s as [ | c s IH ]; simpl; [ lia | ].
  destruct (is_ws c); simpl; lia.
Qed.

Lemma scanstring_shorter (n : nat) :
  forall s t r, (String.length s <= n)%nat -> scanstring s = inr (t, r) ->
                (String.length r < String.length s)%nat.
Proof.
  induction n as [ | n IH ]; intros s t r Hn H.
  - destruct s; [ discriminate H | simpl in Hn; lia ].
  - destruct s as [ | c s ]; [ discriminate H | ].
    cbn [scanstring] in H. unfold raise, ret in H. cbn [String.length] in Hn |- *.
    destruct (ord c =? 34)%N; [ injection H as _ <-; lia | ].
    destruct (ord c =? 92)%N.
    + destruct s as [ | e s1 ]; [ discriminate H | ].
      destruct (ord e =? 117)%N.
      * destruct s1 as [ | h1 [ | h2 [ | h3 [ | h4 s2 ] ] ] ]; try discriminate H.
        destruct (hex4 h1 h2 h3 h4) as [ m | ]; [ | discriminate H ].
        destruct (m <? 256)%N; [ | discriminate H ].
        destruct (scanstring s2) as [ e0 | [t0 r0] ] eqn:Hs; [ discriminate H | ].
        injection H as _ <-. cbn [String.length] in Hn |- *.
        apply IH in Hs; lia.
      * destruct (unescape e); [ | discriminate H ].
        destruct (scanstring s1) as [ e0 | [t0 r0] ] eqn:Hs; [ discriminate H | ].
        injection H as _ <-. cbn [String.length] in Hn |- *.
        apply IH in Hs; lia.
    + destruct (ord c <? 32)%N; [ discriminate H | ].
      destruct (scanstring s) as [ e0 | [t0 r0] ] eqn:Hs; [ discriminate H | ].
      injection H as _ <-. apply IH in Hs; lia.
Qed.

Lemma scanstring_no_recursion_error (n : nat) :
  forall s, (String.length s <= n)%nat -> scanstring s <> inl RecursionError.
Proof.
  induction n as [ | n IH ]; intros s Hn H.
  - destruct s; [ discriminate H | simpl in Hn; lia ].
  - destruct s as [ | c s ]; [ discriminate H | ].
    cbn [scanstring] in H. unfold raise, ret in H. cbn [String.length] in Hn.
    destruct (ord c =? 34)%N; [ discriminate H | ].
    destruct (ord c =? 92)%N.
    + destruct s as [ | e s1 ]; [ discriminate H | ].
      destruct (ord e =? 117)%N.
      * destruct s1 as [ | h1 [ | h2 [ | h3 [ | h4 s2 ] ] ] ]; try discriminate H.
        destruct (hex4 h1 h2 h3 h4) as [ m | ]; [ | discriminate H ].
        destruct (m <? 256)%N; [ | discriminate H ].
        destruct (scanstring s2) as [ e0 | [t0 r0] ] eqn:Hs; [ | discriminate H ].
        injection H as ->. apply (IH s2); [ cbn [String.length] in Hn; lia | exact Hs ].
      * destruct (unescape e); [ | discriminate H ].
        destruct (scanstring s1) as [ e0 | [t0 r0] ] eqn:Hs; [ | discriminate H ].
        injection H as ->. apply (IH s1); [ cbn [String.length] in Hn; lia | exact Hs ].
    + destruct (ord c <? 32)%N; [ discriminate H | ].
      destruct (scanstring s) as [ e0 | [t0 r0] ] eqn:Hs; [ | discriminate H ].
      injection H as ->. apply (IH s); [ lia | exact Hs ].
Qed.

Lemma strip_prefix_length (p s r : string) :
  strip_prefix p s = Some r -> String.length s = (String.length p + String.length r)%nat.
Proof.
  revert s. induction p as [ | a p IH ]; intros s H.
  - destruct s; injection H as <-; reflexivity.
  - destruct s as [ | b s ]; [ discriminate H | ].
    cbn [strip_prefix] in H. destruct (Ascii.eqb a b); [ | discriminate H ].
    apply IH in H. simpl. lia.
Qed.

Lemma span_digits_length (s ds rest : string) :
  span_digits s = (ds, rest) -> (String.length rest <= String.length s)%nat.
Proof.
  revert ds rest. induction s as [ | c s IH ]; intros ds rest H.
  - injection H as _ <-. simpl. lia.
  - cbn [span_digits] in H. destruct (is_digit c).
    + destruct (span_digits s) as [ds0 rest0] eqn:Hs. injection H as _ <-.
      specialize (IH _ _ eq_refl). simpl. lia.
    + injection H as _ <-. lia.
Qed.

Lemma int_part_shorter (s ds rest : string) :
  int_part s = Some (ds, rest) -> (String.length rest < String.length s)%nat.
Proof.
  unfold int_part. destruct s as [ | c s ]; [ discriminate | ].
  destruct (is_char "0" c); [ intros [= _ <-]; simpl; lia | ].
  destruct (is_digit c) eqn:Hc; [ | discriminate ].
  cbn [span_digits]. rewrite Hc.
  destruct (span_digits s) as [ds0 rest0] eqn:Hs. intros [= _ <-].
  apply span_digits_length in Hs. simpl. lia.
Qed.

Lemma scan_scalar_shorter (s : string) (v : value) (r : string) :
  scan_scalar s = inr (v, r) -> (String.length r < String.length s)%nat.
Proof.
  unfold scan_scalar, raise, ret. intros H.
  destruct (strip_prefix "null" s) as [ r0 | ] eqn:H1.
  { injection H as _ <-. apply strip_prefix_length in H1. simpl in H1. lia. }
  destruct (strip_prefix "true" s) as [ r0 | ] eqn:H2.
  { injection H as _ <-. apply strip_prefix_length in H2. simpl in H2. lia. }
  destruct (strip_prefix "false" s) as [ r0 | ] eqn:H3.
  { injection H as _ <-. apply strip_prefix_length in H3. simpl in H3. lia. }
  destruct (strip_prefix "NaN" s); [ discriminate H | ].
  destruct (strip_prefix "Infinity" s); [ discriminate H | ].
  destruct (strip_prefix "-Infinity" s); [ discriminate H | ].
  unfold match_number, raise, ret in H.
  destruct s as [ | c s ]; [ discriminate H | ].
  destruct (is_char "-" c).
  - destruct (int_part s) as [ [ds rest] | ] eqn:Hi; [ | discriminate H ].
    apply int_part_shorter in Hi.
    destruct (float_follows rest); [ discriminate H | ].
    destruct (NilEmpty.uint_of_string ds); [ | discriminate H ].
    injection H as _ <-. simpl. lia.
  - destruct (int_part (String c s)) as [ [ds rest] | ] eqn:Hi; [ | discriminate H ].
    apply int_part_shorter in Hi.
    destruct (float_follows rest); [ discriminate H | ].
    destruct (NilEmpty.uint_of_string ds); [ | discriminate H ].
    injection H as _ <-. exact Hi.
Qed.

Lemma scan_scalar_no_recursion_error (s : string) : scan_scalar s <> inl RecursionError.
Proof.
  unfold scan_scalar, match_number, raise, ret. intros H.
  repeat case_scrutinee H.
Qed.

Lemma scan_once_shorter (fuel : nat) :
  (forall s v r, scan_once fuel s = inr (v, r) ->
                 (String.length r < String.length s)%nat) /\
  (forall s acc v r, parse_elements fuel s acc = inr (v, r) ->
                     (String.length r < String.length s)%nat) /\
  (forall s acc v r, parse_members fuel s acc = inr (v, r) ->
                     (String.length r < String.length s)%nat).
Proof.
  induction fuel as [ | f (IHv & IHe & IHm) ].
  - repeat split; intros; discriminate.
  - repeat split.
    + intros s v r H. cbn [scan_once] in H. unfold raise, ret in H.
      destruct s as [ | c s ]; [ discriminate H | ].
      destruct (is_char DQUOTE c).
      { destruct (scanstring s) as [ e | [t r0] ] eqn:Hs; [ discriminate H | ].
        injection H as _ <-. apply (scanstring_shorter _ _ _ _ (le_n _)) in Hs.
        simpl. lia. }
      pose proof (skip_ws_length s) as Hws.
      destruct (is_char "{" c).
      { destruct (skip_ws s) as [ | c1 r1 ]; [ discriminate H | ].
        cbn [String.length] in Hws |- *.
        destruct (is_char "}" c1); [ injection H as _ <-; lia | ].
        destruct (is_char DQUOTE c1); [ | discriminate H ].
        apply IHm in H. lia. }
      destruct (is_char "[" c).
      { destruct (skip_ws s) as [ | c1 r1 ]; [ discriminate H | ].
        cbn [String.length] in Hws |- *.
        destruct (is_char "]" c1); [ injection H as _ <-; lia | ].
        apply IHe in H. cbn [String.length] in H. lia. }
      now apply scan_scalar_shorter in H.
    + intros s acc v r H. cbn [parse_elements] in H. unfold raise, ret in H.
      destruct (scan_once f s) as [ e | [x r0] ] eqn:Hx; [ discriminate H | ].
      apply IHv in Hx. pose proof (skip_ws_length r0) as Hws.
      destruct (skip_ws r0) as [ | c r1 ]; [ discriminate H | ].
      cbn [String.length] in Hws.
      destruct (is_char "]" c); [ injection H as _ <-; lia | ].
      destruct (is_char "," c); [ | discriminate H ].
      apply IHe in H. pose proof (skip_ws_length r1). lia.
    + intros s acc v r H. cbn [parse_members] in H. unfold raise, ret in H.
      destruct (scanstring s) as [ e | [k r0] ] eqn:Hk; [ discriminate H | ].
      apply (scanstring_shorter _ _ _ _ (le_n _)) in Hk.
      pose proof (skip_ws_length r0) as Hws0.
      destruct (skip_ws r0) as [ | c r1 ]; [ discriminate H | ].
      cbn [String.length] in Hws0.
      destruct (is_char ":" c); [ | discriminate H ].
      destruct (scan_once f (skip_ws r1)) as [ e | [x r2] ] eqn:Hx; [ discriminate H | ].
      apply IHv in Hx. pose proof (skip_ws_length r1) as Hws1.
      pose proof (skip_ws_length r2) as Hws2.
      destruct (skip_ws r2) as [ | c2 r3 ]; [ discriminate H | ].
      cbn [String.length] in Hws2.
      destruct (is_char "}" c2); [ injection H as _ <-; lia | ].
      destruct (is_char "," c2); [ | discriminate H ].
      pose proof (skip_ws_length r3) as Hws3.
      destruct (skip_ws r3) as [ | c3 r4 ]; [ discriminate H | ].
      cbn [String.length] in Hws3.
      destruct (is_char DQUOTE c3); [ | discriminate H ].
      apply IHm in H. lia.
Qed.

Lemma scan_once_no_recursion_error (fuel : nat) :
  (forall s, (2 * String.length s + 1 <= fuel)%nat ->
             scan_once fuel s <> inl RecursionError) /\
  (forall s acc, (2 * String.length s + 2 <= fuel)%nat ->
                 parse_elements fuel s acc <> inl RecursionError) /\
  (forall s acc, (2 * String.length s + 2 <= fuel)%nat ->
                 parse_members fuel s acc <> inl RecursionError).
Proof.
  induction fuel as [ | f (IHv & IHe & IHm) ].
  - repeat split; intros; lia.
  - destruct (scan_once_shorter f) as (Lv & Le & Lm).
    repeat split.
    + intros s Hf H. cbn [scan_once] in H. unfold raise, ret in H.
      destruct s as [ | c s ]; [ discriminate H | ].
      cbn [String.length] in Hf.
      destruct (is_char DQUOTE c).
      { destruct (scanstring s) as [ e | [t r0] ] eqn:Hs; [ | discriminate H ].
        injection H as ->. now apply (scanstring_no_recursion_error _ _ (le_n _)) in Hs. }
      pose proof (skip_ws_length s) as Hws.
      destruct (is_char "{" c).
      { destruct (skip_ws s) as [ | c1 r1 ]; [ discriminate H | ].
        cbn [String.length] in Hws.
        destruct (is_char "}" c1); [ discriminate H | ].
        destruct (is_char DQUOTE c1); [ | discriminate H ].
        apply IHm in H; [ exact H | lia ]. }
      destruct (is_char "[" c).
      { destruct (skip_ws s) as [ | c1 r1 ] eqn:Hsk; [ discriminate H | ].
        destruct (is_char "]" c1); [ discriminate H | ].
        apply IHe in H; [ exact H | lia ]. }
      now apply scan_scalar_no_recursion_error in H.
    + intros s acc Hf H. cbn [parse_elements] in H. unfold raise, ret in H.
      destruct (scan_once f s) as [ e | [x r0] ] eqn:Hx.
      { injection H as ->. apply IHv in Hx; [ exact Hx | lia ]. }
      apply Lv in Hx. pose proof (skip_ws_length r0) as Hws.
      destruct (skip_ws r0) as [ | c r1 ]; [ discriminate H | ].
      cbn [String.length] in Hws.
      destruct (is_char "]" c); [ discriminate H | ].
      destruct (is_char "," c); [ | discriminate H ].
      pose proof (skip_ws_length r1).
      apply IHe in H; [ exact H | lia ].
    + intros s acc Hf H. cbn [parse_members] in H. unfold raise, ret in H.
      destruct (scanstring s) as [ e | [k r0] ] eqn:Hk.
      { injection H as ->. now apply (scanstring_no_recursion_error _ _ (le_n _)) in Hk. }
      apply (scanstring_shorter _ _ _ _ (le_n _)) in Hk.
      pose proof (skip_ws_length r0) as Hws0.
      destruct (skip_ws r0) as [ | c r1 ]; [ discriminate H | ].
      cbn [String.length] in Hws0.
      destruct (is_char ":" c); [ | discriminate H ].
      pose proof (skip_ws_length r1) as Hws1.
      destruct (scan_once f (skip_ws r1)) as [ e | [x r2] ] eqn:Hx.
      { injection H as ->. apply IHv in Hx; [ exact Hx | lia ]. }
      apply Lv in Hx.
      pose proof (skip_ws_length r2) as Hws2.
      destruct (skip_ws r2) as [ | c2 r3 ]; [ discriminate H | ].
      cbn [String.length] in Hws2.
      destruct (is_char "}" c2); [ discriminate H | ].
      destruct (is_char "," c2); [ | discriminate H ].
      pose proof (skip_ws_length r3) as Hws3.
      destruct (skip_ws r3) as [ | c3 r4 ]; [ discriminate H | ].
      cbn [String.length] in Hws3.
      destruct (is_char DQUOTE c3); [ | discriminate H ].
      apply IHm in H; [ exact H | lia ].
Qed.

(** [loads] raises [JSONDecodeError] or [Unsupported], or returns. *)
Lemma loads_no_recursion_error (s : string) : loads s <> inl RecursionError.
Proof.
  unfold loads, raise, ret. intros H.
  destruct (scan_once _ _) as [ e | [v r] ] eqn:Hx.
  - injection H as ->.
    destruct (scan_once_no_recursion_error (2 * String.length s + 1)) as (Hv & _).
    apply Hv in Hx; [ exact Hx | ]. pose proof (skip_ws_length s). lia.
  - destruct (skip_ws r); discriminate H.
Qed.

(** ** The store *)

Lemma load_save (file_path : string) (data : value) (fs : files) :
  load_data file_path (save_data file_path data fs) = inr (coerce data).
Proof.
  unfold load_data, save_data. rewrite lookup_insert_eq. apply loads_dumps.
Qed.

Lemma load_save_json (file_path : string) (data : value) (fs : files) :
  is_json data = true ->
  load_data file_path (save_data file_path data fs) = inr data.
Proof. intros H. now rewrite load_save, coerce_is_json. Qed.

Lemma lookup_save_other (file_path other : string) (data : value) (fs : files) :
  other <> file_path -> save_data file_path data fs !! other = fs !! other.
Proof. intros H. unfold save_data. now rewrite lookup_insert_ne. Qed.

Lemma load_save_other (file_path other : string) (data : value) (fs : files) :
  other <> file_path ->
  load_data other (save_data file_path data fs) = load_data other fs.
Proof. intros H. unfold load_data. now rewrite lookup_save_other. Qed.

Lemma load_data_is_json (file_path : string) (fs : files) (data : value) :
  load_data file_path fs = inr data -> is_json data = true.
Proof.
  unfold load_data. destruct (fs !! file_path); [ apply loads_is_json | discriminate ].
Qed.

(** X28.  Whatever the document and whatever value of this embedding is
    saved (no [float], strings of code points up to U+00FF), loading the
    document after saving it gives the value with its JSON type
    coercions applied (keys that are not strings become strings); a
    value that is already a JSON value comes back equal. *)
Theorem save_then_load (document : string) (m : value) (fs : files) :
  load_data document (save_data document m fs) = inr (coerce m) /\
  (is_json m = true -> load_data document (save_data document m fs) = inr m).
Proof.
  split; [ apply load_save | apply load_save_json ].
Qed.

Lemma save_then_load_witness :
  load_data TUTORS_FILE (save_data TUTORS_FILE example_map ∅) = inr example_map.
Proof.
  apply (save_then_load TUTORS_FILE example_map ∅). reflexivity.
Defined.

(** ** Registration *)

Lemma truthy_str (s : string) : truthy (VStr s) = true <-> s <> "".
Proof.
  simpl. rewrite negb_true_iff. split.
  - intros H ->. discriminate H.
  - intros H. apply String.eqb_neq. exact H.
Qed.

(** C4.  A registration whose body has no id, or an id that is empty or
    otherwise falsy, is answered 400 with the message "Tutor ID is
    required", and no file is written. *)
Theorem register_tutor_requires_id (request_json tutor_id : value) (fs : files) :
  py_get request_json "id" VNone = inr tutor_id ->
  truthy tutor_id = false ->
  register_tutor request_json fs = (inr (message "Tutor ID is required", 400), fs).
Proof.
  intros Hid Hfalsy. unfold register_tutor, io_bind, lift.
  rewrite Hid, Hfalsy. reflexivity.
Qed.

Lemma register_tutor_requires_id_witness :
  register_tutor (VDict [(KStr "name", VStr "Jane")]) ∅
  = (inr (message "Tutor ID is required", 400), ∅).
Proof.
  apply (register_tutor_requires_id _ VNone); reflexivity.
Defined.

(** ** Selection *)

Section Selection.

Variables (now : string) (fields tutors students : dict) (t s : string) (fs : files).

Hypothesis Htutor_id : dict_get fields (KStr "tutorId") = Some (VStr t).
Hypothesis Hstudent_id : dict_get fields (KStr "studentId") = Some (VStr s).
Hypothesis Htruthy_t : truthy (VStr t) = true.
Hypothesis Htruthy_s : truthy (VStr s) = true.
Hypothesis Htutors : load_data TUTORS_FILE fs = inr (VDict tutors).
Hypothesis Hstudents : load_data STUDENTS_FILE fs = inr (VDict students).

(** The handler, once the ids are read and the documents loaded. *)
Lemma select_tutor_run :
  select_tutor now (VDict fields) fs =
  if negb (dict_mem tutors (KStr t)) || negb (dict_mem students (KStr s)) then
    (inr (message "Tutor or student not found", 404), fs)
  else
    match append_notification (VDict tutors) (VStr t) (notification_for now (VStr s)) with
    | inl e => (inr (Failure "Failed to notify tutor" e, 500), fs)
    | inr tutor_data =>
        (inr (message "Tutor notified successfully!", 200),
         save_data TUTORS_FILE tutor_data fs)
    end.
Proof using All.
  unfold select_tutor, io_bind, lift, try_except, io_load, io_save, io_ret, py_get, ret.
  rewrite Htutor_id, Hstudent_id. cbv beta iota.
  rewrite Htruthy_t, Htruthy_s. cbn [negb orb].
  rewrite Htutors, Hstudents.
  unfold py_contains, hashable, bind, ret.
  destruct (dict_mem tutors (KStr t)); cbn [negb orb]; [ | reflexivity ].
  destruct (dict_mem students (KStr s)); cbn [negb orb]; [ | reflexivity ].
  destruct (append_notification _ _ _); reflexivity.
Qed.

Lemma append_notification_ok (record : dict) (ns : list value) (n : value) :
  dict_get tutors (KStr t) = Some (VDict record) ->
  dict_get record (KStr "notifications") = Some (VList ns) ->
  append_notification (VDict tutors) (VStr t) n
  = inr (VDict (dict_set tutors (KStr t)
                  (VDict (dict_set record (KStr "notifications") (VList (ns ++ [n])))))).
Proof.
  intros Hrecord Hns. unfold append_notification, py_getitem, hashable, bind, ret.
  rewrite Hrecord, Hns. reflexivity.
Qed.

(** One successful selection: the response, the files it leaves and
    the map they hold. *)
Lemma select_tutor_step (record : dict) (ns : list value) :
  dict_get tutors (KStr t) = Some (VDict record) ->
  dict_get record (KStr "notifications") = Some (VList ns) ->
  dict_mem students (KStr s) = true ->
  let record' :=
    dict_set record (KStr "notifications") (VList (ns ++ [notification_for now (VStr s)])) in
  let tutors' := dict_set tutors (KStr t) (VDict record') in
  let fs' := save_data TUTORS_FILE (VDict tutors') fs in
  select_tutor now (VDict fields) fs
  = (inr (message "Tutor notified successfully!", 200), fs') /\
  load_data TUTORS_FILE fs' = inr (VDict tutors') /\
  load_data STUDENTS_FILE fs' = inr (VDict students) /\
  dict_get tutors' (KStr t) = Some (VDict record') /\
  dict_get record' (KStr "notifications")
  = Some (VList (ns ++ [notification_for now (VStr s)])).
Proof using All.
  intros Hrecord Hns Hstudent record' tutors' fs'.
  pose proof (load_data_is_json _ _ _ Htutors) as Hjson.
  pose proof (is_json_dict_get _ _ _ Hjson Hrecord) as Hjrecord.
  pose proof (is_json_dict_get _ _ _ Hjrecord Hns) as Hjns.
  repeat split.
  - rewrite select_tutor_run. unfold dict_mem at 1. rewrite Hrecord, Hstudent.
    cbn [negb orb].
    now rewrite (append_notification_ok record ns _ Hrecord Hns).
  - apply load_save_json.
    apply is_json_dict_set; [ exact Hjson | ].
    apply is_json_dict_set; [ exact Hjrecord | ].
    now apply is_json_app.
  - unfold fs'. rewrite load_save_other by discriminate. exact Hstudents.
  - apply dict_get_set_eq, key_eqb_refl.
  - apply dict_get_set_eq, key_eqb_refl.
Qed.

End Selection.

Lemma select_repeatedly_appends (fields students : dict) (t s : string) (nows : list string) :
  dict_get fields (KStr "tutorId") = Some (VStr t) ->
  dict_get fields (KStr "studentId") = Some (VStr s) ->
  truthy (VStr t) = true ->
  truthy (VStr s) = true ->
  dict_mem students (KStr s) = true ->
  forall (fs : files) (tutors record : dict) (ns : list value),
    load_data TUTORS_FILE fs = inr (VDict tutors) ->
    load_data STUDENTS_FILE fs = inr (VDict students) ->
    dict_get tutors (KStr t) = Some (VDict record) ->
    dict_get record (KStr "notifications") = Some (VList ns) ->
    exists tutors' record',
      load_data TUTORS_FILE (select_repeatedly nows (VDict fields) fs) = inr (VDict tutors') /\
      dict_get tutors' (KStr t) = Some (VDict record') /\
      dict_get record' (KStr "notifications")
      = Some (VList (ns ++ map (fun now => notification_for now (VStr s)) nows)).
Proof.
  intros Ht Hs Htt Hts Hstudent.
  induction nows as [ | now later IH ]; intros fs tutors record ns Hload Hloads Hrecord Hns.
  - exists tutors, record. cbn [select_repeatedly map]. now rewrite app_nil_r.
  - destruct (select_tutor_step now fields tutors students t s fs Ht Hs Htt Hts Hload Hloads
                record ns Hrecord Hns Hstudent) as (Hrun & Hload' & Hloads' & Hrecord' & Hns').
    cbn [select_repeatedly]. rewrite Hrun. cbn [snd].
    destruct (IH _ _ _ _ Hload' Hloads' Hrecord' Hns') as (tutors' & record' & H1 & H2 & H3).
    exists tutors', record'. repeat split; [ exact H1 | exact H2 | ].
    rewrite H3. cbn [map]. now rewrite <- app_assoc.
Qed.

(** C1, amended.  When the body names a tutor of the tutor map and a
    student of the student map, both ids non-empty, and the tutor's record
    holds a list under [notifications], the handler answers 200 and saves
    the tutor map with one notification added at the end of that list:
    its [student_id] is the student id and its [message] the sentence
    naming it.  Calls repeated at the times [nows] leave the list with
    one more notification per call, after the ones it had. *)
Theorem select_tutor_appends
  (now : string) (fields tutors students record : dict) (ns : list value)
  (t s : string) (fs : files) :
  dict_get fields (KStr "tutorId") = Some (VStr t) ->
  dict_get fields (KStr "studentId") = Some (VStr s) ->
  truthy (VStr t) = true ->
  truthy (VStr s) = true ->
  load_data TUTORS_FILE fs = inr (VDict tutors) ->
  load_data STUDENTS_FILE fs = inr (VDict students) ->
  dict_get tutors (KStr t) = Some (VDict record) ->
  dict_mem students (KStr s) = true ->
  dict_get record (KStr "notifications") = Some (VList ns) ->
  let notification :=
    VDict [ (KStr "student_id", VStr s);
            (KStr "message", VStr ("Student " +:+ s +:+ " is interested in your services."));
            (KStr "timestamp", VStr now) ] in
  let record' := dict_set record (KStr "notifications") (VList (ns ++ [notification])) in
  let tutors' := dict_set tutors (KStr t) (VDict record') in
  let fs' := save_data TUTORS_FILE (VDict tutors') fs in
  select_tutor now (VDict fields) fs
  = (inr (message "Tutor notified successfully!", 200), fs') /\
  load_data TUTORS_FILE fs' = inr (VDict tutors') /\
  dict_get tutors' (KStr t) = Some (VDict record') /\
  dict_get record' (KStr "notifications") = Some (VList (ns ++ [notification])) /\
  forall nows : list string,
  exists tutors_n record_n later,
    load_data TUTORS_FILE (select_repeatedly nows (VDict fields) fs) = inr (VDict tutors_n) /\
    dict_get tutors_n (KStr t) = Some (VDict record_n) /\
    dict_get record_n (KStr "notifications") = Some (VList (ns ++ later)) /\
    length later = length nows /\
    Forall (fun n => dict_get (match n with VDict d => d | _ => [] end) (KStr "student_id")
                     = Some (VStr s)) later.
Proof.
  intros Ht Hs Htt Hts Hload Hloads Hrecord Hstudent Hns notification record' tutors' fs'.
  destruct (select_tutor_step now fields tutors students t s fs Ht Hs Htt Hts Hload Hloads
              record ns Hrecord Hns Hstudent) as (Hrun & Hload' & _ & Hrecord' & Hns').
  repeat split; try assumption.
  intros nows.
  destruct (select_repeatedly_appends fields students t s nows Ht Hs Htt Hts Hstudent
              fs tutors record ns Hload Hloads Hrecord Hns) as (tn & rn & H1 & H2 & H3).
  exists tn, rn, (map (fun now => notification_for now (VStr s)) nows).
  repeat split; try assumption.
  - now rewrite length_map.
  - clear. induction nows as [ | x nows IH ]; cbn [map]; constructor;
      [ reflexivity | exact IH ].
Qed.

(** C1 as stated fails: the ids of this request are keys of the two maps
    and the answer is 500, with nothing saved, because the tutor's record
    has no [notifications]. *)
Lemma select_tutor_without_notifications :
  dict_get example_selection (KStr "tutorId") = Some (VStr "t1") /\
  dict_get example_selection (KStr "studentId") = Some (VStr "s1") /\
  load_data TUTORS_FILE bare_files = inr (VDict bare_tutors) /\
  load_data STUDENTS_FILE bare_files = inr (VDict example_students) /\
  dict_mem bare_tutors (KStr "t1") = true /\
  dict_mem example_students (KStr "s1") = true /\
  select_tutor example_time (VDict example_selection) bare_files
  = (inr (Failure "Failed to notify tutor" (KeyError (KStr "notifications")), 500),
     bare_files).
Proof. vm_compute. repeat split. Qed.

Lemma select_tutor_appends_witness :
  select_tutor example_time (VDict example_selection) example_files
  = (inr (message "Tutor notified successfully!", 200),
     save_data TUTORS_FILE
       (VDict [ (KStr "t1",
                 VDict [ (KStr "id", VStr "t1"); (KStr "name", VStr "Jane");
                         (KStr "notifications",
                          VList [ VDict [ (KStr "student_id", VStr "s1");
                                          (KStr "message",
                                           VStr "Student s1 is interested in your services.");
                                          (KStr "timestamp", VStr example_time) ] ]) ]) ])
       example_files).
Proof.
  apply (select_tutor_appends example_time example_selection example_tutors
           example_students example_tutor [] "t1" "s1" example_files);
    vm_compute; reflexivity.
Defined.

(** C2 as stated fails: the ids of this request are truthy and the tutor
    id is no key of the tutor map, yet the answer is 500, not 404.  The id
    is a list, and looking a list up in a map raises [TypeError]. *)
Lemma select_tutor_list_id :
  truthy (VList [VInt 1]) = true /\
  truthy (VStr "s1") = true /\
  load_data TUTORS_FILE example_files = inr (VDict example_tutors) /\
  load_data STUDENTS_FILE example_files = inr (VDict example_students) /\
  existsb (fun k => py_eq (key_value k) (VList [VInt 1])) (dict_keys example_tutors) = false /\
  select_tutor example_time (VDict (selection (VList [VInt 1]) (VStr "s1"))) example_files
  = (inr (Failure "Failed to notify tutor" TypeError, 500), example_files).
Proof. vm_compute. repeat split. Qed.

(** C2, amended.  The ids are truthy and the tutor id is a scalar (a
    string, a number, a boolean), whatever scalar it is.  When the tutor
    id is not a key of the tutor map, or the student id is a scalar that
    is not a key of the student map, the answer is 404 with the message
    "Tutor or student not found" and the files are left as they were: no
    notification is added and the tutor map is the same. *)
Theorem select_tutor_not_found
  (now : string) (fields tutors students : dict) (tutor_id student_id : value)
  (tutor_key : key) (fs : files) :
  dict_get fields (KStr "tutorId") = Some tutor_id ->
  dict_get fields (KStr "studentId") = Some student_id ->
  truthy tutor_id = true ->
  truthy student_id = true ->
  hashable tutor_id = inr tutor_key ->
  load_data TUTORS_FILE fs = inr (VDict tutors) ->
  load_data STUDENTS_FILE fs = inr (VDict students) ->
  dict_mem tutors tutor_key = false \/
  (exists student_key,
      hashable student_id = inr student_key /\ dict_mem students student_key = false) ->
  select_tutor now (VDict fields) fs
  = (inr (message "Tutor or student not found", 404), fs) /\
  load_data TUTORS_FILE (snd (select_tutor now (VDict fields) fs)) = inr (VDict tutors).
Proof.
  intros Ht Hs Htt Hts Hkey Hload Hloads Hmissing.
  assert (Hrun : select_tutor now (VDict fields) fs
                 = (inr (message "Tutor or student not found", 404), fs)).
  { unfold select_tutor, io_bind, lift, try_except, io_load, py_get, ret.
    rewrite Ht, Hs. cbv beta iota. rewrite Htt, Hts. cbn [negb orb].
    rewrite Hload, Hloads. cbn [py_contains]. rewrite Hkey. cbn [bind ret].
    destruct (dict_mem tutors tutor_key) eqn:Hfound; cbn [negb]; [ | reflexivity ].
    destruct Hmissing as [Hnone | (student_key & Hskey & Hnone)]; [ discriminate Hnone | ].
    rewrite Hskey. cbn [bind ret]. now rewrite Hnone. }
  split; [ exact Hrun | ]. now rewrite Hrun.
Qed.

Lemma select_tutor_not_found_witness :
  select_tutor example_time
    (VDict [ (KStr "tutorId", VStr "t9"); (KStr "studentId", VStr "s1") ]) example_files
  = (inr (message "Tutor or student not found", 404), example_files).
Proof.
  refine (proj1 (select_tutor_not_found example_time _ example_tutors example_students
                   (VStr "t9") (VStr "s1") (KStr "t9") example_files _ _ _ _ _ _ _ _));
    try (vm_compute; reflexivity).
  left. vm_compute; reflexivity.
Defined.

(** C7.  When the body names a tutor and a student of the two maps and
    the tutor's record has no [notifications] field, the append raises
    [KeyError], the handler catches it and answers 500 with a message and
    the error; it does not answer 200, and nothing is saved. *)
Theorem select_tutor_missing_field
  (now : string) (fields tutors students record : dict) (t s : string) (fs : files) :
  dict_get fields (KStr "tutorId") = Some (VStr t) ->
  dict_get fields (KStr "studentId") = Some (VStr s) ->
  truthy (VStr t) = true ->
  truthy (VStr s) = true ->
  load_data TUTORS_FILE fs = inr (VDict tutors) ->
  load_data STUDENTS_FILE fs = inr (VDict students) ->
  dict_get tutors (KStr t) = Some (VDict record) ->
  dict_mem students (KStr s) = true ->
  dict_get record (KStr "notifications") = None ->
  select_tutor now (VDict fields) fs
  = (inr (Failure "Failed to notify tutor" (KeyError (KStr "notifications")), 500), fs) /\
  snd (select_tutor now (VDict fields) fs) = fs /\
  forall body fs', select_tutor now (VDict fields) fs <> (inr (body, 200), fs').
Proof.
  intros Ht Hs Htt Hts Hload Hloads Hrecord Hstudent Hnone.
  assert (Hrun : select_tutor now (VDict fields) fs
                 = (inr (Failure "Failed to notify tutor" (KeyError (KStr "notifications")), 500),
                    fs)).
  { rewrite (select_tutor_run now fields tutors students t s fs) by assumption.
    unfold dict_mem at 1. rewrite Hrecord, Hstudent. cbn [negb orb].
    unfold append_notification, py_getitem, hashable, bind, ret.
    now rewrite Hrecord, Hnone. }
  rewrite Hrun. repeat split. intros body fs' H. discriminate H.
Qed.

Lemma select_tutor_missing_field_witness :
  select_tutor example_time (VDict example_selection) bare_files
  = (inr (Failure "Failed to notify tutor" (KeyError (KStr "notifications")), 500),
     bare_files).
Proof.
  apply (select_tutor_missing_field example_time example_selection bare_tutors
           example_students
           [ (KStr "id", VStr "t1"); (KStr "name", VStr "Jane") ] "t1" "s1" bare_files);
    vm_compute; reflexivity.
Defined.

(** The keys of a decoded dictionary are strings. *)
Lemma is_json_key (d : dict) (k : key) (v : value) :
  is_json (VDict d) = true -> dict_get d k = Some v -> exists s, k = KStr s.
Proof.
  cbn [is_json]. rewrite andb_true_iff. intros [H _]. revert H.
  induction d as [ | [k0 v0] d IH ]; simpl; [ discriminate | ].
  rewrite !andb_true_iff. intros [[Hk0 _] Hd].
  destruct (key_eqb k0 k) eqn:Hk; [ intros _ | now apply IH ].
  destruct k0 as [ s0 | | | ]; try discriminate Hk0.
  destruct k as [ s1 | | | ]; try discriminate Hk. now exists s1.
Qed.

Lemma is_json_py_get (o : value) (k : string) (default v : value) :
  is_json o = true -> is_json default = true ->
  py_get o k default = inr v -> is_json v = true.
Proof.
  intros Ho Hd. destruct o; try discriminate. unfold py_get, ret.
  destruct (dict_get d (KStr k)) eqn:Hg; intros [= <-]; [ | exact Hd ].
  eapply is_json_dict_get; eassumption.
Qed.

Lemma is_json_notification (now : string) (student_id : value) :
  is_json student_id = true -> is_json (notification_for now student_id) = true.
Proof.
  intros H. unfold notification_for.
  cbn [is_json forallb fst snd is_str_key andb map]. now rewrite H.
Qed.

Lemma is_json_appended (tutors record : dict) (t : string) (ns : list value) (n : value) :
  is_json (VDict tutors) = true ->
  dict_get tutors (KStr t) = Some (VDict record) ->
  dict_get record (KStr "notifications") = Some (VList ns) ->
  is_json n = true ->
  is_json (VDict (dict_set tutors (KStr t)
                    (VDict (dict_set record (KStr "notifications") (VList (ns ++ [n]))))))
  = true.
Proof.
  intros Hjson Hrecord Hns Hn.
  pose proof (is_json_dict_get _ _ _ Hjson Hrecord) as Hjrecord.
  pose proof (is_json_dict_get _ _ _ Hjrecord Hns) as Hjns.
  apply is_json_dict_set; [ exact Hjson | ].
  apply is_json_dict_set; [ exact Hjrecord | ].
  now apply is_json_app.
Qed.

(** A selection answered 200 has read a string id, found the tutor's
    record and its list, and saved the map with the list extended. *)
Lemma select_tutor_success
  (now : string) (request_json : value) (tutors : dict) (fs fs' : files) (body : payload) :
  is_json request_json = true ->
  load_data TUTORS_FILE fs = inr (VDict tutors) ->
  select_tutor now request_json fs = (inr (body, 200), fs') ->
  exists (t : string) (student_id : value) (record : dict) (ns : list value),
    py_get request_json "tutorId" VNone = inr (VStr t) /\
    is_json student_id = true /\
    dict_get tutors (KStr t) = Some (VDict record) /\
    dict_get record (KStr "notifications") = Some (VList ns) /\
    fs' = save_data TUTORS_FILE
            (VDict (dict_set tutors (KStr t)
                      (VDict (dict_set record (KStr "notifications")
                                (VList (ns ++ [notification_for now student_id]))))))
            fs.
Proof.
  intros Hreq Hload Hrun.
  pose proof (load_data_is_json _ _ _ Hload) as Hjson.
  unfold select_tutor, io_bind, lift, try_except, io_load, io_save, io_ret in Hrun.
  destruct (py_get request_json "tutorId" VNone) as [ e | tutor_id ] eqn:Htid;
    [ discriminate Hrun | ].
  destruct (py_get request_json "studentId" VNone) as [ e | student_id ] eqn:Hsid;
    [ discriminate Hrun | ].
  destruct (negb (truthy tutor_id) || negb (truthy student_id)); [ discriminate Hrun | ].
  rewrite Hload in Hrun.
  destruct (load_data STUDENTS_FILE fs) as [ e | student_data ] eqn:Hloads;
    [ discriminate Hrun | ].
  unfold py_contains at 1 in Hrun. unfold bind, ret in Hrun.
  destruct (hashable tutor_id) as [ e | k ] eqn:Hk; [ discriminate Hrun | ].
  unfold dict_mem in Hrun.
  destruct (dict_get tutors k) as [ tutor | ] eqn:Htutor; [ | discriminate Hrun ].
  cbn [negb] in Hrun.
  destruct (py_contains student_data student_id) as [ e | [] ];
    try discriminate Hrun. cbn [negb] in Hrun.
  unfold append_notification, py_getitem at 1, bind, ret in Hrun.
  rewrite Hk, Htutor in Hrun.
  destruct (is_json_key _ _ _ Hjson Htutor) as [t ->].
  destruct tutor_id; try discriminate Hk. injection Hk as ->.
  destruct tutor as [ | | | | l | record ]; try discriminate Hrun.
  cbn [py_getitem hashable bind ret] in Hrun. unfold bind, ret in Hrun.
  destruct (dict_get record (KStr "notifications")) as [ notifications | ] eqn:Hns;
    [ | discriminate Hrun ].
  destruct notifications as [ | | | | ns | ]; try discriminate Hrun.
  cbn [py_append py_setitem hashable bind ret] in Hrun. unfold bind, ret in Hrun.
  injection Hrun as _ <-.
  exists t, student_id, record, ns. repeat split; try assumption.
  exact (is_json_py_get request_json "studentId" VNone student_id Hreq eq_refl Hsid).
Qed.

(** Whatever it answers, a selection writes nothing unless it answers
    200. *)
Lemma select_tutor_writes
  (now : string) (request_json : value) (fs fs' : files) (r : result response) :
  select_tutor now request_json fs = (r, fs') ->
  fs' = fs \/ exists body, r = inr (body, 200).
Proof.
  unfold select_tutor, io_bind, lift, try_except, io_load, io_save, io_ret. intros H.
  destruct (py_get request_json "tutorId" VNone) as [ e | tutor_id ];
    [ injection H as _ <-; now left | ].
  destruct (py_get request_json "studentId" VNone) as [ e | student_id ];
    [ injection H as _ <-; now left | ].
  destruct (negb (truthy tutor_id) || negb (truthy student_id));
    [ injection H as _ <-; now left | ].
  destruct (load_data TUTORS_FILE fs) as [ e | tutor_data ];
    [ injection H as _ <-; now left | ].
  destruct (load_data STUDENTS_FILE fs) as [ e | student_data ];
    [ injection H as _ <-; now left | ].
  destruct (py_contains tutor_data tutor_id) as [ e | [] ]; cbn [negb] in H;
    try (injection H as _ <-; now left).
  destruct (py_contains student_data student_id) as [ e | [] ]; cbn [negb] in H;
    try (injection H as _ <-; now left).
  destruct (append_notification _ _ _) as [ e | data ];
    [ injection H as _ <-; now left | ].
  injection H as <- _. right. now eexists.
Qed.

(** C9.  A selection that is answered 200 writes the tutor document and
    no other file, so the student document is as it was.  In the tutor
    map it leaves the same keys in the same order; the record of every
    other tutor is unchanged; the addressed record keeps its fields, with
    the same values except under [notifications], where one notification
    has been added at the end. *)
Theorem select_tutor_frame
  (now : string) (request_json : value) (tutors : dict) (fs fs' : files) (body : payload) :
  is_json request_json = true ->
  load_data TUTORS_FILE fs = inr (VDict tutors) ->
  select_tutor now request_json fs = (inr (body, 200), fs') ->
  (forall path, path <> TUTORS_FILE -> fs' !! path = fs !! path) /\
  fs' !! STUDENTS_FILE = fs !! STUDENTS_FILE /\
  load_data STUDENTS_FILE fs' = load_data STUDENTS_FILE fs /\
  exists (t : string) (record record' tutors' : dict) (ns : list value) (n : value),
    py_get request_json "tutorId" VNone = inr (VStr t) /\
    dict_get tutors (KStr t) = Some (VDict record) /\
    dict_get record (KStr "notifications") = Some (VList ns) /\
    load_data TUTORS_FILE fs' = inr (VDict tutors') /\
    dict_get tutors' (KStr t) = Some (VDict record') /\
    dict_get record' (KStr "notifications") = Some (VList (ns ++ [n])) /\
    dict_keys tutors' = dict_keys tutors /\
    dict_keys record' = dict_keys record /\
    (forall k, key_eqb (KStr t) k = false -> dict_get tutors' k = dict_get tutors k) /\
    (forall f, key_eqb (KStr "notifications") f = false ->
               dict_get record' f = dict_get record f).
Proof.
  intros Hreq Hload Hrun.
  pose proof (load_data_is_json _ _ _ Hload) as Hjson.
  destruct (select_tutor_success _ _ _ _ _ _ Hreq Hload Hrun)
    as (t & student_id & record & ns & Htid & Hsid & Htutor & Hns & ->).
  set (n := notification_for now student_id).
  set (record' := dict_set record (KStr "notifications") (VList (ns ++ [n]))).
  split; [ intros path Hpath; now apply lookup_save_other | ].
  split; [ now apply lookup_save_other | ].
  split; [ now apply load_save_other | ].
  exists t, record, record', (dict_set tutors (KStr t) (VDict record')), ns, n.
  repeat split; try assumption.
  - apply load_save_json.
    apply (is_json_appended tutors record t ns n Hjson Htutor Hns).
    now apply is_json_notification.
  - apply dict_get_set_eq, key_eqb_refl.
  - apply dict_get_set_eq, key_eqb_refl.
  - eapply dict_keys_set_mem; exact Htutor.
  - eapply dict_keys_set_mem; exact Hns.
  - intros k Hk. now apply dict_get_set_ne.
  - intros f Hf. now apply dict_get_set_ne.
Qed.

Lemma select_tutor_frame_witness :
  snd (select_tutor example_time (VDict example_selection) example_files) !! STUDENTS_FILE
  = example_files !! STUDENTS_FILE.
Proof.
  refine (proj1 (proj2 (select_tutor_frame example_time (VDict example_selection)
                          example_tutors example_files _
                          (message "Tutor notified successfully!") _ _ _)));
    vm_compute; reflexivity.
Defined.

(** ** Listing *)

Lemma existsb_filter_false (k : key) (p : key * value -> bool) (d : dict) :
  existsb (key_eqb k) (map fst d) = false ->
  existsb (key_eqb k) (map fst (List.filter p d)) = false.
Proof.
  induction d as [ | [k0 v0] d IH ]; simpl; [ reflexivity | ].
  intros H. apply orb_false_iff in H as [H1 H2].
  destruct (p (k0, v0)); simpl; [ | now apply IH ].
  now rewrite H1, IH.
Qed.

Lemma distinct_keys_filter (p : key * value -> bool) (d : dict) :
  distinct_keys (map fst d) = true -> distinct_keys (map fst (List.filter p d)) = true.
Proof.
  induction d as [ | [k0 v0] d IH ]; simpl; [ reflexivity | ].
  rewrite andb_true_iff, negb_true_iff. intros [H1 H2].
  destruct (p (k0, v0)); simpl; [ | now apply IH ].
  now rewrite existsb_filter_false, IH.
Qed.

Lemma dict_get_filter_other (d : dict) (k : key) :
  key_eqb (KStr "notifications") k = false ->
  dict_get (List.filter not_notifications d) k = dict_get d k.
Proof.
  intros Hk. induction d as [ | [k0 v0] d IH ]; simpl; [ reflexivity | ].
  unfold not_notifications at 1. cbn [fst].
  destruct (key_eqb k0 (KStr "notifications")) eqn:H0; cbn [negb].
  - destruct (key_eqb k0 k) eqn:H1; [ | exact IH ].
    rewrite key_eqb_sym in H0.
    rewrite (key_eqb_trans _ _ _ H0 H1) in Hk. discriminate Hk.
  - simpl. now rewrite IH.
Qed.

Lemma dict_get_filter_notifications (d : dict) :
  dict_get (List.filter not_notifications d) (KStr "notifications") = None.
Proof.
  induction d as [ | [k0 v0] d IH ]; simpl; [ reflexivity | ].
  unfold not_notifications at 1. cbn [fst].
  destruct (key_eqb k0 (KStr "notifications")) eqn:H0; cbn [negb]; [ exact IH | ].
  simpl. now rewrite H0.
Qed.

Lemma without_notifications_dict (fields : dict) :
  is_json (VDict fields) = true ->
  without_notifications (VDict fields) = inr (VDict (List.filter not_notifications fields)).
Proof.
  cbn [is_json]. rewrite andb_true_iff. intros [_ Hd].
  unfold without_notifications, py_items, bind, ret. do 2 f_equal.
  change (dict_of_pairs ?l) with (dict_update [] l).
  apply dict_update_distinct; [ | intros k [] ].
  now apply distinct_keys_filter.
Qed.

Lemma traverse_without_notifications (tutor_list : list value) :
  is_json (VList tutor_list) = true ->
  forallb is_dict tutor_list = true ->
  exists shown,
    traverse without_notifications tutor_list = inr shown /\
    Forall2 listed tutor_list shown.
Proof.
  induction tutor_list as [ | tutor l IH ]; intros Hjson Hdict.
  - exists []. split; [ reflexivity | constructor ].
  - cbn [is_json forallb] in Hjson, Hdict.
    apply andb_true_iff in Hjson as [Hj Hjl]. apply andb_true_iff in Hdict as [Hd Hdl].
    destruct (IH Hjl Hdl) as (shown & Hshown & Hall).
    destruct tutor as [ | | | | | fields ]; try discriminate Hd.
    exists (VDict (List.filter not_notifications fields) :: shown). split.
    + cbn [traverse]. rewrite (without_notifications_dict fields Hj).
      unfold bind, ret. now rewrite Hshown.
    + constructor; [ | exact Hall ].
      exists fields, (List.filter not_notifications fields). repeat split.
      * apply dict_get_filter_notifications.
      * apply dict_get_filter_other.
Qed.

Lemma is_json_values (d : dict) :
  is_json (VDict d) = true -> is_json (VList (dict_values d)) = true.
Proof.
  cbn [is_json]. rewrite andb_true_iff. intros [H _]. unfold dict_values.
  induction d as [ | [k v] d IH ]; simpl in *; [ reflexivity | ].
  apply andb_true_iff in H as [H1 H2]. apply andb_true_iff in H1 as [_ Hv].
  now rewrite Hv, IH.
Qed.

(** C5 as stated fails: this tutor document holds a map, and the
    listing is answered 500, not 200, because one value of the map is a
    string, which has no [items]. *)
Lemma get_all_tutors_string_record :
  load_data TUTORS_FILE odd_files = inr (VDict odd_tutors) /\
  map snd odd_tutors = [ VDict example_tutor; VStr "gone" ] /\
  get_all_tutors odd_files
  = (inr (Failure "Failed to retrieve tutor data" AttributeError, 500), odd_files).
Proof. vm_compute. repeat split. Qed.

(** C5, amended.  Whatever map the tutor document holds, when every
    value of the map is an object the listing is answered 200 with one
    item per tutor, in the order of the map; each item has no
    [notifications] key and, under every other key, what the tutor's
    record has.  No file is written. *)
Theorem get_all_tutors_hides_notifications (tutors : dict) (fs : files) :
  load_data TUTORS_FILE fs = inr (VDict tutors) ->
  forallb is_dict (map snd tutors) = true ->
  exists shown,
    get_all_tutors fs = (inr (Json (VList shown), 200), fs) /\
    Forall2 listed (map snd tutors) shown /\
    Forall (fun item => exists fields,
                item = VDict fields /\ dict_mem fields (KStr "notifications") = false) shown.
Proof.
  intros Hload Hdict.
  pose proof (load_data_is_json _ _ _ Hload) as Hjson.
  destruct (traverse_without_notifications _ (is_json_values _ Hjson) Hdict)
    as (shown & Hshown & Hall).
  exists shown. repeat split.
  - unfold get_all_tutors, try_except, io_bind, io_load, lift, io_ret.
    rewrite Hload. cbn [py_values]. unfold ret. now rewrite Hshown.
  - exact Hall.
  - clear Hshown Hdict Hjson Hload.
    induction Hall as [ | tutor item l l' H Hl IH ]; [ constructor | ].
    constructor; [ | exact IH ].
    destruct H as (fields & fields' & _ & -> & Hnone & _).
    exists fields'. split; [ reflexivity | ]. unfold dict_mem. now rewrite Hnone.
Qed.

Lemma get_all_tutors_hides_notifications_witness :
  exists shown,
    get_all_tutors example_files = (inr (Json (VList shown), 200), example_files) /\
    Forall2 listed (map snd example_tutors) shown /\
    Forall (fun item => exists fields,
                item = VDict fields /\ dict_mem fields (KStr "notifications") = false) shown.
Proof.
  apply (get_all_tutors_hides_notifications example_tutors example_files);
    vm_compute; reflexivity.
Defined.

(** ** Notifications *)

Section Notifications.

Variables (tutor_id : string) (tutors : dict) (fs : files).
Hypothesis Htutors : load_data TUTORS_FILE fs = inr (VDict tutors).

(** The handler, once the document is loaded. *)
Lemma get_tutor_notifications_run :
  get_tutor_notifications tutor_id fs =
  let tutor_profile :=
    match dict_get tutors (KStr tutor_id) with Some v => v | None => VNone end in
  if negb (truthy tutor_profile) then (inr (message "Tutor not found", 404), fs)
  else
    match py_get tutor_profile "notifications" (VList []) with
    | inl e => (inr (Failure "Failed to retrieve notifications" e, 500), fs)
    | inr notifications =>
        (inr (Json (VDict [(KStr "notifications", notifications)]), 200), fs)
    end.
Proof using All.
  unfold get_tutor_notifications, try_except, io_bind, io_load, lift, io_ret.
  rewrite Htutors. cbn [py_get]. unfold ret. cbv zeta.
  destruct (negb (truthy _)); [ reflexivity | ].
  destruct (py_get _ _ _); reflexivity.
Qed.

End Notifications.

(** C6 as stated fails: the id of this request is a key of the tutor map
    and the answer is 404, because the record under it is empty. *)
Lemma get_tutor_notifications_empty_record :
  load_data TUTORS_FILE blank_files = inr (VDict blank_tutors) /\
  dict_mem blank_tutors (KStr "t1") = true /\
  get_tutor_notifications "t1" blank_files
  = (inr (message "Tutor not found", 404), blank_files).
Proof. vm_compute. repeat split. Qed.

(** C6, amended.  With a map in the tutor document, the answer is 404
    with the message "Tutor not found" when the id is not a key of the
    map or the value under it is falsy, as an empty record is; when the
    id is the key of a record that is not empty the answer is 200 with
    what the record holds under [notifications], the empty list when it
    has no such field. *)
Theorem get_tutor_notifications_answer (tutor_id : string) (tutors : dict) (fs : files) :
  load_data TUTORS_FILE fs = inr (VDict tutors) ->
  (dict_get tutors (KStr tutor_id) = None ->
   get_tutor_notifications tutor_id fs = (inr (message "Tutor not found", 404), fs)) /\
  (forall v, dict_get tutors (KStr tutor_id) = Some v -> truthy v = false ->
   get_tutor_notifications tutor_id fs = (inr (message "Tutor not found", 404), fs)) /\
  (forall fields, dict_get tutors (KStr tutor_id) = Some (VDict fields) ->
   truthy (VDict fields) = true ->
   get_tutor_notifications tutor_id fs
   = (inr (Json (VDict [ (KStr "notifications",
                          match dict_get fields (KStr "notifications") with
                          | Some sequence => sequence
                          | None => VList []
                          end) ]), 200), fs)).
Proof.
  intros Hload. rewrite (get_tutor_notifications_run tutor_id tutors fs Hload).
  repeat split.
  - intros ->. reflexivity.
  - intros v -> Hv. cbv zeta. now rewrite Hv.
  - intros fields -> Hv. cbv zeta. now rewrite Hv.
Qed.

Lemma get_tutor_notifications_answer_witness :
  get_tutor_notifications "t1" example_files
  = (inr (Json (VDict [ (KStr "notifications", VList []) ]), 200), example_files) /\
  get_tutor_notifications "t9" example_files
  = (inr (message "Tutor not found", 404), example_files).
Proof.
  destruct (get_tutor_notifications_answer "t1" example_tutors example_files)
    as (_ & _ & Hfound); [ vm_compute; reflexivity | ].
  destruct (get_tutor_notifications_answer "t9" example_tutors example_files)
    as (Hmissing & _); [ vm_compute; reflexivity | ].
  split.
  - apply (Hfound example_tutor); vm_compute; reflexivity.
  - apply Hmissing. vm_compute; reflexivity.
Defined.

(** C10.  The handler tests the record it looked up, not the presence of
    the key: when the id is a key of the tutor map and the value under it
    is falsy, as the empty record is, the answer is 404 and not 200. *)
Theorem get_tutor_notifications_falsy_record
  (tutor_id : string) (tutors : dict) (record : value) (fs : files) :
  load_data TUTORS_FILE fs = inr (VDict tutors) ->
  dict_get tutors (KStr tutor_id) = Some record ->
  truthy record = false ->
  dict_mem tutors (KStr tutor_id) = true /\
  get_tutor_notifications tutor_id fs = (inr (message "Tutor not found", 404), fs) /\
  forall body fs', get_tutor_notifications tutor_id fs <> (inr (body, 200), fs').
Proof.
  intros Hload Hrecord Hfalsy.
  assert (Hrun : get_tutor_notifications tutor_id fs
                 = (inr (message "Tutor not found", 404), fs)).
  { rewrite (get_tutor_notifications_run tutor_id tutors fs Hload).
    rewrite Hrecord. cbv zeta. now rewrite Hfalsy. }
  repeat split.
  - unfold dict_mem. now rewrite Hrecord.
  - exact Hrun.
  - rewrite Hrun. intros body fs' H. discriminate H.
Qed.

Lemma get_tutor_notifications_falsy_record_witness :
  dict_mem lapsed_tutors (KStr "t2") = true /\
  get_tutor_notifications "t2" lapsed_files
  = (inr (message "Tutor not found", 404), lapsed_files).
Proof.
  destruct (get_tutor_notifications_falsy_record "t2" lapsed_tutors (VDict []) lapsed_files)
    as (Hkey & Hrun & _); try (vm_compute; reflexivity).
  split; [ exact Hkey | exact Hrun ].
Defined.

(** ** Start-up, and the scenario of the specification *)

Lemma ensure_file_loads (file_path : string) (fs : files) :
  fs !! file_path = None \/ fs !! file_path = Some "" ->
  load_data file_path (ensure_file file_path fs) = inr (VDict []).
Proof.
  intros H. unfold ensure_file.
  assert (Hsave : load_data file_path (save_data file_path (VDict []) fs) = inr (VDict []))
    by (now apply load_save_json).
  destruct H as [-> | ->]; exact Hsave.
Qed.

Lemma ensure_file_other (file_path other : string) (fs : files) :
  other <> file_path -> ensure_file file_path fs !! other = fs !! other.
Proof.
  intros H. unfold ensure_file.
  destruct (fs !! file_path) as [ [ | c r ] | ]; try reflexivity;
    now apply lookup_insert_ne.
Qed.

(** On a first start both documents hold the empty map. *)
Lemma ensure_data_files_exist_first_start (fs : files) :
  fs !! TUTORS_FILE = None -> fs !! STUDENTS_FILE = None ->
  load_data TUTORS_FILE (ensure_data_files_exist fs) = inr (VDict []) /\
  load_data STUDENTS_FILE (ensure_data_files_exist fs) = inr (VDict []).
Proof.
  intros Ht Hs. unfold ensure_data_files_exist. split.
  - unfold load_data at 1. rewrite ensure_file_other by discriminate.
    fold (load_data TUTORS_FILE (ensure_file TUTORS_FILE fs)).
    apply ensure_file_loads. now left.
  - apply ensure_file_loads. left.
    rewrite ensure_file_other by discriminate. exact Hs.
Qed.

(** Register tutor [t1] and student [s1] on a fresh store, select, and
    read the notifications of [t1]. *)
Example scenario :
  let fs0 := ensure_data_files_exist ∅ in
  let '(r1, fs1) :=
    register_tutor (VDict [ (KStr "id", VStr "t1"); (KStr "name", VStr "Jane") ]) fs0 in
  let '(r2, fs2) :=
    register_student (VDict [ (KStr "id", VStr "s1"); (KStr "name", VStr "Sam") ]) fs1 in
  let '(r3, fs3) := select_tutor example_time (VDict example_selection) fs2 in
  let '(r4, fs4) := get_tutor_notifications "t1" fs3 in
  r1 = inr (message "Tutor profile saved successfully!", 201) /\
  r2 = inr (message "Student profile saved successfully!", 201) /\
  r3 = inr (message "Tutor notified successfully!", 200) /\
  r4 = inr (Json (VDict [ (KStr "notifications",
                           VList [ VDict [ (KStr "student_id", VStr "s1");
                                           (KStr "message",
                                            VStr "Student s1 is interested in your services.");
                                           (KStr "timestamp", VStr example_time) ] ]) ]),
            200) /\
  fs4 = fs3.
Proof. vm_compute. repeat split. Qed.

(** ** The invariant of the tutor document *)

Lemma forallb_values_set (q : value -> bool) (d : dict) (k : key) (v : value) :
  forallb q (dict_values d) = true -> q v = true ->
  forallb q (dict_values (dict_set d k v)) = true.
Proof.
  unfold dict_values. intros Hd Hv.
  induction d as [ | [k0 v0] d IH ]; simpl in *.
  - now rewrite Hv.
  - apply andb_true_iff in Hd as [H0 Hd].
    destruct (key_eqb k0 k); simpl.
    + now rewrite Hv, Hd.
    + now rewrite H0, IH.
Qed.

Lemma forallb_values_update (q : value -> bool) (pairs acc : dict) :
  forallb q (dict_values acc) = true -> forallb q (dict_values pairs) = true ->
  forallb q (dict_values (dict_update acc pairs)) = true.
Proof.
  revert acc. induction pairs as [ | [k v] pairs IH ]; intros acc Hacc Hpairs.
  - exact Hacc.
  - unfold dict_values in Hpairs. simpl in Hpairs.
    apply andb_true_iff in Hpairs as [Hv Hpairs].
    unfold dict_update. cbn [fold_left fst snd]. apply IH; [ | exact Hpairs ].
    now apply forallb_values_set.
Qed.

Lemma values_coerce_item (d : dict) :
  forallb is_json (dict_values d) = true ->
  dict_values (map coerce_item d) = dict_values d.
Proof.
  unfold dict_values. induction d as [ | [k v] d IH ]; simpl; [ reflexivity | ].
  rewrite andb_true_iff. intros [Hv Hd].
  now rewrite (coerce_is_json v Hv), IH.
Qed.

Lemma is_json_all_values (d : dict) :
  is_json (VDict d) = true -> forallb is_json (dict_values d) = true.
Proof. intros H. exact (is_json_values d H). Qed.

(** Saving a map of decoded records with every record having its list
    leaves the document well kept, whatever the keys. *)
Lemma well_kept_save (d : dict) (fs : files) :
  forallb is_json (dict_values d) = true ->
  forallb has_notifications (dict_values d) = true ->
  well_kept (save_data TUTORS_FILE (VDict d) fs).
Proof.
  intros Hjson Hall.
  exists (dict_of_pairs (map (fun kv => (KStr (key_str (fst kv)), coerce (snd kv))) d)).
  split; [ apply load_save | ].
  change (dict_of_pairs ?l) with (dict_update [] l).
  apply forallb_values_update; [ reflexivity | ].
  change (map _ d) with (map coerce_item d).
  now rewrite values_coerce_item.
Qed.

Lemma well_kept_first_start (fs : files) :
  fs !! TUTORS_FILE = None -> well_kept (ensure_data_files_exist fs).
Proof.
  intros H. exists []. split; [ | reflexivity ].
  unfold ensure_data_files_exist, load_data.
  rewrite ensure_file_other by discriminate.
  fold (load_data TUTORS_FILE (ensure_file TUTORS_FILE fs)).
  apply ensure_file_loads. now left.
Qed.

Lemma register_tutor_well_kept (request_json : value) (fs : files) :
  is_json request_json = true -> well_kept fs ->
  well_kept (snd (register_tutor request_json fs)).
Proof.
  intros Hreq Hkept. pose proof Hkept as (tutors & Hload & Hall).
  pose proof (load_data_is_json _ _ _ Hload) as Hjson.
  unfold register_tutor, io_bind, lift, try_except, io_load, io_save, io_ret.
  destruct request_json as [ | | | | | fields ]; try exact Hkept.
  cbn [py_get]. unfold ret.
  destruct (negb (truthy _)); [ exact Hkept | ].
  rewrite Hload. cbn [py_setitem hashable bind ret]. unfold bind, ret.
  destruct (hashable _) as [ e | k ]; [ exact Hkept | ].
  cbn [snd]. apply well_kept_save.
  - apply forallb_values_set; [ now apply is_json_all_values | ].
    now apply is_json_dict_set.
  - apply forallb_values_set; [ exact Hall | ].
    cbn [has_notifications]. now rewrite dict_get_set_eq by apply key_eqb_refl.
Qed.

Lemma register_student_well_kept (request_json : value) (fs : files) :
  well_kept fs -> well_kept (snd (register_student request_json fs)).
Proof.
  intros Hkept.
  unfold register_student, io_bind, lift, try_except, io_load, io_save, io_ret.
  destruct (py_get request_json "id" VNone) as [ e | student_id ]; [ exact Hkept | ].
  destruct (negb (truthy student_id)); [ exact Hkept | ].
  destruct (load_data STUDENTS_FILE fs) as [ e | data ]; [ exact Hkept | ].
  destruct (py_setitem data student_id request_json) as [ e | data' ]; [ exact Hkept | ].
  cbn [snd]. destruct Hkept as (tutors & Hload & Hall).
  exists tutors. split; [ | exact Hall ].
  now rewrite load_save_other by discriminate.
Qed.

Lemma select_tutor_well_kept (now : string) (request_json : value) (fs : files) :
  is_json request_json = true -> well_kept fs ->
  well_kept (snd (select_tutor now request_json fs)).
Proof.
  intros Hreq Hkept. pose proof Hkept as (tutors & Hload & Hall).
  destruct (select_tutor now request_json fs) as [r fs'] eqn:Hrun. cbn [snd].
  destruct (select_tutor_writes _ _ _ _ _ Hrun) as [-> | [body ->]]; [ exact Hkept | ].
  destruct (select_tutor_success _ _ _ _ _ _ Hreq Hload Hrun)
    as (t & student_id & record & ns & _ & Hsid & Hrecord & Hns & ->).
  pose proof (load_data_is_json _ _ _ Hload) as Hjson.
  pose proof (is_json_appended tutors record t ns _ Hjson Hrecord Hns
                (is_json_notification now student_id Hsid)) as Hnew.
  eexists. split; [ now apply load_save_json | ].
  apply forallb_values_set; [ exact Hall | ].
  cbn [has_notifications]. now rewrite dict_get_set_eq by apply key_eqb_refl.
Qed.

Lemma get_all_tutors_reads (fs : files) : snd (get_all_tutors fs) = fs.
Proof.
  unfold get_all_tutors, try_except, io_bind, io_load, lift, io_ret.
  destruct (load_data TUTORS_FILE fs) as [ e | data ]; [ reflexivity | ].
  destruct (py_values data) as [ e | l ]; [ reflexivity | ].
  destruct (traverse without_notifications l); reflexivity.
Qed.

Lemma get_tutor_notifications_reads (tutor_id : string) (fs : files) :
  snd (get_tutor_notifications tutor_id fs) = fs.
Proof.
  unfold get_tutor_notifications, try_except, io_bind, io_load, lift, io_ret.
  destruct (load_data TUTORS_FILE fs) as [ e | data ]; [ reflexivity | ].
  destruct (py_get data tutor_id VNone) as [ e | profile ]; [ reflexivity | ].
  destruct (negb (truthy profile)); [ reflexivity | ].
  destruct (py_get profile "notifications" (VList [])); reflexivity.
Qed.

(** Every request with a decoded body keeps the tutor document well
    kept. *)
Lemma handle_well_kept (r : request) (fs : files) :
  request_ok r = true -> well_kept fs -> well_kept (snd (handle r fs)).
Proof.
  destruct r as [ body | body | | now body | tutor_id ]; cbn [handle request_ok]; intros Hr Hkept.
  - now apply register_tutor_well_kept.
  - now apply register_student_well_kept.
  - now rewrite get_all_tutors_reads.
  - now apply select_tutor_well_kept.
  - now rewrite get_tutor_notifications_reads.
Qed.

(** From a first start, whatever requests are served, every stored tutor
    record has its list of notifications. *)
Lemma serve_well_kept (requests : list request) (fs : files) :
  forallb request_ok requests = true -> well_kept fs -> well_kept (serve requests fs).
Proof.
  revert fs. induction requests as [ | r later IH ]; intros fs Hok Hkept.
  - exact Hkept.
  - cbn [forallb] in Hok. apply andb_true_iff in Hok as [Hr Hlater].
    cbn [serve]. apply IH; [ exact Hlater | ]. now apply handle_well_kept.
Qed.

(** In a well kept store a selection that names a tutor and a student of
    the two maps is answered 200. *)
Lemma select_tutor_well_kept_notifies
  (now : string) (fields tutors students : dict) (t s : string) (fs : files) :
  dict_get fields (KStr "tutorId") = Some (VStr t) ->
  dict_get fields (KStr "studentId") = Some (VStr s) ->
  truthy (VStr t) = true ->
  truthy (VStr s) = true ->
  well_kept fs ->
  load_data TUTORS_FILE fs = inr (VDict tutors) ->
  load_data STUDENTS_FILE fs = inr (VDict students) ->
  dict_mem tutors (KStr t) = true ->
  dict_mem students (KStr s) = true ->
  fst (select_tutor now (VDict fields) fs)
  = inr (message "Tutor notified successfully!", 200).
Proof.
  intros Ht Hs Htt Hts (tutors0 & Hload0 & Hall) Hload Hloads Htutor Hstudent.
  rewrite Hload in Hload0. injection Hload0 as <-.
  unfold dict_mem in Htutor.
  destruct (dict_get tutors (KStr t)) as [ tutor | ] eqn:Hrecord; [ | discriminate Htutor ].
  assert (Hhas : has_notifications tutor = true).
  { clear - Hall Hrecord. unfold dict_values in Hall.
    induction tutors as [ | [k0 v0] d IH ]; simpl in *; [ discriminate Hrecord | ].
    apply andb_true_iff in Hall as [H0 Hd].
    destruct (key_eqb k0 (KStr t)); [ now injection Hrecord as <- | now apply IH ]. }
  destruct tutor as [ | | | | | record ]; try discriminate Hhas.
  cbn [has_notifications] in Hhas.
  destruct (dict_get record (KStr "notifications")) as [ [ | | | | ns | ] | ] eqn:Hns;
    try discriminate Hhas.
  destruct (select_tutor_step now fields tutors students t s fs Ht Hs Htt Hts Hload Hloads
              record ns Hrecord Hns Hstudent) as (Hrun & _).
  now rewrite Hrun.
Qed.

(** * Further properties of the code *)

(** ** Start-up: [ensure_data_files_exist] *)

Lemma ensure_file_cases (file_path : string) (fs : files) :
  (exists c r, fs !! file_path = Some (String c r) /\ ensure_file file_path fs = fs) \/
  ((fs !! file_path = None \/ fs !! file_path = Some "") /\
   ensure_file file_path fs = save_data file_path (VDict []) fs).
Proof.
  unfold ensure_file. destruct (fs !! file_path) as [ [ | c r ] | ] eqn:H.
  - right. split; [ now right | reflexivity ].
  - left. now exists c, r.
  - right. split; [ now left | reflexivity ].
Qed.

Lemma ensure_file_present (file_path : string) (fs : files) :
  exists c r, ensure_file file_path fs !! file_path = Some (String c r).
Proof.
  destruct (ensure_file_cases file_path fs) as [(c & r & H & ->) | [_ ->]].
  - now exists c, r.
  - unfold save_data. rewrite lookup_insert_eq. now exists "{"%char, "}".
Qed.

Lemma ensure_file_fixed (file_path : string) (fs : files) (c : ascii) (r : string) :
  fs !! file_path = Some (String c r) -> ensure_file file_path fs = fs.
Proof. intros H. unfold ensure_file. now rewrite H. Qed.

Lemma ensure_file_lookup (file_path other : string) (fs : files) (c : ascii) (r : string) :
  fs !! other = Some (String c r) -> ensure_file file_path fs !! other = Some (String c r).
Proof.
  intros H. destruct (string_dec other file_path) as [-> | Hne].
  - now rewrite (ensure_file_fixed _ _ _ _ H).
  - now rewrite ensure_file_other.
Qed.

(** X1.  Start-up seeds a document that is missing or empty: afterwards
    it loads as the empty map. *)
Theorem ensure_data_files_exist_seeds (document : string) (fs : files) :
  document = TUTORS_FILE \/ document = STUDENTS_FILE ->
  fs !! document = None \/ fs !! document = Some "" ->
  load_data document (ensure_data_files_exist fs) = inr (VDict []).
Proof.
  intros Hdoc Hmissing. unfold ensure_data_files_exist.
  destruct Hdoc as [-> | ->].
  - unfold load_data. rewrite ensure_file_other by discriminate.
    fold (load_data TUTORS_FILE (ensure_file TUTORS_FILE fs)).
    now apply ensure_file_loads.
  - apply ensure_file_loads.
    now rewrite ensure_file_other by discriminate.
Qed.

Lemma ensure_data_files_exist_seeds_witness :
  load_data TUTORS_FILE (ensure_data_files_exist ∅) = inr (VDict []).
Proof.
  apply (ensure_data_files_exist_seeds TUTORS_FILE ∅); left; reflexivity.
Defined.

(** X2.  Start-up never touches what is there: a file that is not empty
    keeps its text, so a document that loads still loads to the same
    value; files other than the two documents are left alone; and
    running it again changes nothing. *)
Theorem ensure_data_files_exist_keeps (fs : files) :
  (forall path c r, fs !! path = Some (String c r) ->
                    ensure_data_files_exist fs !! path = Some (String c r)) /\
  (forall document data, load_data document fs = inr data ->
                         load_data document (ensure_data_files_exist fs) = inr data) /\
  (forall path, path <> TUTORS_FILE -> path <> STUDENTS_FILE ->
                ensure_data_files_exist fs !! path = fs !! path) /\
  ensure_data_files_exist (ensure_data_files_exist fs) = ensure_data_files_exist fs.
Proof.
  assert (Hkeep : forall path c r, fs !! path = Some (String c r) ->
                    ensure_data_files_exist fs !! path = Some (String c r)).
  { intros path c r H. unfold ensure_data_files_exist.
    now do 2 apply ensure_file_lookup. }
  repeat split.
  - exact Hkeep.
  - intros document data H. unfold load_data in *.
    destruct (fs !! document) as [ [ | c r ] | ] eqn:Hd; try discriminate H.
    now rewrite (Hkeep _ _ _ Hd).
  - intros path Ht Hs. unfold ensure_data_files_exist.
    now rewrite !ensure_file_other.
  - unfold ensure_data_files_exist.
    destruct (ensure_file_present TUTORS_FILE fs) as (c & r & Ht).
    destruct (ensure_file_present STUDENTS_FILE (ensure_file TUTORS_FILE fs)) as (c' & r' & Hs).
    pose proof (ensure_file_lookup STUDENTS_FILE TUTORS_FILE _ c r Ht) as Ht'.
    rewrite (ensure_file_fixed TUTORS_FILE _ c r Ht').
    now rewrite (ensure_file_fixed STUDENTS_FILE _ c' r' Hs).
Qed.

(** ** The store: [load_data], [save_data] *)

(** X3.  What a document loads to is a JSON value, and rewriting the
    document with it changes nothing of what it holds: saved and loaded
    again it is the same value, and the other documents load as before. *)
Theorem load_save_load (document : string) (data : value) (fs : files) :
  load_data document fs = inr data ->
  is_json data = true /\
  load_data document (save_data document data fs) = inr data /\
  forall other, other <> document ->
    load_data other (save_data document data fs) = load_data other fs.
Proof.
  intros H. pose proof (load_data_is_json _ _ _ H) as Hjson.
  repeat split.
  - exact Hjson.
  - now apply load_save_json.
  - intros other Hne. now apply load_save_other.
Qed.

Lemma load_save_load_witness :
  load_data TUTORS_FILE (save_data TUTORS_FILE (VDict example_tutors) example_files)
  = inr (VDict example_tutors).
Proof.
  refine (proj1 (proj2 (load_save_load TUTORS_FILE (VDict example_tutors) example_files _))).
  vm_compute; reflexivity.
Defined.

(** ** What the handlers write *)

Lemma register_tutor_effect (request_json : value) (fs : files) :
  snd (register_tutor request_json fs) = fs \/
  exists data,
    register_tutor request_json fs
    = (inr (message "Tutor profile saved successfully!", 201),
       save_data TUTORS_FILE data fs).
Proof.
  unfold register_tutor, io_bind, lift, try_except, io_load, io_save, io_ret.
  destruct (py_get request_json "id" VNone) as [ e | tutor_id ]; [ now left | ].
  destruct (negb (truthy tutor_id)); [ now left | ].
  destruct (load_data TUTORS_FILE fs) as [ e | data ]; [ now left | ].
  destruct (py_setitem request_json _ _) as [ e | tutor_data ]; [ now left | ].
  destruct (py_setitem data tutor_id tutor_data) as [ e | data' ]; [ now left | ].
  right. now exists data'.
Qed.

Lemma register_student_effect (request_json : value) (fs : files) :
  snd (register_student request_json fs) = fs \/
  exists data,
    register_student request_json fs
    = (inr (message "Student profile saved successfully!", 201),
       save_data STUDENTS_FILE data fs).
Proof.
  unfold register_student, io_bind, lift, try_except, io_load, io_save, io_ret.
  destruct (py_get request_json "id" VNone) as [ e | student_id ]; [ now left | ].
  destruct (negb (truthy student_id)); [ now left | ].
  destruct (load_data STUDENTS_FILE fs) as [ e | data ]; [ now left | ].
  destruct (py_setitem data student_id request_json) as [ e | data' ]; [ now left | ].
  right. now exists data'.
Qed.

Lemma select_tutor_effect (now : string) (request_json : value) (fs : files) :
  snd (select_tutor now request_json fs) = fs \/
  exists data,
    select_tutor now request_json fs
    = (inr (message "Tutor notified successfully!", 200),
       save_data TUTORS_FILE data fs).
Proof.
  unfold select_tutor, io_bind, lift, try_except, io_load, io_save, io_ret.
  destruct (py_get request_json "tutorId" VNone) as [ e | tutor_id ]; [ now left | ].
  destruct (py_get request_json "studentId" VNone) as [ e | student_id ]; [ now left | ].
  destruct (negb (truthy tutor_id) || negb (truthy student_id)); [ now left | ].
  destruct (load_data TUTORS_FILE fs) as [ e | tutor_data ]; [ now left | ].
  destruct (load_data STUDENTS_FILE fs) as [ e | student_data ]; [ now left | ].
  destruct (py_contains tutor_data tutor_id) as [ e | [] ]; cbn [negb]; try now left.
  destruct (py_contains student_data student_id) as [ e | [] ]; cbn [negb]; try now left.
  destruct (append_notification _ _ _) as [ e | data ]; [ now left | ].
  right. now exists data.
Qed.

(** X4.  The two queries write nothing, whatever the files hold and
    whatever they answer. *)
Theorem queries_write_nothing (tutor_id : string) (fs : files) :
  snd (get_all_tutors fs) = fs /\ snd (get_tutor_notifications tutor_id fs) = fs.
Proof.
  split.
  - apply get_all_tutors_reads.
  - apply get_tutor_notifications_reads.
Qed.

(** X5.  A handler that changes the store writes one document, its own,
    and only when it answers success: tutor registration (201) and
    selection (200) write the tutor document, student registration (201)
    the student document.  In every other case the files are as they
    were. *)
Theorem handlers_write_own_document (now : string) (request_json : value) (fs : files) :
  (snd (register_tutor request_json fs) = fs \/
   exists body,
     fst (register_tutor request_json fs) = inr (body, 201) /\
     forall path, path <> TUTORS_FILE ->
                  snd (register_tutor request_json fs) !! path = fs !! path) /\
  (snd (register_student request_json fs) = fs \/
   exists body,
     fst (register_student request_json fs) = inr (body, 201) /\
     forall path, path <> STUDENTS_FILE ->
                  snd (register_student request_json fs) !! path = fs !! path) /\
  (snd (select_tutor now request_json fs) = fs \/
   exists body,
     fst (select_tutor now request_json fs) = inr (body, 200) /\
     forall path, path <> TUTORS_FILE ->
                  snd (select_tutor now request_json fs) !! path = fs !! path).
Proof.
  repeat split.
  - destruct (register_tutor_effect request_json fs) as [H | [data H]]; [ now left | ].
    right. rewrite H. eexists. split; [ reflexivity | ].
    intros path Hne. now apply lookup_save_other.
  - destruct (register_student_effect request_json fs) as [H | [data H]]; [ now left | ].
    right. rewrite H. eexists. split; [ reflexivity | ].
    intros path Hne. now apply lookup_save_other.
  - destruct (select_tutor_effect now request_json fs) as [H | [data H]]; [ now left | ].
    right. rewrite H. eexists. split; [ reflexivity | ].
    intros path Hne. now apply lookup_save_other.
Qed.

(** ** Exceptions that leave a handler *)

Lemma try_except_answers {A} (body : io A) (handler : exn -> A) (fs : files) :
  exists r, fst (try_except body handler fs) = inr r.
Proof.
  unfold try_except. destruct (body fs) as [ [ e | a ] fs' ]; now eexists.
Qed.

(** X6.  With a JSON object as body no exception leaves a handler: every
    failure inside is answered by the handler itself.  The queries never
    raise either. *)
Theorem handlers_answer (now tutor_id : string) (fields : dict) (fs : files) :
  (exists r, fst (register_tutor (VDict fields) fs) = inr r) /\
  (exists r, fst (register_student (VDict fields) fs) = inr r) /\
  (exists r, fst (select_tutor now (VDict fields) fs) = inr r) /\
  (exists r, fst (get_all_tutors fs) = inr r) /\
  (exists r, fst (get_tutor_notifications tutor_id fs) = inr r).
Proof.
  repeat split.
  - unfold register_tutor, io_bind, lift, io_ret. cbn [py_get]. unfold ret.
    destruct (negb (truthy _)); [ now eexists | apply try_except_answers ].
  - unfold register_student, io_bind, lift, io_ret. cbn [py_get]. unfold ret.
    destruct (negb (truthy _)); [ now eexists | apply try_except_answers ].
  - unfold select_tutor, io_bind, lift, io_ret. cbn [py_get]. unfold ret.
    destruct (negb (truthy _) || negb (truthy _)); [ now eexists | apply try_except_answers ].
  - apply try_except_answers.
  - apply try_except_answers.
Qed.

(** X7.  A body that is not a JSON object (a list, a string, a number,
    [null]) has no [get]: [AttributeError] leaves the three handlers that
    read a body, before any file is read, and nothing is written. *)
Theorem body_must_be_object (now : string) (request_json : value) (fs : files) :
  is_dict request_json = false ->
  register_tutor request_json fs = (inl AttributeError, fs) /\
  register_student request_json fs = (inl AttributeError, fs) /\
  select_tutor now request_json fs = (inl AttributeError, fs).
Proof.
  intros H. destruct request_json; try discriminate H; repeat split.
Qed.

Lemma body_must_be_object_witness :
  register_tutor (VList [VStr "t1"]) example_files = (inl AttributeError, example_files).
Proof.
  apply (body_must_be_object example_time (VList [VStr "t1"]) example_files).
  reflexivity.
Defined.

(** ** A document that cannot be read *)

(** X8.  When the tutor document cannot be loaded (the file is missing
    or is not JSON), each of the four handlers that read it answers 500
    with its own message and the exception, and writes nothing.  The
    exception is one the code raises: a document this embedding does not
    read, [Unsupported], is left out. *)
Theorem tutor_document_unreadable (e : exn) (fs : files) :
  load_data TUTORS_FILE fs = inl e ->
  e <> Unsupported ->
  get_all_tutors fs = (inr (Failure "Failed to retrieve tutor data" e, 500), fs) /\
  (forall tutor_id,
      get_tutor_notifications tutor_id fs
      = (inr (Failure "Failed to retrieve notifications" e, 500), fs)) /\
  (forall fields tutor_id,
      dict_get fields (KStr "id") = Some tutor_id -> truthy tutor_id = true ->
      register_tutor (VDict fields) fs
      = (inr (Failure "Failed to save tutor profile" e, 500), fs)) /\
  (forall now fields tutor_id student_id,
      dict_get fields (KStr "tutorId") = Some tutor_id -> truthy tutor_id = true ->
      dict_get fields (KStr "studentId") = Some student_id -> truthy student_id = true ->
      select_tutor now (VDict fields) fs
      = (inr (Failure "Failed to notify tutor" e, 500), fs)).
Proof.
  intros Hload _. repeat split.
  - unfold get_all_tutors, try_except, io_bind, io_load. now rewrite Hload.
  - intros tutor_id. unfold get_tutor_notifications, try_except, io_bind, io_load.
    now rewrite Hload.
  - intros fields tutor_id Hid Htruthy.
    unfold register_tutor, io_bind, lift, try_except, io_load, py_get, ret.
    rewrite Hid. cbv beta iota. rewrite Htruthy. cbn [negb]. now rewrite Hload.
  - intros now fields tutor_id student_id Ht Htt Hs Hts.
    unfold select_tutor, io_bind, lift, try_except, io_load, py_get, ret.
    rewrite Ht, Hs. cbv beta iota. rewrite Htt, Hts. cbn [negb orb]. now rewrite Hload.
Qed.

Lemma tutor_document_unreadable_witness :
  get_all_tutors ∅
  = (inr (Failure "Failed to retrieve tutor data" (FileNotFoundError TUTORS_FILE), 500), ∅).
Proof.
  apply (tutor_document_unreadable (FileNotFoundError TUTORS_FILE) ∅);
    [ reflexivity | discriminate ].
Defined.

(** X9.  When the student document cannot be loaded, student
    registration answers 500; so does a selection, whoever it names: both
    documents are loaded before the ids are looked up.  The exception is
    one the code raises: a document this embedding does not read,
    [Unsupported], is left out. *)
Theorem student_document_unreadable (e : exn) (tutor_data : value) (fs : files) :
  load_data STUDENTS_FILE fs = inl e ->
  e <> Unsupported ->
  (forall fields student_id,
      dict_get fields (KStr "id") = Some student_id -> truthy student_id = true ->
      register_student (VDict fields) fs
      = (inr (Failure "Failed to save student profile" e, 500), fs)) /\
  (load_data TUTORS_FILE fs = inr tutor_data ->
   forall now fields tutor_id student_id,
      dict_get fields (KStr "tutorId") = Some tutor_id -> truthy tutor_id = true ->
      dict_get fields (KStr "studentId") = Some student_id -> truthy student_id = true ->
      select_tutor now (VDict fields) fs
      = (inr (Failure "Failed to notify tutor" e, 500), fs)).
Proof.
  intros Hload _. split.
  - intros fields student_id Hid Htruthy.
    unfold register_student, io_bind, lift, try_except, io_load, py_get, ret.
    rewrite Hid. cbv beta iota. rewrite Htruthy. cbn [negb]. now rewrite Hload.
  - intros Htutors now fields tutor_id student_id Ht Htt Hs Hts.
    unfold select_tutor, io_bind, lift, try_except, io_load, py_get, ret.
    rewrite Ht, Hs. cbv beta iota. rewrite Htt, Hts. cbn [negb orb].
    now rewrite Htutors, Hload.
Qed.

Lemma student_document_unreadable_witness :
  select_tutor example_time (VDict example_selection) tutors_only_files
  = (inr (Failure "Failed to notify tutor" (FileNotFoundError STUDENTS_FILE), 500),
     tutors_only_files).
Proof.
  refine (proj2 (student_document_unreadable (FileNotFoundError STUDENTS_FILE)
                   (VDict example_tutors) tutors_only_files _ _) _
                example_time example_selection (VStr "t1") (VStr "s1") _ _ _ _);
    try discriminate; vm_compute; reflexivity.
Defined.

(** ** Requests that lack an id *)

(** X10.  A selection whose body lacks [tutorId] or [studentId], or has
    a falsy one, is answered 400 without any file being read or written:
    the answer is the same whatever the files hold. *)
Theorem select_tutor_requires_ids
  (now : string) (request_json tutor_id student_id : value) (fs : files) :
  py_get request_json "tutorId" VNone = inr tutor_id ->
  py_get request_json "studentId" VNone = inr student_id ->
  truthy tutor_id && truthy student_id = false ->
  select_tutor now request_json fs
  = (inr (message "Tutor ID and Student ID are required", 400), fs).
Proof.
  intros Ht Hs Hfalsy. unfold select_tutor, io_bind, lift.
  rewrite Ht, Hs.
  replace (negb (truthy tutor_id) || negb (truthy student_id)) with true; [ reflexivity | ].
  destruct (truthy tutor_id), (truthy student_id); try reflexivity. discriminate Hfalsy.
Qed.

Lemma select_tutor_requires_ids_witness :
  select_tutor example_time (VDict [ (KStr "tutorId", VStr "t1") ]) ∅
  = (inr (message "Tutor ID and Student ID are required", 400), ∅).
Proof.
  apply (select_tutor_requires_ids _ _ (VStr "t1") VNone); reflexivity.
Defined.

(** X11.  A student registration whose body has no id, or a falsy one,
    is answered 400 and no file is read or written. *)
Theorem register_student_requires_id (request_json student_id : value) (fs : files) :
  py_get request_json "id" VNone = inr student_id ->
  truthy student_id = false ->
  register_student request_json fs = (inr (message "Student ID is required", 400), fs).
Proof.
  intros Hid Hfalsy. unfold register_student, io_bind, lift.
  rewrite Hid, Hfalsy. reflexivity.
Qed.

Lemma register_student_requires_id_witness :
  register_student (VDict [ (KStr "id", VStr "") ]) ∅
  = (inr (message "Student ID is required", 400), ∅).
Proof.
  apply (register_student_requires_id _ (VStr "")); reflexivity.
Defined.

(** ** Registration, whatever the id *)

Lemma register_tutor_run (fields : dict) (tutor_id data : value) (fs : files) :
  dict_get fields (KStr "id") = Some tutor_id ->
  truthy tutor_id = true ->
  load_data TUTORS_FILE fs = inr data ->
  register_tutor (VDict fields) fs =
  match py_setitem data tutor_id
          (VDict (dict_set fields (KStr "notifications") (VList []))) with
  | inl e => (inr (Failure "Failed to save tutor profile" e, 500), fs)
  | inr data' =>
      (inr (message "Tutor profile saved successfully!", 201),
       save_data TUTORS_FILE data' fs)
  end.
Proof.
  intros Hid Htruthy Hload.
  unfold register_tutor, io_bind, lift, try_except, io_load, io_save, io_ret, py_get, ret.
  rewrite Hid. cbv beta iota. rewrite Htruthy. cbn [negb]. rewrite Hload.
  cbn [py_setitem hashable bind ret]. unfold bind, ret.
  destruct (py_setitem data tutor_id _); reflexivity.
Qed.

Lemma register_student_run (fields : dict) (student_id data : value) (fs : files) :
  dict_get fields (KStr "id") = Some student_id ->
  truthy student_id = true ->
  load_data STUDENTS_FILE fs = inr data ->
  register_student (VDict fields) fs =
  match py_setitem data student_id (VDict fields) with
  | inl e => (inr (Failure "Failed to save student profile" e, 500), fs)
  | inr data' =>
      (inr (message "Student profile saved successfully!", 201),
       save_data STUDENTS_FILE data' fs)
  end.
Proof.
  intros Hid Htruthy Hload.
  unfold register_student, io_bind, lift, try_except, io_load, io_save, io_ret, py_get, ret.
  rewrite Hid. cbv beta iota. rewrite Htruthy. cbn [negb]. rewrite Hload.
  destruct (py_setitem data student_id _); reflexivity.
Qed.

(** A key that is not a string is no key of a decoded dictionary. *)
Lemma is_json_not_str_key (d : dict) (k : key) :
  is_json (VDict d) = true -> is_str_key k = false -> dict_get d k = None.
Proof.
  intros Hjson Hk. destruct (dict_get d k) as [ v | ] eqn:Hg; [ | reflexivity ].
  destruct (is_json_key _ _ _ Hjson Hg) as [s ->]. discriminate Hk.
Qed.

Lemma dict_update_app (acc l1 l2 : dict) :
  dict_update acc (l1 ++ l2) = dict_update (dict_update acc l1) l2.
Proof. unfold dict_update. apply fold_left_app. Qed.

(** Written and read back, a decoded map with one more item has the item
    under the text of its key. *)
Lemma coerce_dict_set (d : dict) (k : key) (v : value) :
  is_json (VDict d) = true -> is_json v = true ->
  coerce (VDict (dict_set d k v)) = VDict (dict_set d (KStr (key_str k)) v).
Proof.
  intros Hd Hv. destruct (is_str_key k) eqn:Hk.
  - destruct k; try discriminate Hk. apply coerce_is_json. now apply is_json_dict_set.
  - rewrite (dict_keys_set_new d k v (is_json_not_str_key d k Hd Hk)).
    pose proof (coerce_is_json _ Hd) as Hc. cbn [coerce] in Hc |- *.
    injection Hc as Hc. f_equal.
    change (dict_of_pairs ?l) with (dict_update [] l) in *.
    rewrite map_app, dict_update_app, Hc. cbn [map fst snd].
    unfold dict_update. cbn [fold_left fst snd]. now rewrite (coerce_is_json v Hv).
Qed.

(** C3 as stated fails.  The id of the first body is truthy and the
    answer is 500, not 201, with nothing stored: the id is a list, which
    cannot be a key.  The id of the second body is the number 1 and the
    answer is 201, but the record is not under that id in the map the
    document then holds: it is under the text ["1"]. *)
Lemma register_tutor_list_id :
  (dict_get listed_registration (KStr "id") = Some (VList [VInt 1]) /\
   truthy (VList [VInt 1]) = true /\
   load_data TUTORS_FILE example_files = inr (VDict example_tutors) /\
   register_tutor (VDict listed_registration) example_files
   = (inr (Failure "Failed to save tutor profile" TypeError, 500), example_files)) /\
  (dict_get numbered_registration (KStr "id") = Some (VInt 1) /\
   truthy (VInt 1) = true /\
   fst (register_tutor (VDict numbered_registration) example_files)
   = inr (message "Tutor profile saved successfully!", 201) /\
   exists tutors',
     load_data TUTORS_FILE (snd (register_tutor (VDict numbered_registration) example_files))
     = inr (VDict tutors') /\
     dict_mem tutors' (KInt 1) = false /\
     dict_mem tutors' (KStr "1") = true).
Proof.
  split; [ vm_compute; repeat split | ].
  do 3 (split; [ vm_compute; reflexivity | ]).
  eexists. split; [ vm_compute; reflexivity | ]. split; vm_compute; reflexivity.
Qed.

(** C3, amended.  A registration whose body carries a truthy id that is
    a scalar (a string, a number, a boolean), when the tutor document
    holds a map, is answered 201; the map the document then holds is the
    old one with the record stored under the JSON text of the id, the id
    itself when it is a string, and the record is the body with
    [notifications] set to the empty list.  So the stored record has no
    notification whatever the body or an earlier record under the id
    held, its other fields are the body's, and the other tutors are
    untouched. *)
Theorem register_tutor_saves (fields tutors : dict) (tutor_id : value) (k : key) (fs : files) :
  is_json (VDict fields) = true ->
  dict_get fields (KStr "id") = Some tutor_id ->
  truthy tutor_id = true ->
  hashable tutor_id = inr k ->
  load_data TUTORS_FILE fs = inr (VDict tutors) ->
  let record := dict_set fields (KStr "notifications") (VList []) in
  let tutors' := dict_set tutors (KStr (key_str k)) (VDict record) in
  let fs' := save_data TUTORS_FILE (VDict (dict_set tutors k (VDict record))) fs in
  register_tutor (VDict fields) fs
  = (inr (message "Tutor profile saved successfully!", 201), fs') /\
  load_data TUTORS_FILE fs' = inr (VDict tutors') /\
  dict_get tutors' (KStr (key_str k)) = Some (VDict record) /\
  dict_get record (KStr "notifications") = Some (VList []) /\
  (forall k', key_eqb (KStr "notifications") k' = false ->
              dict_get record k' = dict_get fields k') /\
  (forall k', key_eqb (KStr (key_str k)) k' = false ->
              dict_get tutors' k' = dict_get tutors k').
Proof.
  intros Hfields Hid Htruthy Hk Hload record tutors' fs'.
  pose proof (load_data_is_json _ _ _ Hload) as Htutors.
  assert (Hrecord : is_json (VDict record) = true)
    by (now apply is_json_dict_set).
  repeat split.
  - rewrite (register_tutor_run fields tutor_id (VDict tutors) fs Hid Htruthy Hload).
    cbn [py_setitem]. rewrite Hk. reflexivity.
  - unfold fs'. rewrite load_save. f_equal. now apply coerce_dict_set.
  - apply dict_get_set_eq, key_eqb_refl.
  - apply dict_get_set_eq, key_eqb_refl.
  - intros k' Hk'. now apply dict_get_set_ne.
  - intros k' Hk'. now apply dict_get_set_ne.
Qed.

Lemma register_tutor_saves_witness :
  register_tutor (VDict example_registration) example_files
  = (inr (message "Tutor profile saved successfully!", 201),
     save_data TUTORS_FILE
       (VDict [ (KStr "t1",
                 VDict [ (KStr "id", VStr "t1"); (KStr "name", VStr "Janet");
                         (KStr "notifications", VList []) ]) ])
       example_files).
Proof.
  apply (register_tutor_saves example_registration example_tutors (VStr "t1") (KStr "t1")
           example_files);
    vm_compute; reflexivity.
Defined.

(** X12.  A tutor registration whose id is any non-empty scalar is
    answered 201.  The record (the body with [notifications] reset) is
    stored under the JSON text of the id: under the id itself when it is
    a string, under ["5"] for the number 5, under ["true"] for [true]. *)
Theorem register_tutor_scalar_id
  (fields tutors : dict) (tutor_id : value) (k : key) (fs : files) :
  is_json (VDict fields) = true ->
  dict_get fields (KStr "id") = Some tutor_id ->
  truthy tutor_id = true ->
  hashable tutor_id = inr k ->
  load_data TUTORS_FILE fs = inr (VDict tutors) ->
  let record := VDict (dict_set fields (KStr "notifications") (VList [])) in
  fst (register_tutor (VDict fields) fs)
  = inr (message "Tutor profile saved successfully!", 201) /\
  load_data TUTORS_FILE (snd (register_tutor (VDict fields) fs))
  = inr (VDict (dict_set tutors (KStr (key_str k)) record)).
Proof.
  intros Hfields Hid Htruthy Hk Hload record.
  pose proof (load_data_is_json _ _ _ Hload) as Htutors.
  rewrite (register_tutor_run fields tutor_id (VDict tutors) fs Hid Htruthy Hload).
  cbn [py_setitem]. rewrite Hk. cbn [bind ret fst snd]. split; [ reflexivity | ].
  rewrite load_save. f_equal. apply coerce_dict_set; [ exact Htutors | ].
  now apply is_json_dict_set.
Qed.

Lemma register_tutor_scalar_id_witness :
  load_data TUTORS_FILE (snd (register_tutor (VDict numbered_registration) example_files))
  = inr (VDict (dict_set example_tutors (KStr "1")
                  (VDict (dict_set numbered_registration (KStr "notifications") (VList []))))).
Proof.
  refine (proj2 (register_tutor_scalar_id numbered_registration example_tutors
                   (VInt 1) (KInt 1) example_files _ _ _ _ _));
    vm_compute; reflexivity.
Defined.

(** X13.  A student registration whose body carries a non-empty string
    id is answered 201.  The body is stored as it is under the id, no
    field added, over any record the id had; the other students and the
    tutor document are untouched. *)
Theorem register_student_saves (fields students : dict) (id : string) (fs : files) :
  is_json (VDict fields) = true ->
  dict_get fields (KStr "id") = Some (VStr id) ->
  truthy (VStr id) = true ->
  load_data STUDENTS_FILE fs = inr (VDict students) ->
  let students' := dict_set students (KStr id) (VDict fields) in
  let fs' := save_data STUDENTS_FILE (VDict students') fs in
  register_student (VDict fields) fs
  = (inr (message "Student profile saved successfully!", 201), fs') /\
  load_data STUDENTS_FILE fs' = inr (VDict students') /\
  dict_get students' (KStr id) = Some (VDict fields) /\
  (forall k, key_eqb (KStr id) k = false -> dict_get students' k = dict_get students k) /\
  load_data TUTORS_FILE fs' = load_data TUTORS_FILE fs.
Proof.
  intros Hfields Hid Htruthy Hload students' fs'.
  pose proof (load_data_is_json _ _ _ Hload) as Hstudents.
  repeat split.
  - now rewrite (register_student_run fields (VStr id) (VDict students) fs Hid Htruthy Hload).
  - apply load_save_json. now apply is_json_dict_set.
  - apply dict_get_set_eq, key_eqb_refl.
  - intros k Hk. now apply dict_get_set_ne.
  - now apply load_save_other.
Qed.

Lemma register_student_saves_witness :
  register_student (VDict example_student) example_files
  = (inr (message "Student profile saved successfully!", 201),
     save_data STUDENTS_FILE
       (VDict (example_students ++ [ (KStr "s2", VDict example_student) ]))
       example_files).
Proof.
  apply (register_student_saves example_student example_students "s2" example_files);
    vm_compute; reflexivity.
Defined.

Lemma py_setitem_unhashable (c k v : value) (e : exn) :
  hashable k = inl e -> py_setitem c k v = inl TypeError.
Proof.
  intros H. destruct k; try discriminate H; destruct c; reflexivity.
Qed.

(** X14.  An id that is a non-empty list or object cannot be a key:
    both registrations answer 500 with [TypeError], whatever their
    document holds, and a selection that names such a tutor does too.
    Nothing is written. *)
Theorem unhashable_id_fails (fields : dict) (id : value) (e : exn) (fs : files) :
  hashable id = inl e ->
  truthy id = true ->
  (forall data, dict_get fields (KStr "id") = Some id ->
                load_data TUTORS_FILE fs = inr data ->
                register_tutor (VDict fields) fs
                = (inr (Failure "Failed to save tutor profile" TypeError, 500), fs)) /\
  (forall data, dict_get fields (KStr "id") = Some id ->
                load_data STUDENTS_FILE fs = inr data ->
                register_student (VDict fields) fs
                = (inr (Failure "Failed to save student profile" TypeError, 500), fs)) /\
  (forall now tutors student_data student_id,
      dict_get fields (KStr "tutorId") = Some id ->
      dict_get fields (KStr "studentId") = Some student_id ->
      truthy student_id = true ->
      load_data TUTORS_FILE fs = inr (VDict tutors) ->
      load_data STUDENTS_FILE fs = inr student_data ->
      select_tutor now (VDict fields) fs
      = (inr (Failure "Failed to notify tutor" TypeError, 500), fs)).
Proof.
  intros Hk Htruthy. repeat split.
  - intros data Hid Hload.
    rewrite (register_tutor_run fields id data fs Hid Htruthy Hload).
    now rewrite (py_setitem_unhashable data id _ e Hk).
  - intros data Hid Hload.
    rewrite (register_student_run fields id data fs Hid Htruthy Hload).
    now rewrite (py_setitem_unhashable data id _ e Hk).
  - intros now tutors student_data student_id Ht Hs Hts Hload Hloads.
    unfold select_tutor, io_bind, lift, try_except, io_load, py_get, ret.
    rewrite Ht, Hs. cbv beta iota. rewrite Htruthy, Hts. cbn [negb orb].
    rewrite Hload, Hloads. cbn [py_contains]. unfold bind.
    destruct id; try discriminate Hk; reflexivity.
Qed.

Lemma unhashable_id_fails_witness :
  register_tutor (VDict listed_registration) example_files
  = (inr (Failure "Failed to save tutor profile" TypeError, 500), example_files).
Proof.
  refine (proj1 (unhashable_id_fails listed_registration (VList [VInt 1]) TypeError
                   example_files _ _) (VDict example_tutors) _ _);
    vm_compute; reflexivity.
Defined.

(** ** Ids that are numbers *)

Lemma truthy_intstr (z : Z) : truthy (VStr (intstr z)) = true.
Proof.
  destruct (intstr_head z) as (c & r & -> & _). reflexivity.
Qed.

(** The handler, once the ids are read and the documents loaded, for a
    tutor id that is no key of the tutor map. *)
Lemma select_tutor_unknown
  (now : string) (fields tutors : dict) (tutor_id student_id student_data : value)
  (k : key) (fs : files) :
  dict_get fields (KStr "tutorId") = Some tutor_id ->
  dict_get fields (KStr "studentId") = Some student_id ->
  truthy tutor_id = true ->
  truthy student_id = true ->
  hashable tutor_id = inr k ->
  load_data TUTORS_FILE fs = inr (VDict tutors) ->
  load_data STUDENTS_FILE fs = inr student_data ->
  dict_get tutors k = None ->
  select_tutor now (VDict fields) fs = (inr (message "Tutor or student not found", 404), fs).
Proof.
  intros Ht Hs Htt Hts Hk Hload Hloads Hnone.
  unfold select_tutor, io_bind, lift, try_except, io_load, py_get, ret.
  rewrite Ht, Hs. cbv beta iota. rewrite Htt, Hts. cbn [negb orb].
  rewrite Hload, Hloads. cbn [py_contains]. rewrite Hk. cbn [bind ret].
  unfold dict_mem. now rewrite Hnone.
Qed.

(** X15.  A tutor id that is a number, [true] or any scalar other than a
    string finds no tutor: every key of the stored map is a string, so
    the selection is answered 404 whatever the map holds. *)
Theorem select_tutor_id_not_text
  (now : string) (fields tutors : dict) (tutor_id student_id student_data : value)
  (k : key) (fs : files) :
  dict_get fields (KStr "tutorId") = Some tutor_id ->
  dict_get fields (KStr "studentId") = Some student_id ->
  truthy tutor_id = true ->
  truthy student_id = true ->
  hashable tutor_id = inr k ->
  is_str_key k = false ->
  load_data TUTORS_FILE fs = inr (VDict tutors) ->
  load_data STUDENTS_FILE fs = inr student_data ->
  select_tutor now (VDict fields) fs = (inr (message "Tutor or student not found", 404), fs).
Proof.
  intros Ht Hs Htt Hts Hk Hstr Hload Hloads.
  apply (select_tutor_unknown now fields tutors tutor_id student_id student_data k fs);
    try assumption.
  apply is_json_not_str_key; [ | exact Hstr ].
  exact (load_data_is_json _ _ _ Hload).
Qed.

Lemma select_tutor_id_not_text_witness :
  select_tutor example_time (VDict (selection (VInt 1) (VStr "s1"))) example_files
  = (inr (message "Tutor or student not found", 404), example_files).
Proof.
  apply (select_tutor_id_not_text example_time (selection (VInt 1) (VStr "s1"))
           example_tutors (VInt 1) (VStr "s1") (VDict example_students) (KInt 1)
           example_files);
    vm_compute; reflexivity.
Defined.

(** X16.  A tutor registered under the number [z] is stored under the
    digits of [z]: a selection that names the tutor by the number is
    answered 404, one that names the tutor by the digits is answered
    200. *)
Theorem register_by_number_select_by_text
  (now : string) (fields tutors students : dict) (z : Z) (s : string) (fs : files) :
  is_json (VDict fields) = true ->
  dict_get fields (KStr "id") = Some (VInt z) ->
  z <> 0%Z ->
  truthy (VStr s) = true ->
  load_data TUTORS_FILE fs = inr (VDict tutors) ->
  load_data STUDENTS_FILE fs = inr (VDict students) ->
  dict_mem students (KStr s) = true ->
  let fs' := snd (register_tutor (VDict fields) fs) in
  fst (register_tutor (VDict fields) fs)
  = inr (message "Tutor profile saved successfully!", 201) /\
  select_tutor now (VDict (selection (VInt z) (VStr s))) fs'
  = (inr (message "Tutor or student not found", 404), fs') /\
  fst (select_tutor now (VDict (selection (VStr (intstr z)) (VStr s))) fs')
  = inr (message "Tutor notified successfully!", 200).
Proof.
  intros Hfields Hid Hz Hts Hload Hloads Hstudent fs'.
  assert (Htruthy : truthy (VInt z) = true).
  { cbn [truthy]. apply negb_true_iff, Z.eqb_neq, Hz. }
  pose proof (load_data_is_json _ _ _ Hload) as Htutors.
  pose proof (register_tutor_run fields (VInt z) (VDict tutors) fs Hid Htruthy Hload) as Hrun.
  cbn [py_setitem hashable bind ret] in Hrun.
  set (record := dict_set fields (KStr "notifications") (VList [])) in *.
  assert (Hload' : load_data TUTORS_FILE fs'
                   = inr (VDict (dict_set tutors (KStr (intstr z)) (VDict record)))).
  { unfold fs'. rewrite Hrun. cbn [snd]. rewrite load_save.
    f_equal. apply (coerce_dict_set tutors (KInt z)); [ exact Htutors | ].
    now apply is_json_dict_set. }
  assert (Hloads' : load_data STUDENTS_FILE fs' = inr (VDict students)).
  { unfold fs'. rewrite Hrun. cbn [snd]. now rewrite load_save_other by discriminate. }
  split; [ now rewrite Hrun | ]. split.
  - apply (select_tutor_unknown now (selection (VInt z) (VStr s))
             (dict_set tutors (KStr (intstr z)) (VDict record))
             (VInt z) (VStr s) (VDict students) (KInt z) fs');
      try reflexivity; try assumption.
    apply is_json_not_str_key; [ | reflexivity ].
    exact (load_data_is_json _ _ _ Hload').
  - destruct (select_tutor_step now (selection (VStr (intstr z)) (VStr s)) _ students
                (intstr z) s fs' eq_refl eq_refl (truthy_intstr z) Hts Hload' Hloads'
                record [] (dict_get_set_eq _ _ _ _ (key_eqb_refl _))
                (dict_get_set_eq _ _ _ _ (key_eqb_refl _)) Hstudent) as (-> & _).
    reflexivity.
Qed.

Lemma register_by_number_select_by_text_witness :
  select_tutor example_time (VDict (selection (VInt 1) (VStr "s1")))
    (snd (register_tutor (VDict numbered_registration) example_files))
  = (inr (message "Tutor or student not found", 404),
     snd (register_tutor (VDict numbered_registration) example_files)).
Proof.
  refine (proj1 (proj2 (register_by_number_select_by_text example_time numbered_registration
                          example_tutors example_students 1 "s1" example_files
                          _ _ _ _ _ _ _)));
    try (vm_compute; reflexivity).
  discriminate.
Defined.

(** ** What a query shows after a change *)

(** The listing, once the document is loaded. *)
Lemma get_all_tutors_run (tutors : dict) (fs : files) :
  load_data TUTORS_FILE fs = inr (VDict tutors) ->
  get_all_tutors fs =
  match traverse without_notifications (dict_values tutors) with
  | inl e => (inr (Failure "Failed to retrieve tutor data" e, 500), fs)
  | inr filtered_tutors => (inr (Json (VList filtered_tutors), 200), fs)
  end.
Proof.
  intros Hload. unfold get_all_tutors, try_except, io_bind, io_load, lift, io_ret.
  rewrite Hload. cbn [py_values ret].
  destruct (traverse without_notifications (dict_values tutors)); reflexivity.
Qed.

Lemma traverse_snoc {A B} (f : A -> result B) (l : list A) (x : A) (ys : list B) (y : B) :
  traverse f l = inr ys -> f x = inr y -> traverse f (l ++ [x]) = inr (ys ++ [y]).
Proof.
  revert ys. induction l as [ | a l IH ]; intros ys Hl Hx; cbn [traverse app] in *.
  - injection Hl as <-. now rewrite Hx.
  - destruct (f a) as [ e | b ]; [ discriminate Hl | ]. cbn [bind] in *.
    destruct (traverse f l) as [ e | bs ]; [ discriminate Hl | ].
    cbn [bind ret] in Hl. injection Hl as <-.
    now rewrite (IH bs eq_refl Hx).
Qed.

Lemma filter_set_notifications (d : dict) (v : value) :
  List.filter not_notifications (dict_set d (KStr "notifications") v)
  = List.filter not_notifications d.
Proof.
  induction d as [ | [k0 v0] d IH ]; [ reflexivity | ].
  cbn [dict_set]. destruct (key_eqb k0 (KStr "notifications")) eqn:H0.
  - cbn [List.filter].
    change (not_notifications (k0, v)) with (negb (key_eqb k0 (KStr "notifications"))).
    change (not_notifications (k0, v0)) with (negb (key_eqb k0 (KStr "notifications"))).
    now rewrite H0.
  - cbn [List.filter].
    change (not_notifications (k0, v0)) with (negb (key_eqb k0 (KStr "notifications"))).
    now rewrite IH.
Qed.

(** X17.  A tutor registered under a new id goes last in the listing,
    after the tutors the listing showed before and in their order; the
    listing shows the body of the registration without its
    [notifications] field, if it had one. *)
Theorem register_tutor_listed_last
  (fields tutors : dict) (id : string) (shown : list value) (fs : files) :
  is_json (VDict fields) = true ->
  dict_get fields (KStr "id") = Some (VStr id) ->
  truthy (VStr id) = true ->
  load_data TUTORS_FILE fs = inr (VDict tutors) ->
  dict_get tutors (KStr id) = None ->
  get_all_tutors fs = (inr (Json (VList shown), 200), fs) ->
  let fs' := snd (register_tutor (VDict fields) fs) in
  get_all_tutors fs'
  = (inr (Json (VList (shown ++ [VDict (List.filter not_notifications fields)])), 200), fs').
Proof.
  intros Hfields Hid Htruthy Hload Hnew Hshown fs'.
  pose proof (load_data_is_json _ _ _ Hload) as Htutors.
  rewrite (get_all_tutors_run tutors fs Hload) in Hshown.
  destruct (traverse without_notifications (dict_values tutors)) as [ e | l ] eqn:Hl;
    [ discriminate Hshown | ].
  injection Hshown as ->.
  pose proof (register_tutor_run fields (VStr id) (VDict tutors) fs Hid Htruthy Hload) as Hrun.
  cbn [py_setitem hashable bind ret] in Hrun.
  set (record := dict_set fields (KStr "notifications") (VList [])) in *.
  assert (Hrecord : is_json (VDict record) = true) by now apply is_json_dict_set.
  assert (Hload' : load_data TUTORS_FILE fs' = inr (VDict (tutors ++ [(KStr id, VDict record)]))).
  { unfold fs'. rewrite Hrun. cbn [snd]. rewrite <- (dict_keys_set_new _ _ _ Hnew).
    apply load_save_json. now apply is_json_dict_set. }
  rewrite (get_all_tutors_run _ fs' Hload').
  unfold dict_values in *. rewrite map_app. cbn [map snd].
  rewrite (traverse_snoc _ _ _ shown (VDict (List.filter not_notifications fields)) Hl);
    [ reflexivity | ].
  rewrite (without_notifications_dict record Hrecord).
  unfold record. now rewrite filter_set_notifications.
Qed.

Lemma register_tutor_listed_last_witness :
  get_all_tutors (snd (register_tutor (VDict example_student) example_files))
  = (inr (Json (VList [ VDict [ (KStr "id", VStr "t1"); (KStr "name", VStr "Jane") ];
                        VDict example_student ]), 200),
     snd (register_tutor (VDict example_student) example_files)).
Proof.
  apply (register_tutor_listed_last example_student example_tutors "s2"
           [ VDict [ (KStr "id", VStr "t1"); (KStr "name", VStr "Jane") ] ] example_files);
    vm_compute; reflexivity.
Defined.

Lemma truthy_dict_set (d : dict) (k : key) (v : value) : truthy (VDict (dict_set d k v)) = true.
Proof.
  destruct d as [ | [k0 v0] d ]; cbn [dict_set truthy]; [ reflexivity | ].
  destruct (key_eqb k0 k); reflexivity.
Qed.

(** X18.  Right after a tutor registration, whatever scalar the id is,
    the tutor's notifications are the empty list: the query under the
    text of the id answers 200 with [[]].  Registering again under an id
    in use so discards the notifications the tutor had. *)
Theorem register_tutor_clears_notifications
  (fields tutors : dict) (tutor_id : value) (k : key) (fs : files) :
  is_json (VDict fields) = true ->
  dict_get fields (KStr "id") = Some tutor_id ->
  truthy tutor_id = true ->
  hashable tutor_id = inr k ->
  load_data TUTORS_FILE fs = inr (VDict tutors) ->
  let fs' := snd (register_tutor (VDict fields) fs) in
  get_tutor_notifications (key_str k) fs'
  = (inr (Json (VDict [ (KStr "notifications", VList []) ]), 200), fs').
Proof.
  intros Hfields Hid Htruthy Hk Hload fs'.
  pose proof (load_data_is_json _ _ _ Hload) as Htutors.
  pose proof (register_tutor_run fields tutor_id (VDict tutors) fs Hid Htruthy Hload) as Hrun.
  cbn [py_setitem] in Hrun. rewrite Hk in Hrun. cbn [bind ret] in Hrun.
  set (record := dict_set fields (KStr "notifications") (VList [])) in *.
  assert (Hload' : load_data TUTORS_FILE fs'
                   = inr (VDict (dict_set tutors (KStr (key_str k)) (VDict record)))).
  { unfold fs'. rewrite Hrun. cbn [snd]. rewrite load_save. f_equal.
    apply coerce_dict_set; [ exact Htutors | now apply is_json_dict_set ]. }
  rewrite (get_tutor_notifications_run (key_str k) _ fs' Hload').
  rewrite dict_get_set_eq by apply key_eqb_refl. cbv zeta.
  unfold record at 1. rewrite truthy_dict_set. cbn [negb py_get ret].
  unfold record. now rewrite dict_get_set_eq by apply key_eqb_refl.
Qed.

Lemma register_tutor_clears_notifications_witness :
  get_tutor_notifications "t1" (snd (register_tutor (VDict example_registration) lapsed_files))
  = (inr (Json (VDict [ (KStr "notifications", VList []) ]), 200),
     snd (register_tutor (VDict example_registration) lapsed_files)).
Proof.
  apply (register_tutor_clears_notifications example_registration lapsed_tutors (VStr "t1")
           (KStr "t1") lapsed_files);
    vm_compute; reflexivity.
Defined.

(** X19.  After a selection answered 200 the tutor's notifications, as
    the query returns them, are the ones before followed by the new one:
    the student's id, the sentence that names the student and the time
    of the request. *)
Theorem select_tutor_then_notifications
  (now : string) (fields tutors students record : dict) (t s : string)
  (ns : list value) (fs : files) :
  dict_get fields (KStr "tutorId") = Some (VStr t) ->
  dict_get fields (KStr "studentId") = Some (VStr s) ->
  truthy (VStr t) = true ->
  truthy (VStr s) = true ->
  load_data TUTORS_FILE fs = inr (VDict tutors) ->
  load_data STUDENTS_FILE fs = inr (VDict students) ->
  dict_get tutors (KStr t) = Some (VDict record) ->
  dict_get record (KStr "notifications") = Some (VList ns) ->
  dict_mem students (KStr s) = true ->
  let fs' := snd (select_tutor now (VDict fields) fs) in
  let notification :=
    VDict [ (KStr "student_id", VStr s);
            (KStr "message", VStr ("Student " +:+ s +:+ " is interested in your services."));
            (KStr "timestamp", VStr now) ] in
  get_tutor_notifications t fs'
  = (inr (Json (VDict [ (KStr "notifications", VList (ns ++ [notification])) ]), 200), fs').
Proof.
  intros Ht Hs Htt Hts Hload Hloads Hrecord Hns Hstudent fs' notification.
  destruct (select_tutor_step now fields tutors students t s fs Ht Hs Htt Hts Hload Hloads
              record ns Hrecord Hns Hstudent) as (Hrun & Hload' & _ & Hrecord' & Hns').
  unfold fs'. rewrite Hrun. cbn [snd].
  rewrite (get_tutor_notifications_run t _ _ Hload'), Hrecord'. cbv zeta.
  rewrite truthy_dict_set. cbn [negb py_get ret]. now rewrite Hns'.
Qed.

Lemma select_tutor_then_notifications_witness :
  get_tutor_notifications "t1" (snd (select_tutor example_time (VDict example_selection) example_files))
  = (inr (Json (VDict [ (KStr "notifications",
                         VList [ VDict [ (KStr "student_id", VStr "s1");
                                         (KStr "message",
                                          VStr "Student s1 is interested in your services.");
                                         (KStr "timestamp", VStr example_time) ] ]) ]), 200),
     snd (select_tutor example_time (VDict example_selection) example_files)).
Proof.
  apply (select_tutor_then_notifications example_time example_selection example_tutors
           example_students example_tutor "t1" "s1" [] example_files);
    vm_compute; reflexivity.
Defined.

(** ** A run of requests *)

(** X20.  Selections of one tutor by students of the student map, served
    one after the other, leave the tutor with the notifications there
    were followed by one per request, in the order of the requests; the
    other fields of the record and the other tutors are as they were. *)
Theorem selections_accumulate (students : dict) (t : string) (picks : list (string * string)) :
  truthy (VStr t) = true ->
  forallb (fun p => truthy (VStr (snd p)) && dict_mem students (KStr (snd p))) picks = true ->
  forall (fs : files) (tutors record : dict) (ns : list value),
    load_data TUTORS_FILE fs = inr (VDict tutors) ->
    load_data STUDENTS_FILE fs = inr (VDict students) ->
    dict_get tutors (KStr t) = Some (VDict record) ->
    dict_get record (KStr "notifications") = Some (VList ns) ->
    exists tutors' record',
      load_data TUTORS_FILE (serve (selections t picks) fs) = inr (VDict tutors') /\
      dict_get tutors' (KStr t) = Some (VDict record') /\
      dict_get record' (KStr "notifications")
      = Some (VList (ns ++ map (fun p => notification_for (fst p) (VStr (snd p))) picks)) /\
      (forall k, key_eqb (KStr "notifications") k = false ->
                 dict_get record' k = dict_get record k) /\
      (forall k, key_eqb (KStr t) k = false -> dict_get tutors' k = dict_get tutors k).
Proof.
  intros Htt. induction picks as [ | [now s] later IH ];
    intros Hpicks fs tutors record ns Hload Hloads Hrecord Hns.
  - exists tutors, record. cbn [selections serve map]. rewrite app_nil_r. auto.
  - cbn [forallb fst snd] in Hpicks.
    apply andb_true_iff in Hpicks as [Hs Hlater]. apply andb_true_iff in Hs as [Hts Hstudent].
    destruct (select_tutor_step now (selection (VStr t) (VStr s)) tutors students t s fs
                eq_refl eq_refl Htt Hts Hload Hloads record ns Hrecord Hns Hstudent)
      as (Hrun & Hload' & Hloads' & Hrecord' & Hns').
    cbn zeta in Hrun, Hload', Hloads', Hrecord', Hns'.
    destruct (IH Hlater _ _ _ _ Hload' Hloads' Hrecord' Hns')
      as (tutors' & record' & Hload'' & Hrecord'' & Hns'' & Hfields & Hothers).
    exists tutors', record'.
    change (selections t ((now, s) :: later))
      with (SelectTutor now (VDict (selection (VStr t) (VStr s))) :: selections t later).
    cbn [serve handle]. rewrite Hrun. cbn [snd map fst]. repeat split.
    + exact Hload''.
    + exact Hrecord''.
    + rewrite Hns'', <- app_assoc. reflexivity.
    + intros k Hk. rewrite (Hfields k Hk). now apply dict_get_set_ne.
    + intros k Hk. rewrite (Hothers k Hk). now apply dict_get_set_ne.
Qed.

Lemma selections_accumulate_witness :
  exists tutors' record',
    load_data TUTORS_FILE (serve (selections "t1" example_picks) example_files)
    = inr (VDict tutors') /\
    dict_get tutors' (KStr "t1") = Some (VDict record') /\
    dict_get record' (KStr "notifications")
    = Some (VList ([] ++ map (fun p => notification_for (fst p) (VStr (snd p))) example_picks)) /\
    (forall k, key_eqb (KStr "notifications") k = false ->
               dict_get record' k = dict_get example_tutor k) /\
    (forall k, key_eqb (KStr "t1") k = false -> dict_get tutors' k = dict_get example_tutors k).
Proof.
  apply (selections_accumulate example_students "t1" example_picks eq_refl eq_refl
           example_files example_tutors example_tutor []);
    vm_compute; reflexivity.
Defined.

Lemma well_kept_record (d : dict) (k : key) (v : value) :
  forallb has_notifications (dict_values d) = true ->
  dict_get d k = Some v -> has_notifications v = true.
Proof.
  unfold dict_values. induction d as [ | [k0 v0] d IH ]; simpl; [ discriminate | ].
  rewrite andb_true_iff. intros [H0 Hd].
  destruct (key_eqb k0 k); [ now intros [= <-] | now apply IH ].
Qed.

Lemma has_notifications_is_dict (l : list value) :
  forallb has_notifications l = true -> forallb is_dict l = true.
Proof.
  induction l as [ | v l IH ]; simpl; [ reflexivity | ].
  rewrite !andb_true_iff. intros [Hv Hl]. split; [ | now apply IH ].
  destruct v; try discriminate Hv; reflexivity.
Qed.

Lemma well_kept_listing (fs : files) :
  well_kept fs -> exists shown, get_all_tutors fs = (inr (Json (VList shown), 200), fs).
Proof.
  intros (tutors & Hload & Hall).
  pose proof (load_data_is_json _ _ _ Hload) as Hjson.
  destruct (traverse_without_notifications (dict_values tutors) (is_json_values _ Hjson)
              (has_notifications_is_dict _ Hall)) as (shown & Hshown & _).
  exists shown. now rewrite (get_all_tutors_run tutors fs Hload), Hshown.
Qed.

Lemma well_kept_notifications (tutor_id : string) (fs : files) :
  well_kept fs ->
  get_tutor_notifications tutor_id fs = (inr (message "Tutor not found", 404), fs) \/
  exists ns,
    get_tutor_notifications tutor_id fs
    = (inr (Json (VDict [ (KStr "notifications", VList ns) ]), 200), fs).
Proof.
  intros (tutors & Hload & Hall).
  rewrite (get_tutor_notifications_run tutor_id tutors fs Hload). cbv zeta.
  destruct (dict_get tutors (KStr tutor_id)) as [ tutor | ] eqn:Hrecord; [ | now left ].
  pose proof (well_kept_record _ _ _ Hall Hrecord) as Hhas.
  destruct tutor as [ | | | | | record ]; try discriminate Hhas.
  cbn [has_notifications] in Hhas.
  destruct (dict_get record (KStr "notifications")) as [ [ | | | | ns | ] | ] eqn:Hns;
    try discriminate Hhas.
  right. exists ns.
  destruct record as [ | kv record ]; [ discriminate Hns | ].
  cbn [truthy negb py_get ret]. now rewrite Hns.
Qed.

(** X21.  Once every tutor record has its list of notifications (as at
    a first start), then after requests with decoded bodies, whatever
    they are and however they are answered, the queries do not fail: the
    listing answers 200, the notifications of any id answer 404 or 200
    with a list, and a selection that names a tutor and a student of the
    two maps by their string ids answers 200. *)
Theorem served_store_answers (requests : list request) (fs : files) :
  forallb request_ok requests = true ->
  well_kept fs ->
  let fs' := serve requests fs in
  (exists shown, get_all_tutors fs' = (inr (Json (VList shown), 200), fs')) /\
  (forall tutor_id,
      get_tutor_notifications tutor_id fs' = (inr (message "Tutor not found", 404), fs') \/
      exists ns,
        get_tutor_notifications tutor_id fs'
        = (inr (Json (VDict [ (KStr "notifications", VList ns) ]), 200), fs')) /\
  (forall now tutors students t s,
      truthy (VStr t) = true ->
      truthy (VStr s) = true ->
      load_data TUTORS_FILE fs' = inr (VDict tutors) ->
      load_data STUDENTS_FILE fs' = inr (VDict students) ->
      dict_mem tutors (KStr t) = true ->
      dict_mem students (KStr s) = true ->
      fst (select_tutor now (VDict (selection (VStr t) (VStr s))) fs')
      = inr (message "Tutor notified successfully!", 200)).
Proof.
  intros Hok Hkept fs'.
  pose proof (serve_well_kept requests fs Hok Hkept) as Hkept'. fold fs' in Hkept'.
  split; [ now apply well_kept_listing | ].
  split; [ intros tutor_id; now apply well_kept_notifications | ].
  intros now tutors students t s Htt Hts Hload Hloads Htutor Hstudent.
  now apply (select_tutor_well_kept_notifies now (selection (VStr t) (VStr s))
               tutors students t s fs').
Qed.

Lemma served_store_answers_witness :
  exists shown,
    get_all_tutors (serve (selections "t1" example_picks) example_files)
    = (inr (Json (VList shown), 200), serve (selections "t1" example_picks) example_files).
Proof.
  refine (proj1 (served_store_answers (selections "t1" example_picks) example_files _ _)).
  - vm_compute; reflexivity.
  - exists example_tutors. split; vm_compute; reflexivity.
Defined.

(** ** Records that are no objects *)

Lemma traverse_without_notifications_fails (tutor_list : list value) :
  existsb (fun tutor => negb (is_dict tutor)) tutor_list = true ->
  traverse without_notifications tutor_list = inl AttributeError.
Proof.
  induction tutor_list as [ | tutor l IH ]; cbn [existsb traverse]; [ discriminate | ].
  destruct tutor; try reflexivity.
  cbn [is_dict negb orb]. intros Hl. rewrite (IH Hl). reflexivity.
Qed.

(** X22.  One stored record that is no object (a string, a number, a
    list, [null]) fails the whole listing: the answer is 500 with
    [AttributeError], whatever the other records are. *)
Theorem listing_needs_object_records (tutors : dict) (fs : files) :
  load_data TUTORS_FILE fs = inr (VDict tutors) ->
  existsb (fun tutor => negb (is_dict tutor)) (dict_values tutors) = true ->
  get_all_tutors fs = (inr (Failure "Failed to retrieve tutor data" AttributeError, 500), fs).
Proof.
  intros Hload Hsome.
  rewrite (get_all_tutors_run tutors fs Hload).
  now rewrite (traverse_without_notifications_fails _ Hsome).
Qed.

Lemma listing_needs_object_records_witness :
  get_all_tutors odd_files
  = (inr (Failure "Failed to retrieve tutor data" AttributeError, 500), odd_files).
Proof.
  apply (listing_needs_object_records odd_tutors odd_files); vm_compute; reflexivity.
Defined.

(** X23.  The notifications of a tutor whose stored record is a string,
    a number other than 0, [true] or a list with items cannot be read:
    the answer is 500 with [AttributeError], not 404. *)
Theorem notifications_need_object_record (tutor_id : string) (tutors : dict) (record : value)
  (fs : files) :
  load_data TUTORS_FILE fs = inr (VDict tutors) ->
  dict_get tutors (KStr tutor_id) = Some record ->
  truthy record = true ->
  is_dict record = false ->
  get_tutor_notifications tutor_id fs
  = (inr (Failure "Failed to retrieve notifications" AttributeError, 500), fs).
Proof.
  intros Hload Hrecord Htruthy Hdict.
  rewrite (get_tutor_notifications_run tutor_id tutors fs Hload), Hrecord. cbv zeta.
  rewrite Htruthy. cbn [negb].
  destruct record; try discriminate Hdict; reflexivity.
Qed.

Lemma notifications_need_object_record_witness :
  get_tutor_notifications "t2" odd_files
  = (inr (Failure "Failed to retrieve notifications" AttributeError, 500), odd_files).
Proof.
  apply (notifications_need_object_record "t2" odd_tutors (VStr "gone") odd_files);
    vm_compute; reflexivity.
Defined.

(** ** From a first start *)

(** X24.  At a first start, with no document there, nothing is known:
    the listing is the empty list, the notifications of any id are
    answered 404, and so is any selection with two non-empty scalar
    ids. *)
Theorem first_start_answers (fs : files) :
  fs !! TUTORS_FILE = None ->
  fs !! STUDENTS_FILE = None ->
  let fs0 := ensure_data_files_exist fs in
  get_all_tutors fs0 = (inr (Json (VList []), 200), fs0) /\
  (forall tutor_id,
      get_tutor_notifications tutor_id fs0 = (inr (message "Tutor not found", 404), fs0)) /\
  (forall now fields tutor_id student_id k,
      dict_get fields (KStr "tutorId") = Some tutor_id ->
      dict_get fields (KStr "studentId") = Some student_id ->
      truthy tutor_id = true ->
      truthy student_id = true ->
      hashable tutor_id = inr k ->
      select_tutor now (VDict fields) fs0
      = (inr (message "Tutor or student not found", 404), fs0)).
Proof.
  intros Ht Hs fs0.
  destruct (ensure_data_files_exist_first_start fs Ht Hs) as [Hload Hloads].
  fold fs0 in Hload, Hloads. repeat split.
  - now rewrite (get_all_tutors_run [] fs0 Hload).
  - intros tutor_id. now rewrite (get_tutor_notifications_run tutor_id [] fs0 Hload).
  - intros now fields tutor_id student_id k Htid Hsid Htt Hts Hk.
    now apply (select_tutor_unknown now fields [] tutor_id student_id (VDict []) k fs0).
Qed.

Lemma first_start_answers_witness :
  get_all_tutors (ensure_data_files_exist ∅)
  = (inr (Json (VList []), 200), ensure_data_files_exist ∅).
Proof.
  refine (proj1 (first_start_answers ∅ _ _)); reflexivity.
Defined.

(** X25.  The whole course, from a first start: a tutor registers, a
    student registers, the student selects the tutor.  The three
    requests are answered 201, 201 and 200; the tutor's notifications
    are then the one notification of the selection, and the listing
    shows the tutor as registered, less the [notifications] field. *)
Theorem first_course
  (now : string) (tutor student : dict) (t s : string) (fs : files) :
  fs !! TUTORS_FILE = None ->
  fs !! STUDENTS_FILE = None ->
  is_json (VDict tutor) = true ->
  is_json (VDict student) = true ->
  dict_get tutor (KStr "id") = Some (VStr t) ->
  dict_get student (KStr "id") = Some (VStr s) ->
  truthy (VStr t) = true ->
  truthy (VStr s) = true ->
  let fs0 := ensure_data_files_exist fs in
  let fs1 := snd (register_tutor (VDict tutor) fs0) in
  let fs2 := snd (register_student (VDict student) fs1) in
  let fs3 := snd (select_tutor now (VDict (selection (VStr t) (VStr s))) fs2) in
  fst (register_tutor (VDict tutor) fs0)
  = inr (message "Tutor profile saved successfully!", 201) /\
  fst (register_student (VDict student) fs1)
  = inr (message "Student profile saved successfully!", 201) /\
  fst (select_tutor now (VDict (selection (VStr t) (VStr s))) fs2)
  = inr (message "Tutor notified successfully!", 200) /\
  get_tutor_notifications t fs3
  = (inr (Json (VDict [ (KStr "notifications", VList [notification_for now (VStr s)]) ]), 200),
     fs3) /\
  get_all_tutors fs3
  = (inr (Json (VList [VDict (List.filter not_notifications tutor)]), 200), fs3).
Proof.
  intros Hnt Hns Htutor Hstudent Htid Hsid Htt Hts fs0 fs1 fs2 fs3.
  destruct (ensure_data_files_exist_first_start fs Hnt Hns) as [Hload0 Hloads0].
  fold fs0 in Hload0, Hloads0.
  set (record := dict_set tutor (KStr "notifications") (VList [])).
  assert (Hrecord : is_json (VDict record) = true) by now apply is_json_dict_set.
  pose proof (register_tutor_run tutor (VStr t) (VDict []) fs0 Htid Htt Hload0) as Hrun1.
  cbn [py_setitem hashable bind ret dict_set] in Hrun1. fold record in Hrun1.
  assert (Hload1 : load_data TUTORS_FILE fs1 = inr (VDict [ (KStr t, VDict record) ])).
  { unfold fs1. rewrite Hrun1. cbn [snd]. apply load_save_json.
    now apply (is_json_dict_set [] t). }
  assert (Hloads1 : load_data STUDENTS_FILE fs1 = inr (VDict [])).
  { unfold fs1. rewrite Hrun1. cbn [snd]. now rewrite load_save_other by discriminate. }
  pose proof (register_student_run student (VStr s) (VDict []) fs1 Hsid Hts Hloads1) as Hrun2.
  cbn [py_setitem hashable bind ret dict_set] in Hrun2.
  assert (Hload2 : load_data TUTORS_FILE fs2 = inr (VDict [ (KStr t, VDict record) ])).
  { unfold fs2. rewrite Hrun2. cbn [snd]. now rewrite load_save_other by discriminate. }
  assert (Hloads2 : load_data STUDENTS_FILE fs2 = inr (VDict [ (KStr s, VDict student) ])).
  { unfold fs2. rewrite Hrun2. cbn [snd]. apply load_save_json.
    now apply (is_json_dict_set [] s). }
  assert (Hmem : dict_mem [ (KStr s, VDict student) ] (KStr s) = true).
  { unfold dict_mem. cbn [dict_get]. now rewrite key_eqb_refl. }
  assert (Hget : dict_get [ (KStr t, VDict record) ] (KStr t) = Some (VDict record)).
  { cbn [dict_get]. now rewrite key_eqb_refl. }
  destruct (select_tutor_step now (selection (VStr t) (VStr s)) _ _ t s fs2
              eq_refl eq_refl Htt Hts Hload2 Hloads2 record []
              Hget (dict_get_set_eq _ _ _ _ (key_eqb_refl _)) Hmem)
    as (Hrun3 & Hload3 & _ & Hrecord3 & Hns3).
  cbn zeta in Hrun3, Hload3, Hrecord3, Hns3. cbn [app] in Hrun3, Hload3, Hrecord3, Hns3.
  set (record' := dict_set record (KStr "notifications")
                    (VList [notification_for now (VStr s)])) in *.
  assert (Hrecord' : is_json (VDict record') = true).
  { apply is_json_dict_set; [ exact Hrecord | ].
    apply (is_json_app [] _ eq_refl). now apply is_json_notification. }
  assert (Hload3' : load_data TUTORS_FILE fs3 = inr (VDict [ (KStr t, VDict record') ])).
  { unfold fs3. rewrite Hrun3. cbn [snd]. rewrite Hload3.
    cbn [dict_set]. now rewrite key_eqb_refl. }
  split; [ now rewrite Hrun1 | ]. split; [ now rewrite Hrun2 | ].
  split; [ now rewrite Hrun3 | ]. split.
  - rewrite (get_tutor_notifications_run t _ fs3 Hload3'). cbn [dict_get].
    rewrite key_eqb_refl. cbv zeta. unfold record' at 1. rewrite truthy_dict_set.
    cbn [negb py_get ret]. unfold record'.
    now rewrite dict_get_set_eq by apply key_eqb_refl.
  - rewrite (get_all_tutors_run _ fs3 Hload3'). unfold dict_values. cbn [map snd traverse].
    rewrite (without_notifications_dict record' Hrecord'). cbn [bind ret].
    unfold record', record. now rewrite !filter_set_notifications.
Qed.

Lemma first_course_witness :
  let fs1 := snd (register_tutor (VDict example_registration) (ensure_data_files_exist ∅)) in
  let fs2 := snd (register_student (VDict example_student) fs1) in
  let fs3 := snd (select_tutor example_time (VDict (selection (VStr "t1") (VStr "s2"))) fs2) in
  get_all_tutors fs3
  = (inr (Json (VList [VDict (List.filter not_notifications example_registration)]), 200), fs3).
Proof.
  refine (proj2 (proj2 (proj2 (proj2
            (first_course example_time example_registration example_student "t1" "s2" ∅
               _ _ _ _ _ _ _ _)))));
    vm_compute; reflexivity.
Defined.

(** ** The text of a document *)

Lemma all_plain_app (s1 s2 : string) :
  all_plain (s1 +:+ s2) = all_plain s1 && all_plain s2.
Proof.
  induction s1 as [ | c s1 IH ]; [ reflexivity | ].
  cbn [String.append all_plain]. now rewrite IH, andb_assoc.
Qed.

Lemma all_plain_escape_char (c : ascii) : all_plain (escape_char c) = true.
Proof. destruct c as [[] [] [] [] [] [] [] []]; reflexivity. Qed.

Lemma all_plain_escape (s : string) : all_plain (escape s) = true.
Proof.
  induction s as [ | c s IH ]; [ reflexivity | ].
  cbn [escape]. now rewrite all_plain_app, all_plain_escape_char, IH.
Qed.

Lemma all_plain_basestring (s : string) : all_plain (encode_basestring_ascii s) = true.
Proof.
  unfold encode_basestring_ascii. cbn [all_plain].
  now rewrite all_plain_app, all_plain_escape.
Qed.

Lemma all_plain_uint (d : Decimal.uint) : all_plain (DecimalString.NilEmpty.string_of_uint d) = true.
Proof. induction d; cbn [DecimalString.NilEmpty.string_of_uint all_plain]; now try rewrite IHd. Qed.

Lemma all_plain_intstr (z : Z) : all_plain (intstr z) = true.
Proof.
  unfold intstr, NilZero.string_of_int, NilZero.string_of_uint.
  destruct (Z.to_int z) as [ d | d ]; destruct d; try reflexivity;
    apply (all_plain_uint (_ _)) || (cbn [all_plain]; apply (all_plain_uint (_ _))).
Qed.

Lemma all_plain_spaces (n : nat) : all_plain (spaces n) = true.
Proof. induction n as [ | n IH ]; [ reflexivity | exact IH ]. Qed.

Lemma all_plain_newline_indent (lvl : nat) : all_plain (newline_indent lvl) = true.
Proof. unfold newline_indent. cbn [all_plain]. apply all_plain_spaces. Qed.

Lemma all_plain_concat (sep : string) (l : list string) :
  all_plain sep = true -> Forall (fun s => all_plain s = true) l ->
  all_plain (String.concat sep l) = true.
Proof.
  intros Hsep. induction 1 as [ | s l Hs Hl IH ]; [ reflexivity | ].
  cbn [String.concat]. destruct l as [ | s' l ]; [ exact Hs | ].
  now rewrite !all_plain_app, Hs, Hsep, IH.
Qed.

Lemma all_plain_map {A} (P : A -> Prop) (f : A -> string) (l : list A) :
  (forall x, P x -> all_plain (f x) = true) -> Forall P l ->
  Forall (fun s => all_plain s = true) (map f l).
Proof.
  intros Hf. induction 1 as [ | x l Hx Hl IH ]; cbn [map]; constructor; auto.
Qed.

Lemma all_plain_iterencode (o : value) (lvl : nat) : all_plain (iterencode lvl o) = true.
Proof.
  revert lvl. induction o as [ | b | z | s | l IH | d IH ] using value_ind'; intros lvl.
  - reflexivity.
  - destruct b; reflexivity.
  - apply all_plain_intstr.
  - apply all_plain_basestring.
  - destruct l as [ | x l ]; [ reflexivity | ].
    cbn [iterencode]. rewrite !all_plain_app, !all_plain_newline_indent.
    rewrite all_plain_concat; [ reflexivity | | ].
    + rewrite all_plain_app. apply all_plain_newline_indent.
    + revert IH. apply all_plain_map. intros v Hv. apply Hv.
  - destruct d as [ | kv d ]; [ reflexivity | ].
    cbn [iterencode]. rewrite !all_plain_app, !all_plain_newline_indent.
    rewrite all_plain_concat; [ reflexivity | | ].
    + rewrite all_plain_app. apply all_plain_newline_indent.
    + revert IH. apply all_plain_map. intros [k v] Hv.
      cbn [fst snd] in *. now rewrite !all_plain_app, all_plain_basestring, Hv.
Qed.

(** X26.  The text [save_data] writes holds printable ASCII characters
    and new lines, nothing else, whatever the value: every other
    character of a string or a key is written as an escape. *)
Theorem save_data_writes_ascii (file_path : string) (data : value) (fs : files) :
  exists text,
    save_data file_path data fs !! file_path = Some text /\ all_plain text = true.
Proof.
  exists (dumps data). unfold save_data. rewrite lookup_insert_eq.
  split; [ reflexivity | ]. apply all_plain_iterencode.
Qed.

(** ** Registrations of tutors and of students are independent *)

Lemma load_data_local (file_path : string) (fs fs' : files) :
  fs !! file_path = fs' !! file_path -> load_data file_path fs = load_data file_path fs'.
Proof. intros H. unfold load_data. now rewrite H. Qed.

(** A registration reads its own document and nothing else: on two
    stores that agree on it, it gives the same answer and the same
    change, a document to write or none. *)
Lemma register_tutor_local (request_json : value) (fs fs' : files) :
  fs !! TUTORS_FILE = fs' !! TUTORS_FILE ->
  exists r (written : option value),
    let write fs := match written with
                    | Some data => save_data TUTORS_FILE data fs
                    | None => fs
                    end in
    register_tutor request_json fs = (r, write fs) /\
    register_tutor request_json fs' = (r, write fs').
Proof.
  intros H. unfold register_tutor, io_bind, lift, try_except, io_load, io_save, io_ret.
  destruct (py_get request_json "id" VNone) as [ e | tutor_id ];
    [ now eexists _, None | ].
  destruct (negb (truthy tutor_id)); [ now eexists _, None | ].
  rewrite <- (load_data_local TUTORS_FILE fs fs' H).
  destruct (load_data TUTORS_FILE fs) as [ e | data ]; [ now eexists _, None | ].
  destruct (py_setitem request_json (VStr "notifications") (VList [])) as [ e | tutor_data ];
    [ now eexists _, None | ].
  destruct (py_setitem data tutor_id tutor_data) as [ e | data' ];
    [ now eexists _, None | now eexists _, (Some data') ].
Qed.

Lemma register_student_local (request_json : value) (fs fs' : files) :
  fs !! STUDENTS_FILE = fs' !! STUDENTS_FILE ->
  exists r (written : option value),
    let write fs := match written with
                    | Some data => save_data STUDENTS_FILE data fs
                    | None => fs
                    end in
    register_student request_json fs = (r, write fs) /\
    register_student request_json fs' = (r, write fs').
Proof.
  intros H. unfold register_student, io_bind, lift, try_except, io_load, io_save, io_ret.
  destruct (py_get request_json "id" VNone) as [ e | student_id ];
    [ now eexists _, None | ].
  destruct (negb (truthy student_id)); [ now eexists _, None | ].
  rewrite <- (load_data_local STUDENTS_FILE fs fs' H).
  destruct (load_data STUDENTS_FILE fs) as [ e | data ]; [ now eexists _, None | ].
  destruct (py_setitem data student_id request_json) as [ e | data' ];
    [ now eexists _, None | now eexists _, (Some data') ].
Qed.

Lemma register_tutor_keeps_students (request_json : value) (fs : files) :
  fs !! STUDENTS_FILE = snd (register_tutor request_json fs) !! STUDENTS_FILE.
Proof.
  destruct (register_tutor_effect request_json fs) as [-> | [data ->]]; [ reflexivity | ].
  cbn [snd]. now rewrite lookup_save_other by discriminate.
Qed.

Lemma register_student_keeps_tutors (request_json : value) (fs : files) :
  fs !! TUTORS_FILE = snd (register_student request_json fs) !! TUTORS_FILE.
Proof.
  destruct (register_student_effect request_json fs) as [-> | [data ->]]; [ reflexivity | ].
  cbn [snd]. now rewrite lookup_save_other by discriminate.
Qed.

(** X27.  A tutor registration and a student registration do not see
    each other: served in either order, whatever their bodies and
    whatever the store holds, each gets the same answer and the store
    ends the same. *)
Theorem registrations_commute (tutor_json student_json : value) (fs : files) :
  let by_tutor := register_tutor tutor_json fs in
  let by_student := register_student student_json fs in
  fst (register_student student_json (snd by_tutor)) = fst by_student /\
  fst (register_tutor tutor_json (snd by_student)) = fst by_tutor /\
  snd (register_student student_json (snd by_tutor))
  = snd (register_tutor tutor_json (snd by_student)).
Proof.
  cbv zeta.
  destruct (register_tutor_local tutor_json fs _
              (register_student_keeps_tutors student_json fs))
    as (r1 & w1 & Ht & Ht').
  destruct (register_student_local student_json fs _
              (register_tutor_keeps_students tutor_json fs))
    as (r2 & w2 & Hs & Hs').
  rewrite Hs', Ht', Ht, Hs. cbn [fst snd]. repeat split.
  destruct w1 as [ d1 | ], w2 as [ d2 | ]; try reflexivity.
  unfold save_data. now apply insert_insert_ne.
Qed.
